(** * Live run monitor of the ML LearnLab frontend

    A shallow embedding of the browser-side run monitor: the status
    handlers and toast effects of the Analyze, Clean and Train pages, the
    log, metric/chart and progress accumulators of the Train page, the two
    Socket.IO wrappers and the response interceptor of the shared REST
    client.

    Conventions.  A React state cell [x] with setter [setX] is a record
    field [x] with a function [setX] taking the updater; a [useRef] cell is
    a record field.  Calls that leave the page ([toast.*], [socket.emit],
    [api.post]) are appended to a trace field of the state.  A handler that
    reads the clock takes the reading ([new Date().toISOString()]) as its
    argument [now].  Status values are JavaScript strings and stay strings
    here.  Counters received as JSON integers are integers here; where the
    page divides them the arithmetic is that of IEEE 754 doubles. *)

From Stdlib Require Import ZArith QArith Lia.
From Stdlib Require PrimFloat SpecFloat FloatOps.
From stdpp Require Import base list strings gmap.

(** ** JavaScript operators used by the pages *)

Module Js.

(** [arr.includes(s)] on an array of strings. *)
Definition includes (arr : list string) (s : string) : bool :=
  existsb (String.eqb s) arr.

(** Truthiness of a value that is a string when present: [undefined],
    [null] and the empty string are falsy. *)
Definition truthy (v : option string) : bool :=
  match v with
  | Some s => negb (String.eqb s "")
  | None => false
  end.

(** [a ?? b]: the left operand unless it is [null] or [undefined]. *)
Definition nullish {A : Type} (a b : option A) : option A :=
  match a with
  | Some _ => a
  | None => b
  end.

(** [a || b] where both are numbers when present: [undefined], [null] and
    [0] are falsy. *)
Definition orNum (a b : option Z) : option Z :=
  match a with
  | Some x => if (x =? 0)%Z then b else a
  | None => b
  end.

(** [a || b] on optional strings. *)
Definition orStr (a b : option string) : option string :=
  if truthy a then a else b.

(** A JSON integer as the double JavaScript holds for it: the nearest
    double, ties to even. *)
Definition number (z : Z) : PrimFloat.float :=
  FloatOps.SF2Prim
    (SpecFloat.binary_normalize FloatOps.prec FloatOps.emax z 0 false).

End Js.

Arguments Js.includes : simpl never.
Arguments Js.truthy : simpl never.

(** ** Events received over the realtime channel *)

(** A structured payload ([analysis_results], [cleaning_report], the
    [data] of a typed log line).  Only its [preview_cleaned_data] member is
    ever inspected by the pages. *)
Inductive Payload : Type :=
| Blob (summary : string)
| WithPreview (summary : string) (preview : Payload).

(** [p.preview_cleaned_data] *)
Definition preview_cleaned_data (p : Payload) : option Payload :=
  match p with
  | Blob _ => None
  | WithPreview _ pv => Some pv
  end.

(** A [training_log] event. *)
Module Log.

Record t : Type := mk {
  type : option string;
  message : option string;
  log_type : option string;
  key : option string;
  data : option Payload;
  timestamp : option string
}.

(** [log.timestamp = ts] *)
Definition set_timestamp (ts : string) (log : t) : t :=
  mk (type log) (message log) (log_type log) (key log) (data log) (Some ts).

(** The object literal [{ type, message, timestamp }] of a client note. *)
Definition note (ty msg ts : string) : t :=
  mk (Some ty) (Some msg) None None None (Some ts).

Definition type_is (ty : string) (log : t) : bool :=
  match type log with
  | Some s => String.eqb s ty
  | None => false
  end.

Definition key_is (k : string) (log : t) : bool :=
  match key log with
  | Some s => String.eqb s k
  | None => false
  end.

End Log.

(** A [status_update] event. *)
Module StatusUpdate.

Record t : Type := mk {
  status : string;
  timestamp : option string
}.

End StatusUpdate.

(** Calls made on the toast library, in the order they are made. *)
Inductive Toast : Type :=
| toast_success (msg : string)
| toast_error (msg : string)
| toast_loading (msg : string)
| toast_dismiss.

(** The [toastShownRef] cell of the Analyze and Clean pages. *)
Record ToastShown : Type := mkShown {
  success : bool;
  error : bool
}.

(** The run record returned by [GET /training/run/{runId}]. *)
Module RunDetails.

Record t : Type := mk {
  status : option string;
  analysis_results : option Payload;
  cleaning_report : option Payload;
  model_id_str : option string;
  config_task_type : option string;      (* user_config?.task_type *)
  summary_task_type : option string      (* educational_summary?.task_type *)
}.

End RunDetails.

(** The statuses the specification calls terminal. *)
Definition spec_terminal : list string :=
  ["SUCCESS"; "FAILED"; "ANALYSIS_FAILED"; "CLEANING_FAILED";
   "CLEANING_SUCCESS"; "CANCELLED"; "FETCH_FAILED"].

(** ** The Analyze page (AnalyzeData.jsx) *)

Module Analyze.

Record Page : Type := mkPage {
  logs : list Log.t;
  analysisResults : option Payload;
  runDetails : option RunDetails.t;
  runStatus : string;
  isFetchingDetails : bool;
  fetchError : option string;
  toastShownRef : ToastShown;
  isMountedRef : bool;
  toasts : list Toast;           (* trace of toast calls *)
  posted : list string           (* trace of api.post paths *)
}.

Definition setLogs (f : list Log.t -> list Log.t) (pg : Page) : Page :=
  mkPage (f (logs pg)) (analysisResults pg) (runDetails pg) (runStatus pg)
    (isFetchingDetails pg) (fetchError pg) (toastShownRef pg)
    (isMountedRef pg) (toasts pg) (posted pg).

Definition setAnalysisResults (v : option Payload) (pg : Page) : Page :=
  mkPage (logs pg) v (runDetails pg) (runStatus pg)
    (isFetchingDetails pg) (fetchError pg) (toastShownRef pg)
    (isMountedRef pg) (toasts pg) (posted pg).

Definition setRunDetails (v : option RunDetails.t) (pg : Page) : Page :=
  mkPage (logs pg) (analysisResults pg) v (runStatus pg)
    (isFetchingDetails pg) (fetchError pg) (toastShownRef pg)
    (isMountedRef pg) (toasts pg) (posted pg).

Definition setRunStatus (f : string -> string) (pg : Page) : Page :=
  mkPage (logs pg) (analysisResults pg) (runDetails pg) (f (runStatus pg))
    (isFetchingDetails pg) (fetchError pg) (toastShownRef pg)
    (isMountedRef pg) (toasts pg) (posted pg).

Definition setIsFetchingDetails (b : bool) (pg : Page) : Page :=
  mkPage (logs pg) (analysisResults pg) (runDetails pg) (runStatus pg)
    b (fetchError pg) (toastShownRef pg)
    (isMountedRef pg) (toasts pg) (posted pg).

Definition setFetchError (v : option string) (pg : Page) : Page :=
  mkPage (logs pg) (analysisResults pg) (runDetails pg) (runStatus pg)
    (isFetchingDetails pg) v (toastShownRef pg)
    (isMountedRef pg) (toasts pg) (posted pg).

Definition setToastShown (v : ToastShown) (pg : Page) : Page :=
  mkPage (logs pg) (analysisResults pg) (runDetails pg) (runStatus pg)
    (isFetchingDetails pg) (fetchError pg) v
    (isMountedRef pg) (toasts pg) (posted pg).

Definition toast (t : Toast) (pg : Page) : Page :=
  mkPage (logs pg) (analysisResults pg) (runDetails pg) (runStatus pg)
    (isFetchingDetails pg) (fetchError pg) (toastShownRef pg)
    (isMountedRef pg) (toasts pg ++ [t]) (posted pg).

Definition post (path : string) (pg : Page) : Page :=
  mkPage (logs pg) (analysisResults pg) (runDetails pg) (runStatus pg)
    (isFetchingDetails pg) (fetchError pg) (toastShownRef pg)
    (isMountedRef pg) (toasts pg) (posted pg ++ [path]).

(** The state of a freshly mounted page. *)
Definition initial : Page :=
  mkPage [] None None "LOADING_DETAILS" true None (mkShown false false)
    true [] [].

(** The [.then] callback of the snapshot fetch. *)
Definition fetchThen (now : string) (details : RunDetails.t) (pg : Page)
  : Page :=
  if negb (isMountedRef pg) then pg else
  let pg := setRunDetails (Some details) pg in
  let fetchedStatus := default "UNKNOWN" (Js.orStr (RunDetails.status details) None) in
  let pg := match RunDetails.analysis_results details with
            | Some r => setAnalysisResults (Some r) pg
            | None => pg
            end in
  let isTerminal :=
    Js.includes ["SUCCESS"; "FAILED"; "ANALYSIS_FAILED"; "CLEANING_SUCCESS";
                 "CLEANING_FAILED"] fetchedStatus in
  let isRunning := Js.includes ["ANALYZING"; "CLEANING"; "TRAINING"] fetchedStatus in
  if isTerminal || isRunning then
    setRunStatus (fun _ => fetchedStatus) pg
  else
    let pg := setRunStatus (fun _ => "STARTING") pg in
    let pg := setLogs (fun prev =>
                prev ++ [Log.note "CLIENT" "Requesting analysis task start..." now]) pg in
    post "/analyze" pg.

(** The [.catch] callback of the [POST .../analyze] request; [errorMsg] is
    the message already defaulted to 'Failed to start analysis task.'. *)
Definition triggerCatch (now : string) (errorMsg : string) (pg : Page) : Page :=
  if negb (isMountedRef pg) then pg else
  let pg := toast (toast_error errorMsg) pg in
  let pg := setRunStatus (fun _ => "FAILED") pg in
  setLogs (fun prev =>
    prev ++ [Log.note "ERROR" ("API Error: " +:+ errorMsg) now]) pg.

(** The [.catch] and [.finally] callbacks of the snapshot fetch. *)
Definition fetchCatch (errorMsg : string) (pg : Page) : Page :=
  if negb (isMountedRef pg) then pg else
  setRunStatus (fun _ => "FETCH_FAILED") (setFetchError (Some errorMsg) pg).

Definition fetchFinally (pg : Page) : Page :=
  if isMountedRef pg then setIsFetchingDetails false pg else pg.

(** The socket effect registers handlers only when [shouldConnect]. *)
Definition shouldConnect (pg : Page) : bool :=
  let isTerminal :=
    Js.includes ["SUCCESS"; "FAILED"; "ANALYSIS_FAILED"; "CLEANING_SUCCESS";
                 "CLEANING_FAILED"; "FETCH_FAILED"] (runStatus pg) in
  negb (isFetchingDetails pg) && negb (Js.truthy (fetchError pg))
  && negb isTerminal.

(** [handleLog]: returns the event object (it is mutated in place) and the
    new page state. *)
Definition handleLog (now : string) (log : Log.t) (pg : Page)
  : Log.t * Page :=
  if negb (isMountedRef pg) then (log, pg) else
  let log := if negb (Js.truthy (Log.timestamp log))
             then Log.set_timestamp now log else log in
  let pg := setLogs (fun prev => prev ++ [log]) pg in
  let pg := match Log.data log with
            | Some d => if Log.type_is "analysis_result" log
                        then setAnalysisResults (Some d) pg else pg
            | None => pg
            end in
  (log, pg).

Definition handleStatusUpdate (update : StatusUpdate.t) (pg : Page)
  : StatusUpdate.t * Page :=
  if negb (isMountedRef pg) then (update, pg) else
  let newStatus := StatusUpdate.status update in
  (update,
   setRunStatus (fun prevStatus =>
     if Js.includes ["SUCCESS"; "FAILED"; "ANALYSIS_FAILED"] prevStatus
        && negb (Js.includes ["SUCCESS"; "FAILED"; "ANALYSIS_FAILED"] newStatus)
     then prevStatus
     else newStatus) pg).

(** The toast effect.  It tests the identifier [status], which this
    component does not declare (its state cell is [runStatus]); the value
    it resolves to is taken as the argument [status]. *)
Definition toastEffect (status : string) (pg : Page) : Page :=
  if String.eqb status "SUCCESS" && negb (success (toastShownRef pg)) then
    let pg := toast (toast_success "Analysis Complete!") pg in
    setToastShown (mkShown true (error (toastShownRef pg))) pg
  else if (String.eqb status "FAILED" || String.eqb status "ANALYSIS_FAILED")
          && negb (error (toastShownRef pg)) then
    let pg := toast (toast_error "Analysis Failed. Check logs.") pg in
    setToastShown (mkShown (success (toastShownRef pg)) true) pg
  else pg.

(** Delivery of a [status_update] to the page: the handler runs if the
    socket effect has it registered for the current state. *)
Definition deliverStatusUpdate (pg : Page) (update : StatusUpdate.t) : Page :=
  if shouldConnect pg then (handleStatusUpdate update pg).2 else pg.

End Analyze.

(** ** The Clean page (CleanData.jsx) *)

Module Clean.

Record Page : Type := mkPage {
  logs : list Log.t;
  status : string;
  runDetails : option RunDetails.t;
  isLoadingDetails : bool;
  cleaningReport : option Payload;
  cleanedPreview : option Payload;
  cleaningStartedRef : bool;
  toastShownRef : ToastShown;
  isMountedRef : bool;
  toasts : list Toast;           (* trace of toast calls *)
  posted : list string;          (* trace of api.post paths *)
  navigated : list string        (* trace of navigate targets *)
}.

Definition setLogs (f : list Log.t -> list Log.t) (pg : Page) : Page :=
  mkPage (f (logs pg)) (status pg) (runDetails pg) (isLoadingDetails pg)
    (cleaningReport pg) (cleanedPreview pg) (cleaningStartedRef pg)
    (toastShownRef pg) (isMountedRef pg) (toasts pg) (posted pg) (navigated pg).

Definition setStatus (s : string) (pg : Page) : Page :=
  mkPage (logs pg) s (runDetails pg) (isLoadingDetails pg)
    (cleaningReport pg) (cleanedPreview pg) (cleaningStartedRef pg)
    (toastShownRef pg) (isMountedRef pg) (toasts pg) (posted pg) (navigated pg).

Definition setRunDetails (v : option RunDetails.t) (pg : Page) : Page :=
  mkPage (logs pg) (status pg) v (isLoadingDetails pg)
    (cleaningReport pg) (cleanedPreview pg) (cleaningStartedRef pg)
    (toastShownRef pg) (isMountedRef pg) (toasts pg) (posted pg) (navigated pg).

Definition setIsLoadingDetails (b : bool) (pg : Page) : Page :=
  mkPage (logs pg) (status pg) (runDetails pg) b
    (cleaningReport pg) (cleanedPreview pg) (cleaningStartedRef pg)
    (toastShownRef pg) (isMountedRef pg) (toasts pg) (posted pg) (navigated pg).

Definition setCleaningReport (v : option Payload) (pg : Page) : Page :=
  mkPage (logs pg) (status pg) (runDetails pg) (isLoadingDetails pg)
    v (cleanedPreview pg) (cleaningStartedRef pg)
    (toastShownRef pg) (isMountedRef pg) (toasts pg) (posted pg) (navigated pg).

Definition setCleanedPreview (v : option Payload) (pg : Page) : Page :=
  mkPage (logs pg) (status pg) (runDetails pg) (isLoadingDetails pg)
    (cleaningReport pg) v (cleaningStartedRef pg)
    (toastShownRef pg) (isMountedRef pg) (toasts pg) (posted pg) (navigated pg).

Definition setCleaningStarted (b : bool) (pg : Page) : Page :=
  mkPage (logs pg) (status pg) (runDetails pg) (isLoadingDetails pg)
    (cleaningReport pg) (cleanedPreview pg) b
    (toastShownRef pg) (isMountedRef pg) (toasts pg) (posted pg) (navigated pg).

Definition setToastShown (v : ToastShown) (pg : Page) : Page :=
  mkPage (logs pg) (status pg) (runDetails pg) (isLoadingDetails pg)
    (cleaningReport pg) (cleanedPreview pg) (cleaningStartedRef pg)
    v (isMountedRef pg) (toasts pg) (posted pg) (navigated pg).

Definition toast (t : Toast) (pg : Page) : Page :=
  mkPage (logs pg) (status pg) (runDetails pg) (isLoadingDetails pg)
    (cleaningReport pg) (cleanedPreview pg) (cleaningStartedRef pg)
    (toastShownRef pg) (isMountedRef pg) (toasts pg ++ [t]) (posted pg)
    (navigated pg).

Definition post (path : string) (pg : Page) : Page :=
  mkPage (logs pg) (status pg) (runDetails pg) (isLoadingDetails pg)
    (cleaningReport pg) (cleanedPreview pg) (cleaningStartedRef pg)
    (toastShownRef pg) (isMountedRef pg) (toasts pg) (posted pg ++ [path])
    (navigated pg).

Definition navigate (target : string) (pg : Page) : Page :=
  mkPage (logs pg) (status pg) (runDetails pg) (isLoadingDetails pg)
    (cleaningReport pg) (cleanedPreview pg) (cleaningStartedRef pg)
    (toastShownRef pg) (isMountedRef pg) (toasts pg) (posted pg)
    (navigated pg ++ [target]).

(** The state of a freshly mounted page. *)
Definition initial : Page :=
  mkPage [] "LOADING_DETAILS" None true None None false (mkShown false false)
    true [] [] [].

(** [setCleaningReport(r)] followed by the conditional
    [setCleanedPreview(r.preview_cleaned_data)]. *)
Definition storeReport (r : Payload) (pg : Page) : Page :=
  let pg := setCleaningReport (Some r) pg in
  match preview_cleaned_data r with
  | Some pv => setCleanedPreview (Some pv) pg
  | None => pg
  end.

(** The [.then], [.catch] and [.finally] callbacks of the snapshot fetch. *)
Definition fetchThen (details : RunDetails.t) (pg : Page) : Page :=
  if negb (isMountedRef pg) then pg else
  let pg := setRunDetails (Some details) pg in
  let fetchedStatus := default "UNKNOWN" (Js.orStr (RunDetails.status details) None) in
  if Js.includes ["SUCCESS"; "CLEANING_FAILED"; "CLEANING_SUCCESS"; "CLEANING"]
       fetchedStatus then
    let pg := setStatus (if String.eqb fetchedStatus "SUCCESS"
                         then "READY" else fetchedStatus) pg in
    match RunDetails.cleaning_report details with
    | Some r => storeReport r pg
    | None => pg
    end
  else
    let pg := toast (toast_error "Analysis must be successful before cleaning.") pg in
    navigate "analyze" pg.

Definition fetchCatch (pg : Page) : Page :=
  if negb (isMountedRef pg) then pg else
  setStatus "FAILED" (toast (toast_error "Failed to load run details.") pg).

Definition fetchFinally (pg : Page) : Page :=
  if isMountedRef pg then setIsLoadingDetails false pg else pg.

(** What a render of the component comes to (lines 316-329): the spinner
    while the details are loading, the error view when the fetch failed,
    and past those the main view, on the way to which
    [runDetails.model_id_str.includes('random_forest')] is evaluated: with
    a snapshot that has no [model_id_str] that throws a TypeError, and the
    effects of the render do not run. *)
Inductive View : Type :=
| LoadingView
| ErrorView
| MainView
| RenderThrows.

Definition render (pg : Page) : View :=
  if isLoadingDetails pg then LoadingView
  else if String.eqb (status pg) "FAILED"
          && negb (bool_decide (is_Some (runDetails pg))) then ErrorView
  else match runDetails pg with
       | Some details =>
           match RunDetails.model_id_str details with
           | Some _ => MainView
           | None => RenderThrows
           end
       | None => MainView
       end.

(** The socket effect registers handlers only when [subscribed]. *)
Definition subscribed (pg : Page) : bool :=
  let shouldConnect :=
    Js.includes ["READY"; "CLEANING"; "CLEANING_FAILED"; "CONNECTING"] (status pg) in
  negb (isLoadingDetails pg || negb (bool_decide (is_Some (runDetails pg)))
        || negb shouldConnect).

(** Whether the page has its handlers registered: the socket effect of a
    render runs only when the render completes. *)
Definition listening (pg : Page) : bool :=
  match render pg with
  | RenderThrows => false
  | _ => subscribed pg
  end.

(** [onLog]: returns the event object (it is mutated in place) and the new
    page state. *)
Definition onLog (now : string) (log : Log.t) (pg : Page) : Log.t * Page :=
  if negb (isMountedRef pg) then (log, pg) else
  let log := if negb (Js.truthy (Log.timestamp log))
             then Log.set_timestamp now log else log in
  let pg := setLogs (fun prev => prev ++ [log]) pg in
  let pg := match Log.data log with
            | Some d =>
                if Log.type_is "cleaning_report" log then storeReport d pg
                else if Log.type_is "analysis_result" log
                        && Log.key_is "preview_cleaned_data" log
                then setCleanedPreview (Some d) pg
                else pg
            | None => pg
            end in
  (log, pg).

Definition onStatusUpdate (update : StatusUpdate.t) (pg : Page)
  : StatusUpdate.t * Page :=
  if negb (isMountedRef pg) then (update, pg) else
  let newStatus := StatusUpdate.status update in
  if Js.includes ["CLEANING"; "CLEANING_SUCCESS"; "CLEANING_FAILED"; "FAILED"]
       newStatus then
    let currentStatus := status pg in
    if Js.includes ["CLEANING_SUCCESS"; "CLEANING_FAILED"; "FAILED"] currentStatus
    then (update, pg)
    else
      let pg := if String.eqb newStatus "CLEANING_FAILED"
                then setCleaningStarted false pg else pg in
      (update, setStatus newStatus pg)
  else (update, pg).

(** The toast effect, run by React after a render in which [status]
    changed. *)
Definition toastEffect (pg : Page) : Page :=
  if String.eqb (status pg) "CLEANING_SUCCESS"
     && negb (success (toastShownRef pg)) then
    let pg := toast (toast_success "Data Cleaning Complete!") pg in
    setToastShown (mkShown true (error (toastShownRef pg))) pg
  else if String.eqb (status pg) "CLEANING_FAILED"
          && negb (error (toastShownRef pg)) then
    let pg := toast (toast_error "Data Cleaning Failed. Check logs.") pg in
    setToastShown (mkShown (success (toastShownRef pg)) true) pg
  else pg.

(** [handleStartCleaning]; [now1] and [now2] are its two clock readings.
    The body of the POST request (the cleaning options) is not part of the
    page state and is left out of the trace. *)
Definition handleStartCleaning (now1 now2 : string) (pg : Page) : Page :=
  if negb (String.eqb (status pg) "READY")
     && negb (String.eqb (status pg) "CLEANING_FAILED") then pg else
  let pg := setCleaningStarted true pg in
  let pg := setCleaningReport None pg in
  let pg := setCleanedPreview None pg in
  let pg := setLogs (fun _ =>
              [Log.note "CLIENT" "Resetting state for new cleaning run..." now1]) pg in
  let pg := setToastShown (mkShown false false) pg in
  let pg := setStatus "CLEANING" pg in
  let pg := toast (toast_loading "Starting data cleaning...") pg in
  let pg := setLogs (fun prev =>
              prev ++ [Log.note "CLIENT" "Cleaning task requested..." now2]) pg in
  post "/clean" pg.

(** The [.then] and [.catch] callbacks of the [POST .../clean] request. *)
Definition cleanThen (pg : Page) : Page := toast toast_dismiss pg.

Definition cleanCatch (errorMsg : string) (pg : Page) : Page :=
  let pg := toast toast_dismiss pg in
  let pg := toast (toast_error errorMsg) pg in
  setStatus "CLEANING_FAILED" pg.

(** What can happen to a mounted page. *)
Inductive Op : Type :=
| OpStatusUpdate (update : StatusUpdate.t)
| OpLog (now : string) (log : Log.t)
| OpStartCleaning (now1 now2 : string)
| OpCleanThen
| OpCleanCatch (errorMsg : string).

(** One operation followed by the render it causes: an event reaches its
    handler if the socket effect has it registered, and the toast effect
    runs when the operation changed [status]. *)
Definition step (pg : Page) (op : Op) : Page :=
  let pg' := match op with
             | OpStatusUpdate u =>
                 if subscribed pg then (onStatusUpdate u pg).2 else pg
             | OpLog now log =>
                 if subscribed pg then (onLog now log pg).2 else pg
             | OpStartCleaning now1 now2 => handleStartCleaning now1 now2 pg
             | OpCleanThen => cleanThen pg
             | OpCleanCatch msg => cleanCatch msg pg
             end in
  if String.eqb (status pg') (status pg) then pg' else toastEffect pg'.

Definition run (ops : list Op) (pg : Page) : Page := fold_left step ops pg.

End Clean.

(** ** The Train page (Training.jsx) *)

(** A [training_metric] event.  Step counters are integers; the scalar
    metrics are IEEE doubles on the wire and are carried here as rationals
    (the page only stores them). *)
Module Metric.

Record t : Type := mk {
  epoch : option Z;
  estimator : option Z;
  iteration : option Z;
  total_epochs : option Z;
  total_estimators : option Z;
  total_iterations : option Z;
  step_name : option string;
  train_accuracy : option Q;
  val_accuracy : option Q;
  train_loss : option Q;
  val_loss : option Q;
  train_r2 : option Q;
  val_r2 : option Q;
  train_rmse : option Q;
  val_rmse : option Q;
  timestamp : option string
}.

(** [metric.timestamp = ts] *)
Definition set_timestamp (ts : string) (m : t) : t :=
  mk (epoch m) (estimator m) (iteration m) (total_epochs m)
    (total_estimators m) (total_iterations m) (step_name m)
    (train_accuracy m) (val_accuracy m) (train_loss m) (val_loss m)
    (train_r2 m) (val_r2 m) (train_rmse m) (val_rmse m) (Some ts).

End Metric.

(** The progress record of the page, and a [training_progress] event: both
    are objects with the same optional members.  A member is [None] when
    the object does not have it.  The events represented are those whose
    members, when present, hold a number or a string: a member sent as
    [null] has no representation here. *)
Module Progress.

Record t : Type := mk {
  epoch : option Z;
  total_epochs : option Z;
  step_name : option string;
  batch : option Z;
  total_batches : option Z;
  current_step : option Z;
  total_steps : option Z;
  timestamp : option string
}.

(** [prog.timestamp = ts] *)
Definition set_timestamp (ts : string) (p : t) : t :=
  mk (epoch p) (total_epochs p) (step_name p) (batch p) (total_batches p)
    (current_step p) (total_steps p) (Some ts).

(** [{ ...prev, ...prog }]: every member [prog] has overrides [prev]'s,
    and [prev] keeps the members [prog] does not have. *)
Definition merge (prev prog : t) : t :=
  mk (Js.nullish (epoch prog) (epoch prev))
     (Js.nullish (total_epochs prog) (total_epochs prev))
     (Js.nullish (step_name prog) (step_name prev))
     (Js.nullish (batch prog) (batch prev))
     (Js.nullish (total_batches prog) (total_batches prev))
     (Js.nullish (current_step prog) (current_step prev))
     (Js.nullish (total_steps prog) (total_steps prev))
     (Js.nullish (timestamp prog) (timestamp prev)).

(** [useState({ epoch: 0, total_epochs: 0, step_name: 'Step', batch: 0,
    total_batches: 0 })] *)
Definition initial : t :=
  mk (Some 0%Z) (Some 0%Z) (Some "Step") (Some 0%Z) (Some 0%Z) None None None.

End Progress.

(** The chart state: [labels] and the [data] arrays of [datasets[0]]
    (train) and [datasets[1]] (validation).  The styling members of a
    dataset are constants and are left out. *)
Module Chart.

(** An array slot: a hole left by an assignment past the end, [null], or a
    number. *)
Inductive Cell : Type :=
| Hole
| Null
| Num (q : Q).

Record t : Type := mk {
  labels : list Z;
  data0 : list Cell;     (* datasets[0].data *)
  data1 : list Cell      (* datasets[1].data *)
}.

(** [initialChartData()] *)
Definition initialChartData : t := mk [] [] [].

(** [arr.indexOf(x)]: the first index holding [x], or [-1]. *)
Fixpoint indexOf_from (i : Z) (x : Z) (arr : list Z) : Z :=
  match arr with
  | [] => (-1)%Z
  | y :: rest => if (y =? x)%Z then i else indexOf_from (i + 1)%Z x rest
  end.

Definition indexOf (x : Z) (arr : list Z) : Z := indexOf_from 0%Z x arr.

(** [arr[i] = v] for [i >= 0]: in range it overwrites; past the end the
    array grows, the slots in between being holes. *)
Definition assign (arr : list Cell) (i : Z) (v : Cell) : list Cell :=
  let n := Z.to_nat i in
  if n <? length arr then <[n := v]> arr
  else arr ++ replicate (n - length arr) Hole ++ [v].

(** [arr.shift()]: drops the first element; no effect on an empty array. *)
Definition shift {A : Type} (arr : list A) : list A := tail arr.

(** One pass of the body of the eviction loop on a chart. *)
Definition shiftChart (c : t) : t :=
  mk (shift (labels c)) (shift (data0 c)) (shift (data1 c)).

End Chart.

Record MetricData : Type := mkMetricData {
  primary : Chart.t;
  secondary : Chart.t
}.

Module Train.

Definition maxPoints : nat := 150.

(** [metric[key] ?? null] *)
Definition orNull (v : option Q) : Chart.Cell :=
  match v with
  | Some q => Chart.Num q
  | None => Chart.Null
  end.

(** [while (newPrimary.labels.length > maxPoints) { ... shift ... }].
    Each pass shortens [newPrimary.labels], so [length (labels p)] passes
    are enough; [evict_exits] below shows the loop condition is false on
    exit. *)
Fixpoint evictLoop (fuel : nat) (p s : Chart.t) : Chart.t * Chart.t :=
  match fuel with
  | O => (p, s)
  | S fuel' =>
      if maxPoints <? length (Chart.labels p)
      then evictLoop fuel' (Chart.shiftChart p) (Chart.shiftChart s)
      else (p, s)
  end.

Definition evict (p s : Chart.t) : Chart.t * Chart.t :=
  evictLoop (length (Chart.labels p)) p s.

(** The updater passed to [setMetricData] by [onMetric]. *)
Definition upsert (isRegression : bool) (stepLabel : Z) (metric : Metric.t)
    (prev : MetricData) : MetricData :=
  let newPrimary := primary prev in
  let newSecondary := secondary prev in
  let currentXValue := stepLabel in
  let primaryTrain := if isRegression then Metric.train_r2 metric
                      else Metric.train_accuracy metric in
  let primaryVal := if isRegression then Metric.val_r2 metric
                    else Metric.val_accuracy metric in
  let secondaryTrain := if isRegression then Metric.train_rmse metric
                        else Metric.train_loss metric in
  let secondaryVal := if isRegression then Metric.val_rmse metric
                      else Metric.val_loss metric in
  let labelIndex := Chart.indexOf currentXValue (Chart.labels newPrimary) in
  let trainP := orNull primaryTrain in
  let valP := orNull primaryVal in
  let trainS := orNull secondaryTrain in
  let valS := orNull secondaryVal in
  let '(newPrimary, newSecondary) :=
    if (labelIndex >? -1)%Z then
      (Chart.mk (Chart.labels newPrimary)
         (Chart.assign (Chart.data0 newPrimary) labelIndex trainP)
         (Chart.assign (Chart.data1 newPrimary) labelIndex valP),
       Chart.mk (Chart.labels newSecondary)
         (Chart.assign (Chart.data0 newSecondary) labelIndex trainS)
         (Chart.assign (Chart.data1 newSecondary) labelIndex valS))
    else
      (Chart.mk (Chart.labels newPrimary ++ [currentXValue])
         (Chart.data0 newPrimary ++ [trainP])
         (Chart.data1 newPrimary ++ [valP]),
       Chart.mk (Chart.labels newSecondary ++ [currentXValue])
         (Chart.data0 newSecondary ++ [trainS])
         (Chart.data1 newSecondary ++ [valS])) in
  let '(newPrimary, newSecondary) := evict newPrimary newSecondary in
  mkMetricData newPrimary newSecondary.

(** [useState({ primary: initialChartData(), secondary: initialChartData() })] *)
Definition initialMetricData : MetricData :=
  mkMetricData Chart.initialChartData Chart.initialChartData.

Record Page : Type := mkPage {
  runDetails : option RunDetails.t;
  taskType : option string;
  runStatus : string;
  isFetchingDetails : bool;
  fetchError : option string;
  logs : list Log.t;
  metrics : option Metric.t;     (* [None] is the initial empty object *)
  progress : Progress.t;
  metricData : MetricData;
  chartLabels : string * string; (* primary, secondary *)
  isMountedRef : bool;
  toasts : list Toast            (* trace of toast calls *)
}.

Definition setRunDetails (v : option RunDetails.t) (pg : Page) : Page :=
  mkPage v (taskType pg) (runStatus pg) (isFetchingDetails pg) (fetchError pg)
    (logs pg) (metrics pg) (progress pg) (metricData pg) (chartLabels pg)
    (isMountedRef pg) (toasts pg).

Definition setTaskType (v : option string) (pg : Page) : Page :=
  mkPage (runDetails pg) v (runStatus pg) (isFetchingDetails pg)
    (fetchError pg) (logs pg) (metrics pg) (progress pg) (metricData pg)
    (chartLabels pg) (isMountedRef pg) (toasts pg).

Definition setRunStatus (s : string) (pg : Page) : Page :=
  mkPage (runDetails pg) (taskType pg) s (isFetchingDetails pg)
    (fetchError pg) (logs pg) (metrics pg) (progress pg) (metricData pg)
    (chartLabels pg) (isMountedRef pg) (toasts pg).

Definition setIsFetchingDetails (b : bool) (pg : Page) : Page :=
  mkPage (runDetails pg) (taskType pg) (runStatus pg) b (fetchError pg)
    (logs pg) (metrics pg) (progress pg) (metricData pg) (chartLabels pg)
    (isMountedRef pg) (toasts pg).

Definition setFetchError (v : option string) (pg : Page) : Page :=
  mkPage (runDetails pg) (taskType pg) (runStatus pg) (isFetchingDetails pg) v
    (logs pg) (metrics pg) (progress pg) (metricData pg) (chartLabels pg)
    (isMountedRef pg) (toasts pg).

Definition setLogs (f : list Log.t -> list Log.t) (pg : Page) : Page :=
  mkPage (runDetails pg) (taskType pg) (runStatus pg) (isFetchingDetails pg)
    (fetchError pg) (f (logs pg)) (metrics pg) (progress pg) (metricData pg)
    (chartLabels pg) (isMountedRef pg) (toasts pg).

Definition setMetrics (m : Metric.t) (pg : Page) : Page :=
  mkPage (runDetails pg) (taskType pg) (runStatus pg) (isFetchingDetails pg)
    (fetchError pg) (logs pg) (Some m) (progress pg) (metricData pg)
    (chartLabels pg) (isMountedRef pg) (toasts pg).

Definition setProgress (f : Progress.t -> Progress.t) (pg : Page) : Page :=
  mkPage (runDetails pg) (taskType pg) (runStatus pg) (isFetchingDetails pg)
    (fetchError pg) (logs pg) (metrics pg) (f (progress pg)) (metricData pg)
    (chartLabels pg) (isMountedRef pg) (toasts pg).

Definition setMetricData (f : MetricData -> MetricData) (pg : Page) : Page :=
  mkPage (runDetails pg) (taskType pg) (runStatus pg) (isFetchingDetails pg)
    (fetchError pg) (logs pg) (metrics pg) (progress pg) (f (metricData pg))
    (chartLabels pg) (isMountedRef pg) (toasts pg).

Definition setChartLabels (v : string * string) (pg : Page) : Page :=
  mkPage (runDetails pg) (taskType pg) (runStatus pg) (isFetchingDetails pg)
    (fetchError pg) (logs pg) (metrics pg) (progress pg) (metricData pg) v
    (isMountedRef pg) (toasts pg).

Definition toast (t : Toast) (pg : Page) : Page :=
  mkPage (runDetails pg) (taskType pg) (runStatus pg) (isFetchingDetails pg)
    (fetchError pg) (logs pg) (metrics pg) (progress pg) (metricData pg)
    (chartLabels pg) (isMountedRef pg) (toasts pg ++ [t]).

(** The state of a freshly mounted page. *)
Definition initial : Page :=
  mkPage None None "LOADING_DETAILS" true None [] None Progress.initial
    initialMetricData ("Primary Metric", "Secondary Metric / Loss") true [].

(** [str.includes(needle)] on strings. *)
Fixpoint contains (needle str : string) : bool :=
  String.prefix needle str
  || match str with
     | EmptyString => false
     | String _ rest => contains needle rest
     end.

(** The [.then] callback of the snapshot fetch. *)
Definition fetchThen (details : RunDetails.t) (pg : Page) : Page :=
  if negb (isMountedRef pg) then pg else
  let pg := setRunDetails (Some details) pg in
  let pg := setRunStatus
              (default "UNKNOWN" (Js.orStr (RunDetails.status details) None)) pg in
  let determinedTaskType :=
    if Js.truthy (RunDetails.config_task_type details) then
      default "classification" (RunDetails.config_task_type details)
    else if Js.truthy (RunDetails.summary_task_type details) then
      default "classification" (RunDetails.summary_task_type details)
    else match RunDetails.model_id_str details with
         | Some id => if contains "regressor" id || contains "regression" id
                      then "regression" else "classification"
         | None => "classification"
         end in
  let pg := setTaskType (Some determinedTaskType) pg in
  setChartLabels (if String.eqb determinedTaskType "regression"
                  then ("R² Score", "RMSE") else ("Accuracy", "Loss")) pg.

(** The [.catch] and [.finally] callbacks of the snapshot fetch;
    [errorMsg] is the message already defaulted to 'Could not load run
    details.'. *)
Definition fetchCatch (errorMsg : string) (pg : Page) : Page :=
  if negb (isMountedRef pg) then pg else
  setRunStatus "FETCH_FAILED" (setFetchError (Some errorMsg) pg).

Definition fetchFinally (pg : Page) : Page :=
  if isMountedRef pg then setIsFetchingDetails false pg else pg.

(** A mounted page whose snapshot fetch has resolved with [status] and the
    configured task type [ty]. *)
Definition loaded (ty status : string) : Page :=
  fetchFinally
    (fetchThen (RunDetails.mk (Some status) None None None (Some ty) None)
       initial).

(** The two early returns of the socket effect (lines 94-102): [subscribed]
    holds when the effect passes both, that is when it goes on to call
    [connectSocket()] and to the registration of its handlers. *)
Definition subscribed (pg : Page) : bool :=
  if isFetchingDetails pg || Js.truthy (fetchError pg)
     || negb (Js.truthy (taskType pg)) then false
  else
    let isTerminal :=
      Js.includes ["SUCCESS"; "FAILED"; "FETCH_FAILED"; "CANCELLED"] (runStatus pg) in
    negb isTerminal.

Definition onLog (now : string) (log : Log.t) (pg : Page) : Log.t * Page :=
  if negb (isMountedRef pg) then (log, pg) else
  let log := if negb (Js.truthy (Log.timestamp log))
             then Log.set_timestamp now log else log in
  (log, setLogs (fun prevLogs => prevLogs ++ [log]) pg).

(** [metric.epoch ?? metric.estimator ?? metric.iteration ??
    progress.current_step ?? 0]; [closure] is the [progress] value the
    handler closed over when the socket effect last ran. *)
Definition stepLabel (closure : Progress.t) (metric : Metric.t) : Z :=
  default 0%Z
    (Js.nullish (Js.nullish (Js.nullish (Metric.epoch metric)
                                        (Metric.estimator metric))
                            (Metric.iteration metric))
                (Progress.current_step closure)).

Definition totalSteps (closure : Progress.t) (metric : Metric.t) : Z :=
  default 0%Z
    (Js.nullish (Js.nullish (Js.nullish (Metric.total_epochs metric)
                                        (Metric.total_estimators metric))
                            (Metric.total_iterations metric))
                (Progress.total_steps closure)).

Definition onMetric (now : string) (closure : Progress.t) (metric : Metric.t)
    (pg : Page) : Metric.t * Page :=
  if negb (isMountedRef pg) || negb (Js.truthy (taskType pg))
  then (metric, pg) else
  let metric := if negb (Js.truthy (Metric.timestamp metric))
                then Metric.set_timestamp now metric else metric in
  let pg := setMetrics metric pg in
  let stepLabel := stepLabel closure metric in
  let totalSteps := totalSteps closure metric in
  let pg := setProgress (fun prev =>
    Progress.mk (Progress.epoch prev) (Progress.total_epochs prev)
      (Some (default "Step"
               (Js.orStr (Js.orStr (Metric.step_name metric)
                                   (Progress.step_name prev)) (Some "Step"))))
      (Progress.batch prev) (Progress.total_batches prev)
      (Some stepLabel) (Some totalSteps) (Progress.timestamp prev)) pg in
  let isRegression :=
    match taskType pg with
    | Some ty => String.eqb ty "regression"
    | None => false
    end in
  (metric, setMetricData (upsert isRegression stepLabel metric) pg).

Definition onProgress (now : string) (prog : Progress.t) (pg : Page)
  : Progress.t * Page :=
  if negb (isMountedRef pg) then (prog, pg) else
  let prog := if negb (Js.truthy (Progress.timestamp prog))
              then Progress.set_timestamp now prog else prog in
  (prog, setProgress (fun prev => Progress.merge prev prog) pg).

Definition onStatusUpdate (update : StatusUpdate.t) (pg : Page)
  : StatusUpdate.t * Page :=
  if negb (isMountedRef pg) then (update, pg) else
  let newStatus := StatusUpdate.status update in
  let pg := setRunStatus newStatus pg in
  if String.eqb newStatus "SUCCESS" then
    (update, toast (toast_success "Training Completed Successfully!") pg)
  else if String.eqb newStatus "FAILED"
          || String.eqb newStatus "ANALYSIS_FAILED"
          || String.eqb newStatus "CLEANING_FAILED" then
    (update, toast (toast_error "Process Failed. Please check the logs.") pg)
  else if String.eqb newStatus "CANCELLED" then
    (update, toast (toast_success "Training stopped.") pg)
  else (update, pg).

(** The names Training.jsx binds from '../lib/socket_enhanced' (line 10).
    The file declares no other name for the wrapper, and none for its
    socket. *)
Definition imported : list string :=
  ["connectSocket"; "disconnectSocket"; "joinTrainingRoom"; "leaveTrainingRoom"].

(** The events the socket effect registers a handler for (lines 215-222),
    in that order. *)
Definition handled : list string :=
  ["connect"; "disconnect"; "error"; "status"; "training_log"; "training_metric";
   "training_progress"; "status_update"].

(** One run of the socket effect: whether it called [connectSocket()], the
    events it left a handler registered for and the error it threw, if
    any. *)
Record EffectRun : Type := mkEffectRun {
  connectSocketCalled : bool;
  listening : list string;
  thrown : option string
}.

(** The socket effect (lines 93-242).  After its early returns it calls
    [connectSocket()], builds its handlers and reaches
    [socket.on('connect', onConnect)]: the identifier [socket] is resolved
    there, and an identifier the module does not bind throws a
    ReferenceError, which ends the effect before any registration. *)
Definition socketEffect (pg : Page) : EffectRun :=
  if negb (subscribed pg) then mkEffectRun false [] None else
  if Js.includes imported "socket" then mkEffectRun true handled None
  else mkEffectRun true [] (Some "ReferenceError: socket is not defined").

(** Delivery of a [status_update] to the page: the handler runs if the
    socket effect has left it registered for the current state. *)
Definition deliverStatusUpdate (pg : Page) (update : StatusUpdate.t) : Page :=
  if Js.includes (listening (socketEffect pg)) "status_update"
  then (onStatusUpdate update pg).2 else pg.

(** The width of the progress bar, in percent:
    [((progress.epoch || progress.current_step || 0) /
      (progress.total_epochs || progress.total_steps || 1)) * 100],
    computed on doubles. *)
Definition barNumerator (p : Progress.t) : Z :=
  default 0%Z
    (Js.orNum (Js.orNum (Progress.epoch p) (Progress.current_step p))
              (Some 0%Z)).

Definition barDenominator (p : Progress.t) : Z :=
  default 0%Z
    (Js.orNum (Js.orNum (Progress.total_epochs p) (Progress.total_steps p))
              (Some 1%Z)).

Definition barWidth (p : Progress.t) : PrimFloat.float :=
  PrimFloat.mul
    (PrimFloat.div (Js.number (barNumerator p)) (Js.number (barDenominator p)))
    (Js.number 100).

End Train.

Arguments Train.maxPoints : simpl never.

(** ** The realtime channel wrappers *)

(** The outcome of a promise as far as a call decides it. *)
Inductive Settled : Type :=
| Pending
| Resolved
| Rejected (msg : string).

(** The Socket.IO client object, seen from the wrappers: its [connected]
    flag, the calls made to [socket.emit] (each with the value [connected]
    had when it was made) and the calls made to [socket.on]. *)
Module Socket.

Record Emission : Type := mkEmission {
  event : string;
  args : list (string * string);
  withAck : bool;                (* an acknowledgement callback was passed *)
  connectedAtCall : bool
}.

Inductive Listener : Type :=
| onRoomJoined (modelRunId : string)
| onRoomError (modelRunId : string)
| clearJoinTimeout (modelRunId : string)
| logConnect
| logDisconnect
| logConnectError.

Record t : Type := mk {
  connected : bool;
  emitted : list Emission;
  listeners : list (string * Listener)
}.

(** [socket.emit(event, args)] and [socket.emit(event, args, ack)] *)
Definition emit (ev : string) (a : list (string * string)) (ack : bool)
    (s : t) : t :=
  mk (connected s) (emitted s ++ [mkEmission ev a ack (connected s)])
     (listeners s).

(** [socket.on(event, listener)] *)
Definition on (ev : string) (l : Listener) (s : t) : t :=
  mk (connected s) (emitted s) (listeners s ++ [(ev, l)]).

End Socket.

(** [!token] for the result of [localStorage.getItem]. *)
Definition noToken (token : option string) : bool := negb (Js.truthy token).

(** The first wrapper: a module-level socket, join confirmed by
    [room_joined] / [room_error] events. *)
Module SocketV1.

Record World : Type := mkWorld {
  localStorage : gmap string string;
  socket : Socket.t;
  timers : list string           (* run ids with a pending join timeout *)
}.

Definition withSocket (f : Socket.t -> Socket.t) (w : World) : World :=
  mkWorld (localStorage w) (f (socket w)) (timers w).

Definition setTimeout (modelRunId : string) (w : World) : World :=
  mkWorld (localStorage w) (socket w) (timers w ++ [modelRunId]).

Definition joinTrainingRoom (modelRunId : string) (w : World)
  : Settled * World :=
  let token := localStorage w !! "access_token" in
  match token with
  | Some tok =>
      if noToken token then
        (Rejected "No auth token found, cannot join room.", w)
      else
        let w := withSocket (Socket.on "room_joined"
                               (Socket.onRoomJoined modelRunId)) w in
        let w := withSocket (Socket.on "room_error"
                               (Socket.onRoomError modelRunId)) w in
        let w := setTimeout modelRunId w in
        let w := withSocket (Socket.emit "join_room"
                   [("token", tok); ("model_run_id", modelRunId)] false) w in
        let w := withSocket (Socket.on "room_joined"
                               (Socket.clearJoinTimeout modelRunId)) w in
        (Pending, w)
  | None => (Rejected "No auth token found, cannot join room.", w)
  end.

Definition leaveTrainingRoom (modelRunId : string) (w : World) : World :=
  withSocket (Socket.emit "leave_room" [("model_run_id", modelRunId)] false) w.

End SocketV1.

(** The second wrapper: a lazily created socket, join confirmed by an
    acknowledgement callback. *)
Module SocketV2.

Record World : Type := mkWorld {
  localStorage : gmap string string;
  socket : option Socket.t       (* [let socket;] starts undefined *)
}.

(** The socket [getSocket] creates on first use. *)
Definition created : Socket.t :=
  Socket.mk false []
    [("connect", Socket.logConnect); ("disconnect", Socket.logDisconnect);
     ("connect_error", Socket.logConnectError)].

(** [getSocket()]: the socket, and the world in which it exists. *)
Definition getSocket (w : World) : Socket.t * World :=
  match socket w with
  | Some s => (s, w)
  | None => (created, mkWorld (localStorage w) (Some created))
  end.

(** A method call on the object [getSocket] returned: the module variable
    refers to the same object. *)
Definition update (s : Socket.t) (w : World) : World :=
  mkWorld (localStorage w) (Some s).

Definition joinTrainingRoom (modelRunId : string) (w : World)
  : Settled * World :=
  let '(s, w) := getSocket w in
  let token := localStorage w !! "access_token" in
  match token with
  | Some tok =>
      if noToken token then
        (Rejected "No auth token found, cannot join room.", w)
      else
        (Pending,
         update (Socket.emit "join_room"
                   [("token", tok); ("model_run_id", modelRunId)] true s) w)
  | None => (Rejected "No auth token found, cannot join room.", w)
  end.

(** The acknowledgement callback of the join request; [ackError] is
    [ack.error]. *)
Definition joinAck (ackSuccess : bool) (ackError : option string) : Settled :=
  if ackSuccess then Resolved
  else Rejected (default "Failed to join room" (Js.orStr ackError None)).

Definition leaveTrainingRoom (modelRunId : string) (w : World) : World :=
  let '(s, w) := getSocket w in
  if Socket.connected s then
    update (Socket.emit "leave_room" [("model_run_id", modelRunId)] false s) w
  else w.

End SocketV2.

(** ** The shared REST client (api.js) *)

Module Api.

Record Response : Type := mkResponse {
  status : Z
}.

(** The error object axios passes to the rejection handler; [response] is
    absent on a network error. *)
Record Error : Type := mkError {
  response : option Response;
  message : string
}.

Record Browser : Type := mkBrowser {
  localStorage : gmap string string;
  location : string              (* window.location.href *)
}.

Inductive Outcome : Type :=
| Fulfilled (r : Response)
| Failed (e : Error).

(** The response interceptor's first function. *)
Definition onFulfilled (r : Response) (b : Browser) : Outcome * Browser :=
  (Fulfilled r, b).

Definition hasStatus (p : Z -> bool) (e : Error) : bool :=
  match response e with
  | Some r => p (status r)
  | None => false
  end.

(** The response interceptor's second function. *)
Definition onRejected (e : Error) (b : Browser) : Outcome * Browser :=
  let b := if hasStatus (fun s => s =? 401)%Z e then
             let ls := delete "access_token" (localStorage b) in
             let ls := delete "user" ls in
             mkBrowser ls "/login"
           else b in
  let e := match response e with
           | None => mkError None
               "Network error. Please check your connection and try again."
           | Some _ => e
           end in
  let e := if hasStatus (fun s => s >=? 500)%Z e then
             mkError (response e) "Server error. Please try again later."
           else e in
  (Failed e, b).

(** How axios settles a call before the interceptors run: a reply with a
    2xx status is a response, any other reply is an error carrying the
    response, and no reply at all is an error without one. *)
Definition settle (reply : option Response) (msg : string) : Outcome :=
  match reply with
  | Some r => if (200 <=? status r)%Z && (status r <? 300)%Z
              then Fulfilled r else Failed (mkError (Some r) msg)
  | None => Failed (mkError None msg)
  end.

(** A call through the client, from the server's reply to what the caller's
    promise settles to. *)
Definition call (reply : option Response) (msg : string) (b : Browser)
  : Outcome * Browser :=
  match settle reply msg with
  | Fulfilled r => onFulfilled r b
  | Failed e => onRejected e b
  end.

End Api.

(** * Session, request signing, connection lifecycle and forms *)

(** ** api.js: the request interceptor and [retryRequest] *)

Module ApiRequest.

(** The headers [axios.create] starts every request with. *)
Definition defaultHeaders : gmap string string :=
  {["Content-Type" := "application/json"]}.

(** The request interceptor, on [config.headers]. *)
Definition onRequest (b : Api.Browser) (headers : gmap string string)
  : gmap string string :=
  let token := Api.localStorage b !! "access_token" in
  match token with
  | Some tok =>
      if Js.truthy token then <["Authorization" := "Bearer " +:+ tok]> headers
      else headers
  | None => headers
  end.

(** What one call of [requestFn] comes to: a value, or a thrown error. *)
Inductive Attempt (A : Type) : Type :=
| Returned (a : A)
| Threw (e : Api.Error).

Arguments Returned {A} a.
Arguments Threw {A} e.

(** What [retryRequest] comes to: a value, or a thrown [lastError], which is
    [undefined] when no attempt was made. *)
Inductive Final (A : Type) : Type :=
| Value (a : A)
| Thrown (lastError : option Api.Error).

Arguments Value {A} a.
Arguments Thrown {A} lastError.

(** The run of one [retryRequest] call: its result, the number of calls
    made to [requestFn], the delays slept between attempts (milliseconds,
    in order) and the state the calls left. *)
Record Run (A St : Type) : Type := mkRun {
  final : Final A;
  calls : nat;
  waits : list Z;
  state : St
}.

Arguments mkRun {A St} final calls waits state.
Arguments final {A St} r.
Arguments calls {A St} r.
Arguments waits {A St} r.
Arguments state {A St} r.

(** [error.response && (error.response.status === 401 ||
    error.response.status < 500)] *)
Definition clientError (e : Api.Error) : bool :=
  Api.hasStatus (fun s => (s =? 401)%Z || (s <? 500)%Z) e.

(** The [for] loop of [retryRequest], entered at [i] with [remaining]
    iterations left ([i + remaining = maxRetries]).  [requestFn k s] is the
    [k]-th call of [requestFn], made in state [s]. *)
Fixpoint retryLoop {A St : Type} (requestFn : nat -> St -> Attempt A * St)
    (maxRetries : nat) (remaining i : nat) (lastError : option Api.Error)
    (slept : list Z) (s : St) : Run A St :=
  match remaining with
  | O => mkRun (Thrown lastError) i slept s
  | S remaining' =>
      match requestFn i s with
      | (Returned a, s') => mkRun (Value a) (S i) slept s'
      | (Threw e, s') =>
          if clientError e then mkRun (Thrown (Some e)) (S i) slept s'
          else
            let slept := if i <? maxRetries - 1
                         then slept ++ [(2 ^ Z.of_nat i * 1000)%Z] else slept in
            retryLoop requestFn maxRetries remaining' (S i) (Some e) slept s'
      end
  end.

(** [retryRequest(requestFn, maxRetries)]; a [maxRetries] that is not
    positive gives no iteration. *)
Definition retryRequest {A St : Type} (requestFn : nat -> St -> Attempt A * St)
    (maxRetries : Z) (s : St) : Run A St :=
  retryLoop requestFn (Z.to_nat maxRetries) (Z.to_nat maxRetries) 0 None [] s.

(** A request function that goes through the client: the [k]-th call gets
    the server's [k]-th reply. *)
Definition viaClient (replies : nat -> option Api.Response) (msg : string)
    (k : nat) (b : Api.Browser) : Attempt Api.Response * Api.Browser :=
  match Api.call (replies k) msg b with
  | (Api.Fulfilled r, b') => (Returned r, b')
  | (Api.Failed e, b') => (Threw e, b')
  end.

End ApiRequest.

(** ** auth.js: the authentication store, and the route guards of App.jsx *)

Module Auth.

(** The profile returned by [/auth/me]. *)
Record User : Type := mkUser {
  username : string;
  email : string;
  role : option string
}.

(** What [JSON.parse] comes to on a stored profile text: a syntax error,
    a falsy value ([null]), or a truthy value, which the store keeps as the
    profile. *)
Inductive Parsed : Type :=
| SyntaxError
| Json (user : option User).

(** The state held by the zustand store. *)
Record Store : Type := mkStore {
  user : option User;
  accessToken : option string;
  isLoading : bool;
  isAuthenticated : bool
}.

(** The store together with the browser state it reads and writes. *)
Record World : Type := mkWorld {
  store : Store;
  browser : Api.Browser
}.

Definition setItem (k v : string) (b : Api.Browser) : Api.Browser :=
  Api.mkBrowser (<[k := v]> (Api.localStorage b)) (Api.location b).

Definition removeItem (k : string) (b : Api.Browser) : Api.Browser :=
  Api.mkBrowser (delete k (Api.localStorage b)) (Api.location b).

Section Library.

(** [JSON.parse] and [JSON.stringify] on profiles, and whether
    [jwtDecode] accepts a token, are the libraries' and are taken as
    given. *)
Variable parse : string -> Parsed.
Variable stringify : User -> string.
Variable jwtDecode : string -> bool.

(** [JSON.parse(localStorage.getItem('user'))]; [getItem] gives [null] for
    a missing key and [JSON.parse(null)] is [null]. *)
Definition storedUser (b : Api.Browser) : Parsed :=
  match Api.localStorage b !! "user" with
  | Some text => parse text
  | None => Json None
  end.

(** [localStorage.getItem('access_token') || null] *)
Definition storedToken (b : Api.Browser) : option string :=
  Js.orStr (Api.localStorage b !! "access_token") None.

(** The initial state [create] builds when the module is loaded; [None]
    when parsing the stored profile throws. *)
Definition create (b : Api.Browser) : option Store :=
  match storedUser b with
  | SyntaxError => None
  | Json u => Some (mkStore u (storedToken b) false false)
  end.

(** [logout] *)
Definition logout (w : World) : World :=
  let b := removeItem "user" (removeItem "access_token" (browser w)) in
  mkWorld (mkStore None None false false) (Api.mkBrowser (Api.localStorage b) "/login").

(** [login(token)] up to the point where [loadUser] awaits the reply of
    [/auth/me]: the token is decoded and stored, and [loadUser] has set
    [isLoading]. *)
Definition login (token : string) (w : World) : World :=
  if jwtDecode token then
    let b := setItem "access_token" token (browser w) in
    let st := mkStore (user (store w)) (Some token) (isLoading (store w))
                (isAuthenticated (store w)) in
    mkWorld (mkStore (user st) (accessToken st) true (isAuthenticated st)) b
  else logout w.

(** [JSON.stringify(response.data)] for a body that is a profile or
    [null]. *)
Definition stringifyBody (data : option User) : string :=
  match data with
  | Some u => stringify u
  | None => "null"
  end.

(** The rest of [loadUser]: the reply of [/auth/me] comes back through the
    client's interceptors; [data] is the body of a successful reply, a
    profile or [None] when the body is [null].  The body is stored as it
    comes, without a test. *)
Definition loadUserSettle (reply : option Api.Response) (msg : string)
    (data : option User) (w : World) : World :=
  match Api.call reply msg (browser w) with
  | (Api.Fulfilled _, b) =>
      let b := setItem "user" (stringifyBody data) b in
      mkWorld (mkStore data (accessToken (store w)) false true) b
  | (Api.Failed _, b) =>
      let st := mkStore (user (store w)) (accessToken (store w)) false
                  (isAuthenticated (store w)) in
      logout (mkWorld st b)
  end.

(** [initializeAuth]; [None] when parsing the stored profile throws, which
    happens before the store is touched. *)
Definition initializeAuth (w : World) : option World :=
  let token := Api.localStorage (browser w) !! "access_token" in
  match storedUser (browser w) with
  | SyntaxError => None
  | Json u =>
      match u with
      | Some _ =>
          if Js.truthy token
          then Some (mkWorld (mkStore u token false true) (browser w))
          else Some (mkWorld (mkStore None None false false) (browser w))
      | None => Some (mkWorld (mkStore None None false false) (browser w))
      end
  end.

End Library.

(** What a route guard renders. *)
Inductive Rendered : Type :=
| LoadingScreen
| Navigate (to : string)
| Children.

Definition ProtectedRoute (st : Store) : Rendered :=
  if isLoading st then LoadingScreen
  else if negb (isAuthenticated st) then Navigate "/login"
  else Children.

Definition PublicRoute (st : Store) : Rendered :=
  if isLoading st then LoadingScreen
  else if isAuthenticated st then Navigate "/dashboard"
  else Children.

End Auth.

(** ** auth.js, first socket wrapper: the module-level listeners *)

Module SocketV1Listeners.

(** The [connect_error] listener; [message] is [err.message]. *)
Definition onConnectError (message : string) (w : SocketV1.World) : SocketV1.World :=
  if Train.contains "Authentication error" message then
    let ls := delete "access_token" (SocketV1.localStorage w) in
    let ls := delete "user" ls in
    SocketV1.mkWorld ls (SocketV1.socket w) (SocketV1.timers w)
  else w.

End SocketV1Listeners.

(** ** The pages' connection handlers *)

(** AnalyzeData.jsx: the [disconnect], [connect] and [error] handlers of
    the socket effect.  [handleDisconnect] reads the [runStatus] of the
    render that registered it, which is the current one because the effect
    runs again whenever [runStatus] changes. *)
Module AnalyzeChannel.

Definition handleDisconnect (pg : Analyze.Page) : Analyze.Page :=
  if negb (Analyze.isMountedRef pg) then pg else
  if negb (Js.includes ["SUCCESS"; "FAILED"] (Analyze.runStatus pg))
  then Analyze.setRunStatus (fun _ => "CONNECTING") pg
  else pg.

(** [handleConnect]: [join] is the wrapper's [joinTrainingRoom], whose
    promise the handler drops. *)
Definition handleConnect {W : Type} (join : string -> W -> Settled * W)
    (runId : string) (w : W) (pg : Analyze.Page) : W * Analyze.Page :=
  if negb (Analyze.isMountedRef pg) then (w, pg) else
  ((join runId w).2, pg).

(** [handleError]; [msg] is [err.msg]. *)
Definition handleError (msg : option string) (pg : Analyze.Page) : Analyze.Page :=
  if negb (Analyze.isMountedRef pg) then pg else
  Analyze.toast
    (toast_error ("Socket error: "
                  +:+ default "Connection failed" (Js.orStr msg None))) pg.

(** Delivery of a [disconnect] to the page, as the socket effect allows. *)
Definition deliverDisconnect (pg : Analyze.Page) : Analyze.Page :=
  if Analyze.shouldConnect pg then handleDisconnect pg else pg.

End AnalyzeChannel.

(** CleanData.jsx: the [disconnect] and [connect] handlers and the
    buttons of the actions card. *)
Module CleanChannel.

Definition handleDisconnect (pg : Clean.Page) : Clean.Page :=
  if negb (Clean.isMountedRef pg) then pg else
  if String.eqb (Clean.status pg) "CLEANING"
  then Clean.setStatus "CONNECTING" pg
  else pg.

(** [runDetails?.status === 'SUCCESS' ? 'READY' : runDetails?.status] *)
Definition snapshotStatus (pg : Clean.Page) : option string :=
  match Clean.runDetails pg with
  | Some details =>
      match RunDetails.status details with
      | Some s => Some (if String.eqb s "SUCCESS" then "READY" else s)
      | None => None
      end
  | None => None
  end.

(** [onConnect].  The result is [None] in the one case the status cell
    would leave the strings: the page is [CONNECTING] and the snapshot
    carries no status, so the cell is set to [undefined]. *)
Definition onConnect {W : Type} (join : string -> W -> Settled * W)
    (runId : string) (w : W) (pg : Clean.Page) : option (W * Clean.Page) :=
  if negb (Clean.isMountedRef pg) then Some (w, pg) else
  let w := (join runId w).2 in
  if String.eqb (Clean.status pg) "CONNECTING" then
    match snapshotStatus pg with
    | Some s => Some (w, Clean.setStatus s pg)
    | None => None
    end
  else Some (w, pg).

(** Delivery of the two events, as the socket effect allows. *)
Definition deliverDisconnect (pg : Clean.Page) : Clean.Page :=
  if Clean.subscribed pg then handleDisconnect pg else pg.

Definition deliverConnect {W : Type} (join : string -> W -> Settled * W)
    (runId : string) (w : W) (pg : Clean.Page) : option (W * Clean.Page) :=
  if Clean.subscribed pg then onConnect join runId w pg else Some (w, pg).

(** [canInteractWithForm] and the [disabled] attribute of the three
    buttons. *)
Definition canInteractWithForm (pg : Clean.Page) : bool :=
  bool_decide (is_Some (Clean.runDetails pg))
  && Js.includes ["READY"; "CLEANING_FAILED"] (Clean.status pg).

Definition applyDisabled (pg : Clean.Page) : bool :=
  negb (canInteractWithForm pg) || String.eqb (Clean.status pg) "CLEANING".

Definition proceedDisabled (pg : Clean.Page) : bool :=
  negb (String.eqb (Clean.status pg) "CLEANING_SUCCESS").

Definition snapshotIs (s : string) (pg : Clean.Page) : bool :=
  match Clean.runDetails pg with
  | Some details =>
      match RunDetails.status details with
      | Some have => String.eqb have s
      | None => false
      end
  | None => false
  end.

Definition skipDisabled (pg : Clean.Page) : bool :=
  negb (snapshotIs "SUCCESS" pg
        || String.eqb (Clean.status pg) "CLEANING_SUCCESS"
        || String.eqb (Clean.status pg) "CLEANING_FAILED").

(** The [disabled] attribute of the options [fieldset]. *)
Definition formDisabled (pg : Clean.Page) : bool :=
  String.eqb (Clean.status pg) "CLEANING"
  || String.eqb (Clean.status pg) "CLEANING_SUCCESS".

End CleanChannel.

(** Training.jsx: the [connect], [disconnect] and [error] handlers the
    socket effect defines (lines 105-128).  [onDisconnect] reads the
    [runStatus] of the render whose effect defined it. *)
Module TrainChannel.

(** The [catch] branch of [onConnect], run when the promise of
    [joinTrainingRoom] is rejected; it does not look at [isMountedRef]. *)
Definition onJoinRejected (pg : Train.Page) : Train.Page :=
  Train.setRunStatus "CONNECTING" pg.

(** [onConnect] up to the settlement the call itself decides. *)
Definition onConnect {W : Type} (join : string -> W -> Settled * W)
    (runId : string) (w : W) (pg : Train.Page) : W * Train.Page :=
  if negb (Train.isMountedRef pg) then (w, pg) else
  match join runId w with
  | (Rejected _, w) => (w, onJoinRejected pg)
  | (_, w) => (w, pg)
  end.


(** [onError]; [msg] is [err.msg]. *)
Definition onError (msg : option string) (pg : Train.Page) : Train.Page :=
  if negb (Train.isMountedRef pg) then pg else
  Train.toast
    (toast_error ("Socket error: "
                  +:+ default "Connection failed" (Js.orStr msg None))) pg.

End TrainChannel.

(** CleanData.jsx: the cleaning options and the body of the cleaning
    request. *)
Module CleanOptions.

(** The values the options object holds: booleans and strings. *)
Inductive Value : Type :=
| VBool (b : bool)
| VStr (s : string).


Definition initialOptions : gmap string Value :=
  <["remove_duplicates" := VBool true]>
  (<["handle_missing" := VBool false]>
  (<["missing_method" := VStr "remove"]>
  (<["handle_outliers" := VBool false]>
  (<["outlier_method" := VStr "iqr"]>
  (<["encode_categorical" := VBool true]>
  (<["feature_scaling" := VBool false]>
  (<["scaling_method" := VStr "standard"]> ∅))))))).

(** Truthiness of a member that may be missing. *)
Definition truthy (v : option Value) : bool :=
  match v with
  | Some (VBool b) => b
  | Some (VStr s) => negb (String.eqb s "")
  | None => false
  end.

(** [e.target] of a change event. *)
Record Target : Type := mkTarget {
  name : string;
  value : string;
  type : string;
  checked : bool
}.

Definition handleOptionChange (e : Target) (prev : gmap string Value) : gmap string Value :=
  <[name e := if String.eqb (type e) "checkbox"
              then VBool (checked e) else VStr (value e)]> prev.

(** The [optionsToSend] of [handleStartCleaning]. *)
Definition optionsToSend (options : gmap string Value) : gmap string Value :=
  let optionsToSend := options in
  let optionsToSend :=
    if negb (truthy (options !! "handle_missing"))
    then delete "missing_method" optionsToSend else optionsToSend in
  let optionsToSend :=
    if negb (truthy (options !! "handle_outliers"))
    then delete "outlier_method" optionsToSend else optionsToSend in
  if negb (truthy (options !! "feature_scaling"))
  then delete "scaling_method" optionsToSend else optionsToSend.

End CleanOptions.

(** ** The step indicator the pages render (StepIndicator.jsx) *)

Module StepIndicator.

Inductive StatusClass : Type :=
| upcomingStep
| completedStep
| activeStep.

(** What is rendered for one step. *)
Record Item : Type := mkItem {
  label : string;
  statusClass : StatusClass;
  circle : option Z;             (* the step number; [None] is the check icon *)
  labelActive : bool;
  connector : option bool        (* absent after the last step; else completed? *)
}.

(** [arr.indexOf(x)] on strings. *)
Fixpoint indexOf_from (i : Z) (x : string) (arr : list string) : Z :=
  match arr with
  | [] => (-1)%Z
  | y :: rest => if String.eqb y x then i else indexOf_from (i + 1)%Z x rest
  end.

Definition indexOf (x : string) (arr : list string) : Z := indexOf_from 0%Z x arr.

(** [arr.map((step, index) => ...)] from index [index] on. *)
Fixpoint mapFrom {B : Type} (f : string -> Z -> B) (index : Z) (arr : list string)
  : list B :=
  match arr with
  | [] => []
  | step :: rest => f step index :: mapFrom f (index + 1)%Z rest
  end.

(** The body of the [map] callback. *)
Definition item (stepsLength currentIndex : Z) (step : string) (index : Z) : Item :=
  let isCompleted := (index <? currentIndex)%Z in
  let isActive := (index =? currentIndex)%Z in
  let statusClass := upcomingStep in
  let statusClass := if isCompleted then completedStep else statusClass in
  let statusClass := if isActive then activeStep else statusClass in
  mkItem step statusClass
    (if isCompleted then None else Some (index + 1)%Z)
    (isActive || isCompleted)
    (if (index <? stepsLength - 1)%Z then Some isCompleted else None).

(** The list rendered for the steps [steps] with [visualStep] current. *)
Definition render (steps : list string) (visualStep : string) : list Item :=
  let currentIndex := indexOf visualStep steps in
  mapFrom (item (Z.of_nat (length steps)) currentIndex) 0%Z steps.

(** The component with the seven separate steps. *)
Module Separate.

Definition steps : list string :=
  ["Select Model"; "Upload Data"; "Analyze"; "Clean"; "Configure"; "Train"; "Results"].

Definition StepIndicator (currentStep : string) : list Item :=
  render steps currentStep.

End Separate.

(** The component that shows Analyze and Clean as one step. *)
Module Combined.

Definition steps : list string :=
  ["Select Model"; "Upload Data"; "Analyze & Clean"; "Configure"; "Train"; "Results"].

(** The own members of [stepMap]. *)
Definition stepMap : list (string * string) :=
  [("Select Model", "Select Model"); ("Upload Data", "Upload Data");
   ("Analyze", "Analyze & Clean"); ("Clean", "Analyze & Clean");
   ("Configure", "Configure"); ("Train", "Train"); ("Results", "Results")].

Fixpoint get (m : list (string * string)) (k : string) : option string :=
  match m with
  | [] => None
  | (k', v) :: rest => if String.eqb k' k then Some v else get rest k
  end.

(** [stepMap[currentStep] || currentStep], for a [currentStep] that is not
    the name of a member inherited from [Object.prototype]. *)
Definition visualStep (currentStep : string) : string :=
  default currentStep (Js.orStr (get stepMap currentStep) None).

Definition StepIndicator (currentStep : string) : list Item :=
  render steps (visualStep currentStep).

End Combined.

End StepIndicator.

(** ** The pages' use of the wrapper: socket effect, cleanup, unmount *)

Module Lifecycle.

(** [socket.disconnect()]: the socket is no longer connected when the call
    returns. *)
Definition disconnect (s : Socket.t) : Socket.t :=
  Socket.mk false (Socket.emitted s) (Socket.listeners s).

(** [socket.off(event)] without a listener: every listener of the event is
    removed. *)
Definition offAll (ev : string) (s : Socket.t) : Socket.t :=
  Socket.mk (Socket.connected s) (Socket.emitted s)
    (filter (fun l => l.1 ≠ ev) (Socket.listeners s)).

(** A wrapper's world with the calls made to [socket.connect()] and the
    number of [connectSocket] promises of the first wrapper whose listener
    pair and timeout are registered. *)
Record Wire (W : Type) : Type := mkWire {
  world : W;
  connectCalls : nat;
  connecting : nat
}.

Arguments mkWire {W} _ _ _.
Arguments world {W} _.
Arguments connectCalls {W} _.
Arguments connecting {W} _.

(** What a page imports from a wrapper module: the default export
    [socket] and the four functions. *)
Record Wrapper (W : Type) : Type := mkWrapper {
  socket : W -> Socket.t;
  onSocket : (Socket.t -> Socket.t) -> W -> W;
  connectSocket : W -> W;
  disconnectSocket : W -> W;
  joinTrainingRoom : string -> W -> Settled * W;
  leaveTrainingRoom : string -> W -> W
}.

Arguments socket {W} _ _.
Arguments onSocket {W} _ _ _.
Arguments connectSocket {W} _ _.
Arguments disconnectSocket {W} _ _.
Arguments joinTrainingRoom {W} _ _ _.
Arguments leaveTrainingRoom {W} _ _ _.

(** The first wrapper. *)
Definition connectSocket1 (c : Wire SocketV1.World) : Wire SocketV1.World :=
  if Socket.connected (SocketV1.socket (world c)) then c
  else mkWire (world c) (S (connectCalls c)) (S (connecting c)).

Definition disconnectSocket1 (c : Wire SocketV1.World) : Wire SocketV1.World :=
  if Socket.connected (SocketV1.socket (world c))
  then mkWire (SocketV1.withSocket disconnect (world c)) (connectCalls c) (connecting c)
  else c.

Definition wrapper1 : Wrapper (Wire SocketV1.World) :=
  mkWrapper _
    (fun c => SocketV1.socket (world c))
    (fun f c => mkWire (SocketV1.withSocket f (world c)) (connectCalls c) (connecting c))
    connectSocket1
    disconnectSocket1
    (fun runId c =>
       let '(r, w) := SocketV1.joinTrainingRoom runId (world c) in
       (r, mkWire w (connectCalls c) (connecting c)))
    (fun runId c =>
       mkWire (SocketV1.leaveTrainingRoom runId (world c)) (connectCalls c) (connecting c)).

(** The second wrapper. *)
Definition onSocket2 (f : Socket.t -> Socket.t) (w : SocketV2.World) : SocketV2.World :=
  let '(s, w) := SocketV2.getSocket w in SocketV2.update (f s) w.

Definition connectSocket2 (c : Wire SocketV2.World) : Wire SocketV2.World :=
  let '(s, w) := SocketV2.getSocket (world c) in
  if negb (Socket.connected s) then mkWire w (S (connectCalls c)) (connecting c)
  else mkWire w (connectCalls c) (connecting c).

Definition disconnectSocket2 (c : Wire SocketV2.World) : Wire SocketV2.World :=
  let '(s, w) := SocketV2.getSocket (world c) in
  if Socket.connected s
  then mkWire (SocketV2.update (disconnect s) w) (connectCalls c) (connecting c)
  else mkWire w (connectCalls c) (connecting c).

Definition wrapper2 : Wrapper (Wire SocketV2.World) :=
  mkWrapper _
    (fun c => (SocketV2.getSocket (world c)).1)
    (fun f c => mkWire (onSocket2 f (world c)) (connectCalls c) (connecting c))
    connectSocket2
    disconnectSocket2
    (fun runId c =>
       let '(r, w) := SocketV2.joinTrainingRoom runId (world c) in
       (r, mkWire w (connectCalls c) (connecting c)))
    (fun runId c =>
       mkWire (SocketV2.leaveTrainingRoom runId (world c)) (connectCalls c) (connecting c)).

Section Page.

Context {W : Type} (wr : Wrapper W).

(** The body of the socket effect when it does not return early.  The
    page's own handlers, which it registers here and removes in the
    cleanup, are not part of the wrapper's state. *)
Definition effectBody (w : W) : W := connectSocket wr w.

(** The cleanup of the socket effect, as the Analyze and Train pages have
    it, and as the Clean page has it. *)
Definition effectCleanup (runId : string) (w : W) : W :=
  if Socket.connected (socket wr w) then leaveTrainingRoom wr runId w else w.

Definition effectCleanupClean (runId : string) (w : W) : W :=
  let w := effectCleanup runId w in
  let w := onSocket wr (offAll "error") w in
  onSocket wr (offAll "disconnect") w.

(** The cleanup of the fetch effect, which runs when the page unmounts. *)
Definition unmountCleanup (runId : string) (w : W) : W :=
  disconnectSocket wr (leaveTrainingRoom wr runId w).

(** What React does after a render in which a dependency of the socket
    effect changed: the cleanup of the previous run, if that run
    subscribed, then the effect again. *)
Definition rerun (runId : string) (before after : bool) (w : W) : W :=
  let w := if before then effectCleanup runId w else w in
  if after then effectBody w else w.

(** Unmounting: the cleanups run in the order the effects are declared,
    the fetch effect's first. *)
Definition unmount (runId : string) (subscribed : bool) (w : W) : W :=
  let w := unmountCleanup runId w in
  if subscribed then effectCleanup runId w else w.

End Page.

End Lifecycle.

(** Training.jsx: the views of the render and the buttons under the
    progress bar. *)
Module TrainView.

(** The render returns the loading view while the details are being
    fetched and the error view when the fetch failed (lines 245-273); the
    progress card with its buttons belongs to the main view. *)
Inductive View : Type :=
| LoadingView
| ErrorView
| MainView.

Definition view (pg : Train.Page) : View :=
  if Train.isFetchingDetails pg then LoadingView
  else if Js.truthy (Train.fetchError pg) then ErrorView
  else MainView.

Definition inMainView (pg : Train.Page) : bool :=
  match view pg with
  | MainView => true
  | _ => false
  end.

(** Whether each of the three conditional buttons is rendered. *)
Definition resultsButton (pg : Train.Page) : bool :=
  inMainView pg && String.eqb (Train.runStatus pg) "SUCCESS".

Definition backButton (pg : Train.Page) : bool :=
  inMainView pg
  && (String.eqb (Train.runStatus pg) "FAILED"
      || String.eqb (Train.runStatus pg) "ANALYSIS_FAILED"
      || String.eqb (Train.runStatus pg) "CLEANING_FAILED"
      || String.eqb (Train.runStatus pg) "CANCELLED").

Definition stopButton (pg : Train.Page) : bool :=
  inMainView pg
  && (String.eqb (Train.runStatus pg) "TRAINING"
      || String.eqb (Train.runStatus pg) "STARTING").

End TrainView.

(** ** ConfigureTrain.jsx: the parameters sent with the training request *)

Module ConfigureTrain.

(** The values a parameter takes in the form and in the model's
    configuration. *)
Inductive Value : Type :=
| VUndefined
| VNull
| VBool (b : bool)
| VNum (q : Q)
| VStr (s : string).

(** One entry of [modelConfig.parameters]. *)
Record Param : Type := mkParam {
  name : string;
  label : string;
  type : string;
  default : Value;
  options : option (list string)
}.

Definition isNull (v : Value) : bool :=
  match v with VNull => true | _ => false end.

(** [!v] *)
Definition falsy (v : Value) : bool :=
  match v with
  | VUndefined | VNull => true
  | VBool b => negb b
  | VNum q => Qeq_bool q 0
  | VStr s => String.eqb s ""
  end.

(** The body of the [forEach] that builds [defaultParams]. *)
Definition initialValue (p : Param) : Value :=
  let initialValue := default p in
  let initialValue :=
    if String.eqb (type p) "number" && isNull initialValue
    then VStr "" else initialValue in
  let initialValue :=
    if String.eqb (type p) "select" && isNull initialValue
    then match options p with
         | Some (first :: _) => VStr first
         | _ => initialValue
         end
    else initialValue in
  if String.eqb (type p) "boolean_checkbox" && isNull initialValue
  then VBool false else initialValue.

Definition defaultParams (parameters : list Param) : gmap string Value :=
  fold_left (fun acc p => <[name p := initialValue p]> acc) parameters ∅.

Definition handleParamChange (k : string) (v : Value) (prev : gmap string Value)
  : gmap string Value :=
  <[k := v]> prev.

(** [handleChange] of the form field: [text] is [e.target.value], [number]
    what [Number] makes of it and [checked] is [e.target.checked]. *)
Definition handleChange (p : Param) (text : string) (number : Q) (checked : bool)
    (prev : gmap string Value) : gmap string Value :=
  let val :=
    if String.eqb (type p) "number"
    then if String.eqb text "" then VNull else VNum number
    else if String.eqb (type p) "boolean_checkbox" then VBool checked
    else VStr text in
  handleParamChange (name p) val prev.

(** [modelConfig?.parameters.find(p => p.name === key)] *)
Definition findByName (parameters : list Param) (key : string) : option Param :=
  List.find (fun p => String.eqb (name p) key) parameters.

(** [modelConfig?.parameters.find(p => p.type === 'target_column')] *)
Definition findTarget (parameters : list Param) : option Param :=
  List.find (fun p => String.eqb (type p) "target_column") parameters.

(** The test of the loop that builds [finalParams]. *)
Definition kept (parameters : list Param) (key : string) (value : Value) : bool :=
  let isAllowedNull :=
    match findByName parameters key with
    | Some paramConfig =>
        isNull (default paramConfig)
        && negb (Js.includes ["target_column"] (type paramConfig))
    | None => false
    end in
  match value with
  | VBool false => true
  | VNull => isAllowedNull
  | VStr s => negb (String.eqb s "")
  | _ => true
  end.

Definition finalParams (parameters : list Param) (params : gmap string Value)
  : gmap string Value :=
  filter (fun kv => kept parameters kv.1 kv.2 = true) params.

(** What [handleStartTraining] does with the form: it stops with an error
    notification, or posts [finalParams]. *)
Inductive Submission : Type :=
| Stopped (notification : Toast)
| Posted (body : gmap string Value).

Definition handleStartTraining (parameters : list Param) (params : gmap string Value)
  : Submission :=
  let finalParams := finalParams parameters params in
  match findTarget parameters with
  | Some targetParamConfig =>
      if falsy (from_option id VUndefined (finalParams !! name targetParamConfig))
      then Stopped (toast_error ("Please select the '" +:+ label targetParamConfig
                                 +:+ "' before starting."))
      else Posted finalParams
  | None => Posted finalParams
  end.

End ConfigureTrain.

(** * Vocabulary of the properties *)

(** The statuses each page treats as final: the guard lists of the Analyze
    and Clean handlers, the list under which the Analyze page's socket
    effect registers nothing and the list under which the Train page's
    socket effect returns before connecting. *)
Definition analyze_final : list string := ["SUCCESS"; "FAILED"; "ANALYSIS_FAILED"].


Definition clean_final : list string := ["CLEANING_SUCCESS"; "CLEANING_FAILED"; "FAILED"].

Definition train_final : list string := ["SUCCESS"; "FAILED"; "FETCH_FAILED"; "CANCELLED"].




Definition clean_deliveries (updates : list StatusUpdate.t) (pg : Clean.Page)
  : Clean.Page :=
  Clean.run (Clean.OpStatusUpdate <$> updates) pg.

Definition train_updates (updates : list StatusUpdate.t) (pg : Train.Page)
  : Train.Page :=
  fold_left Train.deliverStatusUpdate updates pg.

(** The two notifications the Clean page shows for the outcome of a
    cleaning run, and how many of them a page has shown so far. *)
Definition clean_outcome (t : Toast) : bool :=
  match t with
  | toast_success msg => String.eqb msg "Data Cleaning Complete!"
  | toast_error msg => String.eqb msg "Data Cleaning Failed. Check logs."
  | _ => false
  end.

Definition clean_outcomes (pg : Clean.Page) : nat :=
  length (List.filter clean_outcome (Clean.toasts pg)).

(** A snapshot of a run of a random forest classifier in [status]. *)
Definition forest_run (status : string) : RunDetails.t :=
  RunDetails.mk (Some status) None None (Some "random_forest_classifier")
    (Some "classification") None.

(** The point a metric value is charted as: the number itself, and
    [null] for a value the event does not carry. *)
Definition charted (v : option Q) : Chart.Cell :=
  match v with
  | Some q => Chart.Num q
  | None => Chart.Null
  end.

(** The four points an event is charted as: train and validation value of
    the primary and of the secondary metric, which are R² and RMSE for a
    regression and accuracy and loss otherwise. *)
Definition trainP (isRegression : bool) (m : Metric.t) : Chart.Cell :=
  charted (if isRegression then Metric.train_r2 m else Metric.train_accuracy m).

Definition valP (isRegression : bool) (m : Metric.t) : Chart.Cell :=
  charted (if isRegression then Metric.val_r2 m else Metric.val_accuracy m).

Definition trainS (isRegression : bool) (m : Metric.t) : Chart.Cell :=
  charted (if isRegression then Metric.train_rmse m else Metric.train_loss m).

Definition valS (isRegression : bool) (m : Metric.t) : Chart.Cell :=
  charted (if isRegression then Metric.val_rmse m else Metric.val_loss m).

(** The chart states a page can be in: the initial one and those the
    updater of [onMetric] produces from them. *)
Inductive reachable : MetricData → Prop :=
| reachable_initial : reachable Train.initialMetricData
| reachable_upsert (isRegression : bool) (L : Z) (m : Metric.t) (st : MetricData) :
    reachable st → reachable (Train.upsert isRegression L m st).

(** What holds of every reachable state: both charts share their labels,
    every data array is as long as the labels, and the cap is respected. *)
Definition synced (st : MetricData) : Prop :=
  Chart.labels (secondary st) = Chart.labels (primary st)
  ∧ length (Chart.data0 (primary st)) = length (Chart.labels (primary st))
  ∧ length (Chart.data1 (primary st)) = length (Chart.labels (primary st))
  ∧ length (Chart.data0 (secondary st)) = length (Chart.labels (primary st))
  ∧ length (Chart.data1 (secondary st)) = length (Chart.labels (primary st))
  ∧ length (Chart.labels (primary st)) ≤ Train.maxPoints.

(** A chart without its [k] oldest points. *)
Definition dropChart (k : nat) (c : Chart.t) : Chart.t :=
  Chart.mk (drop k (Chart.labels c)) (drop k (Chart.data0 c)) (drop k (Chart.data1 c)).

(** Folding a stream of metric events, each with the closure it was
    received under, into the chart state. *)
Definition resolved (ev : Progress.t * Metric.t) : Z := Train.stepLabel ev.1 ev.2.

Definition feed (isRegression : bool) (st : MetricData)
    (ev : Progress.t * Metric.t) : MetricData :=
  Train.upsert isRegression (resolved ev) ev.2 st.

(** [taskType === 'regression'] for the task type of a page. *)
Definition page_isRegression (pg : Train.Page) : bool :=
  match Train.taskType pg with
  | Some ty => String.eqb ty "regression"
  | None => false
  end.

(** The last [maxPoints] elements of a list. *)
Definition window {A : Type} (l : list A) : list A :=
  drop (length l - Train.maxPoints) l.

(** The chart state showing the last [maxPoints] of the events [evs]. *)
Definition windowed (isRegression : bool) (evs : list (Progress.t * Metric.t))
  : MetricData :=
  mkMetricData
    (Chart.mk (window (resolved <$> evs))
       (window ((λ ev, trainP isRegression ev.2) <$> evs))
       (window ((λ ev, valP isRegression ev.2) <$> evs)))
    (Chart.mk (window (resolved <$> evs))
       (window ((λ ev, trainS isRegression ev.2) <$> evs))
       (window ((λ ev, valS isRegression ev.2) <$> evs))).

(** Two hundred events with epochs 0 to 199, accuracy [i/200], loss
    [1/(i+1)] and no validation values. *)
Definition epochs_0_199 : list (Progress.t * Metric.t) :=
  (λ i : nat,
     (Progress.initial,
      Metric.mk (Some (Z.of_nat i)) None None (Some 200%Z) None None None
        (Some (Z.of_nat i # 200)) None (Some (1 # Pos.of_succ_nat i)) None
        None None None None None))
  <$> seq 0 200.

(** The [join_room] request carrying [token] for [runId]. *)
Definition join_request (runId token : string) (ack connectedNow : bool)
  : Socket.Emission :=
  Socket.mkEmission "join_room" [("token", token); ("model_run_id", runId)]
    ack connectedNow.

(** [localStorage.setItem('access_token', token)] *)
Definition refresh_v1 (token : string) (w : SocketV1.World) : SocketV1.World :=
  SocketV1.mkWorld (<["access_token":=token]> (SocketV1.localStorage w))
    (SocketV1.socket w) (SocketV1.timers w).

Definition refresh_v2 (token : string) (w : SocketV2.World) : SocketV2.World :=
  SocketV2.mkWorld (<["access_token":=token]> (SocketV2.localStorage w))
    (SocketV2.socket w).

(** The calls made to [socket.emit] so far, in each wrapper's world. *)
Definition emitted_v1 (w : SocketV1.World) : list Socket.Emission :=
  Socket.emitted (SocketV1.socket w).

Definition emitted_v2 (w : SocketV2.World) : list Socket.Emission :=
  match SocketV2.socket w with
  | Some s => Socket.emitted s
  | None => []
  end.

(** The timestamp an event carries once a stamping handler has received it
    at clock reading [now]: its own if it has a truthy one, else [now]. *)
Definition stamp (now : string) (ts : option string) : option string :=
  if Js.truthy ts then ts else Some now.

(** A member that is absent or zero is falsy under [||]. *)
Definition falsy (v : option Z) : Prop := v = None ∨ v = Some 0%Z.

(** [n] of [d] in percent, as JavaScript computes [(n / d) * 100]. *)
Definition percent (n d : Z) : PrimFloat.float :=
  PrimFloat.mul (PrimFloat.div (Js.number n) (Js.number d)) (Js.number 100).

(** The two notes [handleStartCleaning] writes. *)
Definition reset_note (now : string) : Log.t :=
  Log.note "CLIENT" "Resetting state for new cleaning run..." now.

Definition requested_note (now : string) : Log.t :=
  Log.note "CLIENT" "Cleaning task requested..." now.

(** An operation of the Clean page other than starting a cleaning run. *)
Definition keeps_log (op : Clean.Op) : Prop :=
  match op with
  | Clean.OpStartCleaning _ _ => False
  | _ => True
  end.

(** Local storage with the credentials removed. *)
Definition signed_out (ls : gmap string string) : gmap string string :=
  delete "user" (delete "access_token" ls).

(** An attempt that ends the retry loop: a value, or an error that carries
    a response with a status below 500. *)
Definition stops {A : Type} (a : ApiRequest.Attempt A) : bool :=
  match a with
  | ApiRequest.Returned _ => true
  | ApiRequest.Threw e => ApiRequest.clientError e
  end.

(** What the loop ends with on such an attempt. *)
Definition finalOf {A : Type} (a : ApiRequest.Attempt A) : ApiRequest.Final A :=
  match a with
  | ApiRequest.Returned v => ApiRequest.Value v
  | ApiRequest.Threw e => ApiRequest.Thrown (Some e)
  end.

(** The error of an attempt, if it threw. *)
Definition errorOf {A : Type} (a : ApiRequest.Attempt A) : option Api.Error :=
  match a with
  | ApiRequest.Returned _ => None
  | ApiRequest.Threw e => Some e
  end.

(** The state in which the [k]-th call of [requestFn] is made. *)
Fixpoint stateAt {A St : Type} (requestFn : nat -> St -> ApiRequest.Attempt A * St)
    (s : St) (k : nat) : St :=
  match k with
  | O => s
  | S j => (requestFn j (stateAt requestFn s j)).2
  end.

(** The [k]-th attempt of a run started in [s]. *)
Definition attemptAt {A St : Type}
    (requestFn : nat -> St -> ApiRequest.Attempt A * St) (s : St) (k : nat)
  : ApiRequest.Attempt A :=
  (requestFn k (stateAt requestFn s k)).1.

(** The delays after the first [n] failed attempts: 1 s, 2 s, 4 s, ... *)
Definition backoff (n : nat) : list Z :=
  (fun j : nat => (2 ^ Z.of_nat j * 1000)%Z) <$> seq 0 n.

Definition totalWait (delays : list Z) : Z := foldr Z.add 0%Z delays.

(** A reply the loop retries after: none at all, or one with a status of
    500 or more. *)
Definition retryable (reply : option Api.Response) : Prop :=
  match reply with
  | None => True
  | Some r => (500 <= Api.status r)%Z
  end.

(** A server that answers 503, 503 and then 200. *)
Definition flaky (k : nat) (_ : unit) : ApiRequest.Attempt Z * unit :=
  if k <? 2
  then (ApiRequest.Threw (Api.mkError (Some (Api.mkResponse 503)) "busy"), tt)
  else (ApiRequest.Returned 200%Z, tt).

(** A network that is down. *)
Definition offline (k : nat) (_ : unit) : ApiRequest.Attempt Z * unit :=
  (ApiRequest.Threw (Api.mkError None "offline"), tt).

(** What a page load does with the store: the module is loaded ([create])
    and [initializeAuth] is called; [None] when the stored profile does not
    parse. *)
Definition startup (parse : string -> Auth.Parsed) (b : Api.Browser)
  : option Auth.World :=
  match Auth.create parse b with
  | Some st => Auth.initializeAuth parse (Auth.mkWorld st b)
  | None => None
  end.

(** The store of a visitor who is signed in, and of one who is not. *)
Definition signedIn (u : Auth.User) (token : string) : Auth.Store :=
  Auth.mkStore (Some u) (Some token) false true.

Definition signedOut : Auth.Store := Auth.mkStore None None false false.

(** A reply with a status in the 2xx range. *)
Definition ok (r : Api.Response) : Prop := (200 <= Api.status r < 300)%Z.

(** Anything but such a reply. *)
Definition failing (reply : option Api.Response) : Prop :=
  match reply with
  | Some r => ¬ ok r
  | None => True
  end.

(** The calls that change the store, with whatever other code does to the
    browser state in between, and a run of them from a world; a call of
    [initializeAuth] that throws leaves the world as it was. *)
Inductive AuthCall : Type :=
| Login (token : string)
| LoadUserSettle (reply : option Api.Response) (msg : string)
    (data : option Auth.User)
| Logout
| InitializeAuth
| Elsewhere (b : Api.Browser).   (* other code writing the browser state *)

Definition authStep (parse : string -> Auth.Parsed) (stringify : Auth.User -> string)
    (jwtDecode : string -> bool) (w : Auth.World) (c : AuthCall) : Auth.World :=
  match c with
  | Login token => Auth.login jwtDecode token w
  | LoadUserSettle reply msg data => Auth.loadUserSettle stringify reply msg data w
  | Logout => Auth.logout w
  | InitializeAuth => default w (Auth.initializeAuth parse w)
  | Elsewhere b => Auth.mkWorld (Auth.store w) b
  end.

Definition authRun (parse : string -> Auth.Parsed) (stringify : Auth.User -> string)
    (jwtDecode : string -> bool) (calls : list AuthCall) (w : Auth.World)
  : Auth.World :=
  fold_left (authStep parse stringify jwtDecode) calls w.

(** A call after which the store can only hold a profile when it says it
    is authenticated: any call but the settlement of [loadUser] on a 2xx
    reply whose body is [null]. *)
Definition profiled (c : AuthCall) : Prop :=
  match c with
  | LoadUserSettle reply _ data => failing reply ∨ is_Some data
  | _ => True
  end.

(** A profile, and library functions that agree on it. *)
Definition ada : Auth.User := Auth.mkUser "ada" "ada@example.org" (Some "admin").

Definition parseAda (text : string) : Auth.Parsed :=
  if String.eqb text "ada.json" then Auth.Json (Some ada) else Auth.SyntaxError.

Definition stringifyAda (_ : Auth.User) : string := "ada.json".

Definition decodesAll (_ : string) : bool := true.

(** The stored credentials a page load accepts: a non-empty token and a
    profile text that parses to [u]. *)
Definition credentials (parse : string -> Auth.Parsed) (b : Api.Browser)
    (token : string) (u : Auth.User) : Prop :=
  Api.localStorage b !! "access_token" = Some token ∧ token ≠ ""
  ∧ ∃ text, Api.localStorage b !! "user" = Some text ∧ parse text = Auth.Json (Some u).

(** A stored profile text that does not parse. *)
Definition corrupt (parse : string -> Auth.Parsed) (b : Api.Browser) : Prop :=
  ∃ text, Api.localStorage b !! "user" = Some text ∧ parse text = Auth.SyntaxError.

(** The browser state seen by the REST client when the socket wrapper's
    world shares its local storage. *)
Definition browserOf (w : SocketV1.World) (location : string) : Api.Browser :=
  Api.mkBrowser (SocketV1.localStorage w) location.

(** The inputs of the options form: five checkboxes and two selects with
    their choices. *)
Definition switches : list string :=
  ["handle_missing"; "remove_duplicates"; "handle_outliers"; "encode_categorical";
   "feature_scaling"].

Definition missingMethods : list string := ["remove"; "mean"; "median"; "mode"; "knn"].

Definition scalingMethods : list string := ["standard"; "minmax"; "robust"].

(** A change event raised by one of them. *)
Definition fromForm (e : CleanOptions.Target) : bool :=
  (String.eqb (CleanOptions.type e) "checkbox"
   && Js.includes switches (CleanOptions.name e))
  || (String.eqb (CleanOptions.type e) "select-one"
      && String.eqb (CleanOptions.name e) "missing_method"
      && Js.includes missingMethods (CleanOptions.value e))
  || (String.eqb (CleanOptions.type e) "select-one"
      && String.eqb (CleanOptions.name e) "scaling_method"
      && Js.includes scalingMethods (CleanOptions.value e)).

(** The options after a list of change events. *)
Definition edited (edits : list CleanOptions.Target) : gmap string CleanOptions.Value :=
  fold_left (fun o e => CleanOptions.handleOptionChange e o) edits
    CleanOptions.initialOptions.

(** A member that holds a boolean, and one that holds one of the strings
    [choices]. *)
Definition holdsSwitch (o : gmap string CleanOptions.Value) (k : string) : Prop :=
  ∃ b, o !! k = Some (CleanOptions.VBool b).

Definition holdsChoice (o : gmap string CleanOptions.Value) (k : string)
    (choices : list string) : Prop :=
  ∃ s, o !! k = Some (CleanOptions.VStr s) ∧ s ∈ choices.

(** What holds of the options however the form is used. *)
Definition wellFormed (o : gmap string CleanOptions.Value) : Prop :=
  holdsSwitch o "handle_missing" ∧ holdsSwitch o "remove_duplicates"
  ∧ holdsSwitch o "handle_outliers" ∧ holdsSwitch o "encode_categorical"
  ∧ holdsSwitch o "feature_scaling"
  ∧ holdsChoice o "missing_method" missingMethods
  ∧ holdsChoice o "outlier_method" ["iqr"]
  ∧ holdsChoice o "scaling_method" scalingMethods
  ∧ ∀ k, is_Some (o !! k) →
      k ∈ switches ++ ["missing_method"; "outlier_method"; "scaling_method"].

(** A method is sent exactly when its switch is on. *)
Definition sentWhenOn (o body : gmap string CleanOptions.Value) (switch method : string)
  : Prop :=
  (o !! switch = Some (CleanOptions.VBool true) ∧ body !! method = o !! method)
  ∨ (o !! switch = Some (CleanOptions.VBool false) ∧ body !! method = None).

(** The status classes of a rendered step list, in order. *)
Definition statuses (items : list StepIndicator.Item) : list StepIndicator.StatusClass :=
  StepIndicator.statusClass <$> items.

(** The list with [k] steps completed, one active and the rest upcoming,
    for [n] steps in all. *)
Definition progressTo (k n : nat) : list StepIndicator.StatusClass :=
  replicate k StepIndicator.completedStep
  ++ StepIndicator.activeStep :: replicate (n - S k) StepIndicator.upcomingStep.

(** The step names the pages and the step map use. *)
Definition stepNames : list string :=
  ["Select Model"; "Upload Data"; "Analyze"; "Clean"; "Analyze & Clean";
   "Configure"; "Train"; "Results"].

(** A freshly mounted page of each kind once its snapshot fetch has
    resolved with [details], and once it has failed. *)
Definition analyzeLoaded (now : string) (details : RunDetails.t) : Analyze.Page :=
  Analyze.fetchFinally (Analyze.fetchThen now details Analyze.initial).

(** On the Clean page the render caused by the [.then] callback runs the
    toast effect before the [.finally] callback clears the loading flag. *)
Definition cleanLoaded (details : RunDetails.t) : Clean.Page :=
  Clean.fetchFinally (Clean.toastEffect (Clean.fetchThen details Clean.initial)).

Definition trainLoaded (details : RunDetails.t) : Train.Page :=
  Train.fetchFinally (Train.fetchThen details Train.initial).





(** What a wrapper has emitted so far, and whether its socket is
    connected. *)
Definition sent {W : Type} (wr : Lifecycle.Wrapper W) (w : W) : list Socket.Emission :=
  Socket.emitted (Lifecycle.socket wr w).

Definition online {W : Type} (wr : Lifecycle.Wrapper W) (w : W) : bool :=
  Socket.connected (Lifecycle.socket wr w).

Definition listening {W : Type} (wr : Lifecycle.Wrapper W) (w : W)
  : list (string * Socket.Listener) :=
  Socket.listeners (Lifecycle.socket wr w).

(** The [leave_room] request for [runId]. *)
Definition leave_request (runId : string) (connectedNow : bool) : Socket.Emission :=
  Socket.mkEmission "leave_room" [("model_run_id", runId)] false connectedNow.

(** A status update delivered to the Analyze page, followed by what React
    does with the socket effect when the status changed. *)
Definition analyzeStatusUpdate {W : Type} (wr : Lifecycle.Wrapper W) (runId : string)
    (u : StatusUpdate.t) (st : Analyze.Page * W) : Analyze.Page * W :=
  let pg' := Analyze.deliverStatusUpdate st.1 u in
  (pg',
   if String.eqb (Analyze.runStatus pg') (Analyze.runStatus st.1) then st.2
   else Lifecycle.rerun wr runId (Analyze.shouldConnect st.1)
          (Analyze.shouldConnect pg') st.2).

(** A wrapper world in which the socket exists, is connected, has emitted
    nothing and [token] is stored. *)
Definition connected1 (token : string) : Lifecycle.Wire SocketV1.World :=
  Lifecycle.mkWire
    (SocketV1.mkWorld {["access_token" := token]} (Socket.mk true [] []) []) 1 0.

Definition connected2 (token : string) : Lifecycle.Wire SocketV2.World :=
  Lifecycle.mkWire
    (SocketV2.mkWorld {["access_token" := token]}
       (Some (Socket.mk true [] (Socket.listeners SocketV2.created)))) 1 0.

(** The notifications a handler call added to those of [before]. *)
Definition notified (before after : Train.Page) : list Toast :=
  drop (length (Train.toasts before)) (Train.toasts after).

(** The metric event as [onMetric] stores it when received at [now]. *)
Definition stamped (now : string) (metric : Metric.t) : Metric.t :=
  if negb (Js.truthy (Metric.timestamp metric))
  then Metric.set_timestamp now metric else metric.

(** The value a form holds for a parameter; a missing member reads as
    [undefined]. *)
Definition valueOf (params : gmap string ConfigureTrain.Value) (k : string)
  : ConfigureTrain.Value :=
  from_option id ConfigureTrain.VUndefined (params !! k).

(** The notification that asks for the target column. *)
Definition select_target (t : ConfigureTrain.Param) : Toast :=
  toast_error ("Please select the '" +:+ ConfigureTrain.label t +:+ "' before starting.").

(** A model with a target column, a depth that defaults to [null] and a
    switch. *)
Definition forest : list ConfigureTrain.Param :=
  [ConfigureTrain.mkParam "target_column" "Target Column" "target_column"
     ConfigureTrain.VNull None;
   ConfigureTrain.mkParam "max_depth" "Max Depth" "number" ConfigureTrain.VNull None;
   ConfigureTrain.mkParam "bootstrap" "Bootstrap" "boolean_checkbox"
     (ConfigureTrain.VBool true) None].

(** * Properties *)

(** ** The embedding on small inputs *)

Section Examples.

Example includes_hit : Js.includes spec_terminal "CANCELLED" = true.
Proof. reflexivity. Qed.

Example includes_miss : Js.includes spec_terminal "TRAINING" = false.
Proof. reflexivity. Qed.

Example orNum_zero_is_falsy : Js.orNum (Some 0%Z) (Some 7%Z) = Some 7%Z.
Proof. reflexivity. Qed.

Example orNum_negative_is_truthy : Js.orNum (Some (-1)%Z) (Some 7%Z) = Some (-1)%Z.
Proof. reflexivity. Qed.

Example nullish_keeps_zero : Js.nullish (Some 0%Z) (Some 7%Z) = Some 0%Z.
Proof. reflexivity. Qed.

Example indexOf_found : Chart.indexOf 5 [3; 5; 8; 5]%Z = 1%Z.
Proof. reflexivity. Qed.

Example indexOf_missing : Chart.indexOf 4 [3; 5; 8]%Z = (-1)%Z.
Proof. reflexivity. Qed.

Example assign_overwrites :
  Chart.assign [Chart.Null; Chart.Null] 1 (Chart.Num (1 # 2))
  = [Chart.Null; Chart.Num (1 # 2)].
Proof. reflexivity. Qed.

Example assign_past_the_end :
  Chart.assign [Chart.Null] 3 (Chart.Num (1 # 2))
  = [Chart.Null; Chart.Hole; Chart.Hole; Chart.Num (1 # 2)].
Proof. reflexivity. Qed.

Example shift_empty : Chart.shift (@nil Z) = [].
Proof. reflexivity. Qed.

Example contains_infix : Train.contains "regressor" "random_forest_regressor_v2" = true.
Proof. reflexivity. Qed.

Example contains_absent : Train.contains "regressor" "image_cnn" = false.
Proof. reflexivity. Qed.

Example task_type_from_identifier :
  Train.taskType
    (Train.fetchThen
       (RunDetails.mk (Some "TRAINING") None None (Some "xgboost_regression")
          None None) Train.initial)
  = Some "regression".
Proof. reflexivity. Qed.

Example stepLabel_falls_back :
  Train.stepLabel Progress.initial
    (Metric.mk None None (Some 12%Z) None None None None
       None None None None None None None None None) = 12%Z.
Proof. reflexivity. Qed.

Example number_rounds_to_even : Js.number (2 ^ 53 + 1) = Js.number (2 ^ 53).
Proof. reflexivity. Qed.

Example bar_at_start : Train.barWidth Progress.initial = PrimFloat.zero.
Proof. reflexivity. Qed.

Import PrimFloat.

(** One step of three: the style reads 33.33333333333333 percent, the
    double below a third of a hundred. *)
Example bar_at_a_third :
  let p := Progress.mk None None None None None (Some 1%Z) (Some 3%Z) None in
  Train.barWidth p = 0x1.0aaaaaaaaaaaap+5%float
  ∧ PrimFloat.ltb (PrimFloat.mul (Train.barWidth p) (Js.number 3)) (Js.number 100)
    = true.
Proof. split; reflexivity. Qed.

End Examples.

(** ** Status reconciler *)

Section StatusReconciler.

Implicit Types (u : StatusUpdate.t) (updates : list StatusUpdate.t).





(** A status update delivered to a Clean page whose status is in the
    handler's guard list, or which has no handler registered, leaves the
    page as it is. *)
Lemma clean_step_when_final u pg :
  Js.includes clean_final (Clean.status pg) = true →
  Clean.step pg (Clean.OpStatusUpdate u) = pg.
Proof.
  intros Hfin. unfold Clean.step.
  destruct (Clean.subscribed pg); [|by rewrite String.eqb_refl].
  assert ((Clean.onStatusUpdate u pg).2 = pg) as ->.
  { unfold Clean.onStatusUpdate.
    destruct (Clean.isMountedRef pg); simpl; [|reflexivity].
    destruct (Js.includes _ (StatusUpdate.status u)); [|reflexivity].
    fold clean_final. by rewrite Hfin. }
  by rewrite String.eqb_refl.
Qed.






Lemma train_unsubscribed_when_final pg :
  Js.includes train_final (Train.runStatus pg) = true → Train.subscribed pg = false.
Proof.
  intros Hfin. unfold Train.subscribed. fold train_final. rewrite Hfin.
  by destruct (_ || _).
Qed.

(** The socket effect of the Train page leaves no handler registered,
    whatever the state it runs in. *)
Lemma train_effect_registers_nothing pg : Train.listening (Train.socketEffect pg) = [].
Proof. unfold Train.socketEffect. by destruct (Train.subscribed pg). Qed.

Lemma train_delivery_changes_nothing u pg : Train.deliverStatusUpdate pg u = pg.
Proof.
  unfold Train.deliverStatusUpdate. by rewrite train_effect_registers_nothing.
Qed.

Lemma train_updates_change_nothing updates (pg : Train.Page) :
  train_updates updates pg = pg.
Proof.
  induction updates as [|u updates IH]; [reflexivity|].
  unfold train_updates in *. simpl. by rewrite train_delivery_changes_nothing.
Qed.




End StatusReconciler.

(** ** Terminal notification *)

Section Notification.

Implicit Types (u : StatusUpdate.t) (updates : list StatusUpdate.t).

Lemma clean_handler_frame u pg :
  Clean.toasts (Clean.onStatusUpdate u pg).2 = Clean.toasts pg
  ∧ Clean.toastShownRef (Clean.onStatusUpdate u pg).2 = Clean.toastShownRef pg.
Proof.
  unfold Clean.onStatusUpdate.
  destruct (Clean.isMountedRef pg); simpl; [|done].
  destruct (Js.includes _ (StatusUpdate.status u)); [|done].
  destruct (Js.includes _ (Clean.status pg)); [done|].
  by destruct (String.eqb _ _).
Qed.

(** One run of the toast effect adds no notification, or adds one and
    finds the status final. *)
Lemma clean_effect_adds_at_most_one pg :
  Clean.toasts (Clean.toastEffect pg) = Clean.toasts pg
  ∨ (clean_outcomes (Clean.toastEffect pg) = S (clean_outcomes pg)
     ∧ Js.includes clean_final (Clean.status (Clean.toastEffect pg)) = true).
Proof.
  unfold Clean.toastEffect.
  destruct (String.eqb (Clean.status pg) "CLEANING_SUCCESS") eqn:E1;
    [destruct (success (Clean.toastShownRef pg))|]; simpl.
  - destruct (String.eqb (Clean.status pg) "CLEANING_FAILED" && _); [|by left].
    apply String.eqb_eq in E1. right. split.
    + unfold clean_outcomes. simpl. rewrite List.filter_app, length_app. simpl. lia.
    + simpl. by rewrite E1.
  - apply String.eqb_eq in E1. right. split.
    + unfold clean_outcomes. simpl. rewrite List.filter_app, length_app. simpl. lia.
    + simpl. by rewrite E1.
  - destruct (String.eqb (Clean.status pg) "CLEANING_FAILED") eqn:E2;
      [destruct (error (Clean.toastShownRef pg))|]; simpl; try by left.
    apply String.eqb_eq in E2. right. split.
    + unfold clean_outcomes. simpl. rewrite List.filter_app, length_app. simpl. lia.
    + simpl. by rewrite E2.
Qed.

Lemma clean_step_adds_at_most_one u pg :
  let pg' := Clean.step pg (Clean.OpStatusUpdate u) in
  clean_outcomes pg' = clean_outcomes pg
  ∨ (clean_outcomes pg' = S (clean_outcomes pg)
     ∧ Js.includes clean_final (Clean.status pg') = true).
Proof.
  simpl. unfold Clean.step.
  destruct (Clean.subscribed pg); [|rewrite String.eqb_refl; by left].
  destruct (clean_handler_frame u pg) as [Ht _].
  destruct (String.eqb _ _).
  - left. unfold clean_outcomes. by rewrite Ht.
  - destruct (clean_effect_adds_at_most_one (Clean.onStatusUpdate u pg).2)
      as [Hsame|[Hone Hfin]].
    + left. unfold clean_outcomes. by rewrite Hsame, Ht.
    + right. split; [|exact Hfin].
      rewrite Hone. unfold clean_outcomes. by rewrite Ht.
Qed.

Lemma clean_deliveries_when_final updates pg :
  Js.includes clean_final (Clean.status pg) = true → clean_deliveries updates pg = pg.
Proof.
  induction updates as [|u updates IH]; intros Hfin; [reflexivity|].
  unfold clean_deliveries, Clean.run in *. simpl.
  rewrite (clean_step_when_final u pg Hfin). by apply IH.
Qed.

(** On the Clean page no sequence of status updates adds more than one
    outcome notification, whatever the state it starts in. *)
Lemma clean_notifies_at_most_once updates pg :
  clean_outcomes (clean_deliveries updates pg) ≤ clean_outcomes pg + 1.
Proof.
  revert pg. induction updates as [|u updates IH]; intros pg.
  - unfold clean_deliveries. simpl. lia.
  - change (clean_deliveries (u :: updates) pg)
      with (clean_deliveries updates (Clean.step pg (Clean.OpStatusUpdate u))).
    destruct (clean_step_adds_at_most_one u pg) as [Hsame|[Hone Hfin]].
    + rewrite <- Hsame. apply IH.
    + rewrite (clean_deliveries_when_final _ _ Hfin). lia.
Qed.

(** A page lifetime in which no run is started notifies at most once in
    all, the notification of the snapshot included. *)
Lemma clean_lifetime_notifies_once updates (details : RunDetails.t) :
  clean_outcomes (clean_deliveries updates (cleanLoaded details)) ≤ 1.
Proof.
  unfold cleanLoaded.
  set (pg0 := Clean.fetchThen details Clean.initial).
  assert (clean_outcomes pg0 = 0) as H0.
  { subst pg0. unfold Clean.fetchThen. simpl.
    destruct (Js.includes _ _); [|reflexivity].
    destruct (RunDetails.cleaning_report details) as [r|]; [|reflexivity].
    unfold Clean.storeReport. by destruct (preview_cleaned_data r). }
  assert (∀ pg, clean_outcomes (Clean.fetchFinally pg) = clean_outcomes pg
                ∧ Clean.status (Clean.fetchFinally pg) = Clean.status pg) as Hfin.
  { intros pg. unfold Clean.fetchFinally. by destruct (Clean.isMountedRef pg). }
  destruct (clean_effect_adds_at_most_one pg0) as [Hsame|[Hone Hfinal]].
  - etrans; [apply clean_notifies_at_most_once|].
    rewrite (proj1 (Hfin _)). unfold clean_outcomes in *. rewrite Hsame, H0. lia.
  - rewrite clean_deliveries_when_final by (by rewrite (proj2 (Hfin _))).
    rewrite (proj1 (Hfin _)), Hone, H0. lia.
Qed.

(** Starting a run shows the loading notification and no outcome. *)
Lemma clean_start_notifies_no_outcome now1 now2 pg :
  clean_outcomes (Clean.step pg (Clean.OpStartCleaning now1 now2)) = clean_outcomes pg.
Proof.
  unfold Clean.step, Clean.handleStartCleaning.
  destruct (negb (String.eqb (Clean.status pg) "READY")
            && negb (String.eqb (Clean.status pg) "CLEANING_FAILED")) eqn:Hgo.
  - by rewrite String.eqb_refl.
  - cbn [Clean.status Clean.post Clean.setLogs Clean.toast Clean.setStatus].
    destruct (String.eqb "CLEANING" (Clean.status pg)) eqn:Hc.
    + apply String.eqb_eq in Hc. rewrite <- Hc in Hgo. discriminate.
    + unfold Clean.toastEffect, clean_outcomes. simpl.
      rewrite List.filter_app, length_app. simpl. lia.
Qed.

(** On the Analyze page the guarded effect issues each of its two
    notifications at most once, whatever statuses it is run on. *)
Lemma analyze_effect_notifies_once (statuses : list string) pg :
  let pg' := fold_left (fun pg s => Analyze.toastEffect s pg) statuses pg in
  length (Analyze.toasts pg')
  ≤ length (Analyze.toasts pg)
    + (if success (Analyze.toastShownRef pg) then 0 else 1)
    + (if error (Analyze.toastShownRef pg) then 0 else 1).
Proof.
  revert pg. induction statuses as [|s statuses IH]; intros pg; simpl.
  - lia.
  - etrans; [apply IH|].
    unfold Analyze.toastEffect.
    destruct (Analyze.toastShownRef pg) as [sc er] eqn:Hshown; simpl.
    destruct (String.eqb s "SUCCESS"), sc, er; simpl;
      try (destruct (String.eqb s "FAILED" || String.eqb s "ANALYSIS_FAILED");
           simpl);
      rewrite ?Hshown, ?length_app; simpl; lia.
Qed.

(** The Train handler, as written, has no guard of its own: whatever was
    notified before, a terminal update it is called with adds one more
    notification. *)
Lemma train_update_always_notifies u pg :
  Train.isMountedRef pg = true →
  Js.includes ["SUCCESS"; "FAILED"; "ANALYSIS_FAILED"; "CLEANING_FAILED"; "CANCELLED"]
    (StatusUpdate.status u) = true →
  length (Train.toasts (Train.onStatusUpdate u pg).2) = S (length (Train.toasts pg)).
Proof.
  intros Hm Hs. unfold Train.onStatusUpdate. rewrite Hm. simpl.
  unfold Js.includes in Hs. simpl in Hs.
  repeat (destruct (String.eqb (StatusUpdate.status u) _); simpl in *;
          [rewrite length_app; simpl; lia|]).
  discriminate.
Qed.

(** C2, as stated, fails.  On the Clean page a cleaning run that fails, is
    started again by the user and fails again notifies the failure twice
    within one page lifetime: starting a run re-arms the guard. *)
Lemma cleaning_retry_notifies_again :
  let ready := cleanLoaded (forest_run "SUCCESS") in
  let failed := Clean.OpStatusUpdate (StatusUpdate.mk "CLEANING_FAILED" None) in
  let pg := Clean.run [Clean.OpStartCleaning "10:00" "10:00"; failed;
                       Clean.OpStartCleaning "10:05" "10:05"; failed] ready in
  Clean.render ready = Clean.MainView
  ∧ Clean.status ready = "READY"
  ∧ Clean.toasts ready = []
  ∧ Clean.toasts pg
    = [toast_loading "Starting data cleaning...";
       toast_error "Data Cleaning Failed. Check logs.";
       toast_loading "Starting data cleaning...";
       toast_error "Data Cleaning Failed. Check logs."]
  ∧ clean_outcomes pg = 2.
Proof. vm_compute. repeat split. Qed.

(** C2, amended.  The outcome notification is guarded per cleaning run,
    not per page lifetime.  On the Clean page no sequence of status
    updates adds more than one outcome notification, whatever the state
    of the page, so a repeated terminal update does not notify again, and
    a page on which no run is started notifies at most once in all;
    starting a cleaning run re-arms the guard and notifies no outcome
    itself, so the status updates that follow each start of a run add at
    most one.  On the Analyze page the guarded effect issues its success
    and its failure notification at most once each.  The Train page
    returns from its socket effect before connecting while its status is
    [SUCCESS], [FAILED], [FETCH_FAILED] or [CANCELLED], and its effect
    leaves no handler registered in any state, so status updates add no
    notification there. *)
Theorem notification_guarded updates :
  (∀ pg : Clean.Page,
     clean_outcomes (clean_deliveries updates pg) ≤ clean_outcomes pg + 1)
  ∧ (∀ details : RunDetails.t,
       clean_outcomes (clean_deliveries updates (cleanLoaded details)) ≤ 1)
  ∧ (∀ (pg : Clean.Page) now1 now2,
       Clean.status pg = "READY" ∨ Clean.status pg = "CLEANING_FAILED" →
       let started := Clean.step pg (Clean.OpStartCleaning now1 now2) in
       Clean.toastShownRef started = mkShown false false
       ∧ Clean.status started = "CLEANING"
       ∧ clean_outcomes (clean_deliveries updates started) ≤ clean_outcomes pg + 1)
  ∧ (∀ (statuses : list string) (pg : Analyze.Page),
       length (Analyze.toasts
                 (fold_left (fun pg s => Analyze.toastEffect s pg) statuses pg))
       ≤ length (Analyze.toasts pg)
         + (if success (Analyze.toastShownRef pg) then 0 else 1)
         + (if error (Analyze.toastShownRef pg) then 0 else 1))
  ∧ (∀ pg : Train.Page,
       Js.includes train_final (Train.runStatus pg) = true →
       Train.socketEffect pg = Train.mkEffectRun false [] None)
  ∧ (∀ pg : Train.Page,
       Train.listening (Train.socketEffect pg) = []
       ∧ Train.toasts (train_updates updates pg) = Train.toasts pg).
Proof.
  repeat apply conj.
  - intros pg. apply clean_notifies_at_most_once.
  - intros details. apply clean_lifetime_notifies_once.
  - intros pg now1 now2 Hst started.
    assert (Clean.toastShownRef started = mkShown false false
            ∧ Clean.status started = "CLEANING") as [Hflags Hstatus].
    { subst started. unfold Clean.step, Clean.handleStartCleaning.
      destruct Hst as [Hst|Hst]; rewrite Hst; by simpl. }
    split; [exact Hflags|split; [exact Hstatus|]].
    rewrite <- (clean_start_notifies_no_outcome now1 now2 pg).
    apply clean_notifies_at_most_once.
  - intros statuses pg. apply analyze_effect_notifies_once.
  - intros pg Hfin. unfold Train.socketEffect.
    by rewrite (train_unsubscribed_when_final pg Hfin).
  - intros pg. split.
    + apply train_effect_registers_nothing.
    + by rewrite train_updates_change_nothing.
Qed.

Lemma notification_guarded_witness :
  let bare status := StatusUpdate.mk status None in
  let updates := [bare "CLEANING_FAILED"; bare "CLEANING_FAILED"; bare "CLEANING";
                  bare "CLEANING_SUCCESS"] in
  let failed := cleanLoaded (forest_run "CLEANING_FAILED") in
  let started := Clean.step failed (Clean.OpStartCleaning "10:05" "10:05") in
  let trained := trainLoaded (forest_run "SUCCESS") in
  (Clean.render failed = Clean.MainView
   ∧ Clean.toasts failed = [toast_error "Data Cleaning Failed. Check logs."])
  ∧ (Clean.toastShownRef started = mkShown false false
     ∧ Clean.status started = "CLEANING"
     ∧ clean_outcomes (clean_deliveries updates started) ≤ clean_outcomes failed + 1)
  ∧ Clean.toasts (clean_deliveries updates started)
    = [toast_error "Data Cleaning Failed. Check logs.";
       toast_loading "Starting data cleaning...";
       toast_error "Data Cleaning Failed. Check logs."]
  ∧ Train.socketEffect trained = Train.mkEffectRun false [] None.
Proof.
  intros bare updates failed started trained.
  destruct (notification_guarded updates) as (_ & _ & Hrun & _ & Htrain & _).
  split; [split; reflexivity|].
  split; [apply (Hrun failed "10:05" "10:05"); right; reflexivity|].
  split; [reflexivity|].
  apply (Htrain trained). reflexivity.
Defined.

End Notification.

(** ** Metric/chart accumulator *)

Section ChartAccumulator.

Implicit Types (st : MetricData) (m : Metric.t) (c : Chart.t) (L : Z).

Lemma dropChart_0 c : dropChart 0 c = c.
Proof. by destruct c. Qed.

Lemma drop_shift {A : Type} k (arr : list A) :
  drop k (Chart.shift arr) = drop (S k) arr.
Proof. destruct arr; simpl; [by rewrite drop_nil|reflexivity]. Qed.

Lemma dropChart_shift k c : dropChart k (Chart.shiftChart c) = dropChart (S k) c.
Proof.
  unfold dropChart, Chart.shiftChart. cbn [Chart.labels Chart.data0 Chart.data1].
  by rewrite !drop_shift.
Qed.

Lemma length_shiftChart c :
  length (Chart.labels (Chart.shiftChart c)) = length (Chart.labels c) - 1.
Proof. destruct c as [[|? ?] ? ?]; simpl; lia. Qed.

Lemma evictLoop_drops fuel p s :
  length (Chart.labels p) - Train.maxPoints ≤ fuel →
  Train.evictLoop fuel p s
  = (dropChart (length (Chart.labels p) - Train.maxPoints) p,
     dropChart (length (Chart.labels p) - Train.maxPoints) s).
Proof.
  revert p s. induction fuel as [|fuel IH]; intros p s Hfuel.
  - replace (length (Chart.labels p) - Train.maxPoints) with 0 by lia.
    by rewrite !dropChart_0.
  - cbn [Train.evictLoop].
    destruct (Nat.ltb_spec Train.maxPoints (length (Chart.labels p))) as [Hgt|Hle].
    + pose proof (length_shiftChart p) as Hlen.
      rewrite IH by lia.
      rewrite Hlen, !dropChart_shift.
      by replace (S (length (Chart.labels p) - 1 - Train.maxPoints))
        with (length (Chart.labels p) - Train.maxPoints) by lia.
    + replace (length (Chart.labels p) - Train.maxPoints) with 0 by lia.
      by rewrite !dropChart_0.
Qed.

Lemma evict_drops p s :
  Train.evict p s
  = (dropChart (length (Chart.labels p) - Train.maxPoints) p,
     dropChart (length (Chart.labels p) - Train.maxPoints) s).
Proof. apply evictLoop_drops. lia. Qed.

(** The eviction loop ends with its condition false. *)
Lemma evict_exits p s :
  length (Chart.labels (Train.evict p s).1) ≤ Train.maxPoints.
Proof. rewrite evict_drops. simpl. rewrite length_drop. lia. Qed.

Lemma indexOf_from_spec L (arr : list Z) (i : Z) :
  ((L ∉ arr) ∧ Chart.indexOf_from i L arr = (-1)%Z)
  ∨ (∃ n : nat, Chart.indexOf_from i L arr = (i + Z.of_nat n)%Z ∧ arr !! n = Some L).
Proof.
  revert i. induction arr as [|y arr IH]; intros i; simpl.
  - left. split; [apply not_elem_of_nil|reflexivity].
  - destruct (Z.eqb_spec y L) as [->|Hne].
    + right. exists 0. split; [lia|reflexivity].
    + destruct (IH (i + 1)%Z) as [[Hnot Heq]|(n & Heq & Hn)].
      * left. split; [|exact Heq].
        intros [?|?]%elem_of_cons; congruence.
      * right. exists (S n). split; [lia|exact Hn].
Qed.

Lemma indexOf_spec L (arr : list Z) :
  ((L ∉ arr) ∧ Chart.indexOf L arr = (-1)%Z)
  ∨ (∃ n : nat, Chart.indexOf L arr = Z.of_nat n ∧ arr !! n = Some L).
Proof.
  destruct (indexOf_from_spec L arr 0) as [?|(n & Heq & Hn)]; [by left|].
  right. exists n. split; [|exact Hn]. unfold Chart.indexOf. lia.
Qed.

Lemma assign_in_range (arr : list Chart.Cell) (n : nat) v :
  n < length arr → Chart.assign arr (Z.of_nat n) v = <[n:=v]> arr.
Proof.
  intros Hn. unfold Chart.assign. rewrite Nat2Z.id.
  by destruct (Nat.ltb_spec n (length arr)); [|lia].
Qed.

(** The updater when the label is already charted: the four values at the
    label's index are overwritten and nothing else changes. *)
Lemma upsert_present isRegression L m st :
  synced st → L ∈ Chart.labels (primary st) →
  ∃ n : nat,
    Chart.labels (primary st) !! n = Some L
    ∧ Train.upsert isRegression L m st
      = mkMetricData
          (Chart.mk (Chart.labels (primary st))
             (<[n:=trainP isRegression m]> (Chart.data0 (primary st)))
             (<[n:=valP isRegression m]> (Chart.data1 (primary st))))
          (Chart.mk (Chart.labels (secondary st))
             (<[n:=trainS isRegression m]> (Chart.data0 (secondary st)))
             (<[n:=valS isRegression m]> (Chart.data1 (secondary st)))).
Proof.
  intros (Hlab & H0 & H1 & H2 & H3 & Hcap) Hin.
  destruct (indexOf_spec L (Chart.labels (primary st))) as [[Hnot _]|(n & Hidx & Hn)];
    [done|].
  exists n. split; [exact Hn|].
  pose proof (lookup_lt_Some _ _ _ Hn) as Hlt.
  unfold Train.upsert. rewrite Hidx.
  destruct (Z.gtb_spec (Z.of_nat n) (-1)) as [_|?]; [|lia].
  rewrite !assign_in_range by lia.
  rewrite evict_drops. cbn [Chart.labels].
  replace (length (Chart.labels (primary st)) - Train.maxPoints) with 0 by lia.
  by rewrite !dropChart_0.
Qed.

(** The updater when the label is new: the four values are pushed and the
    oldest point is dropped if the cap is exceeded. *)
Lemma upsert_absent isRegression L m st :
  synced st → L ∉ Chart.labels (primary st) →
  Train.upsert isRegression L m st
  = let k := S (length (Chart.labels (primary st))) - Train.maxPoints in
    mkMetricData
      (dropChart k
         (Chart.mk (Chart.labels (primary st) ++ [L])
            (Chart.data0 (primary st) ++ [trainP isRegression m])
            (Chart.data1 (primary st) ++ [valP isRegression m])))
      (dropChart k
         (Chart.mk (Chart.labels (secondary st) ++ [L])
            (Chart.data0 (secondary st) ++ [trainS isRegression m])
            (Chart.data1 (secondary st) ++ [valS isRegression m]))).
Proof.
  intros _ Hnot.
  destruct (indexOf_spec L (Chart.labels (primary st))) as [[_ Hidx]|(n & _ & Hn)].
  - unfold Train.upsert. rewrite Hidx.
    destruct (Z.gtb_spec (-1) (-1)) as [?|_]; [lia|].
    rewrite evict_drops. cbn [Chart.labels].
    rewrite length_app. simpl.
    by replace (length (Chart.labels (primary st)) + 1) with
      (S (length (Chart.labels (primary st)))) by lia.
  - by apply list_elem_of_lookup_2 in Hn.
Qed.

Lemma synced_initial : synced Train.initialMetricData.
Proof. unfold synced. simpl. repeat split; lia. Qed.

Lemma synced_upsert isRegression L m st :
  synced st → synced (Train.upsert isRegression L m st).
Proof.
  intros Hs. pose proof Hs as (Hlab & H0 & H1 & H2 & H3 & Hcap).
  destruct (decide (L ∈ Chart.labels (primary st))) as [Hin|Hnot].
  - destruct (upsert_present isRegression L m st Hs Hin) as (n & _ & ->).
    unfold synced. simpl. rewrite !length_insert. done.
  - rewrite (upsert_absent isRegression L m st Hs Hnot).
    unfold synced. simpl. rewrite Hlab, !length_drop, !length_app. simpl.
    unfold Train.maxPoints in *. repeat split; lia.
Qed.

Lemma reachable_synced st : reachable st → synced st.
Proof.
  induction 1 as [|isRegression L m st _ IH];
    [apply synced_initial|by apply synced_upsert].
Qed.

(** After an event is folded in, its label is charted. *)
Lemma upsert_charted isRegression L m st :
  synced st → L ∈ Chart.labels (primary (Train.upsert isRegression L m st)).
Proof.
  intros Hs. pose proof Hs as (Hlab & H0 & H1 & H2 & H3 & Hcap).
  destruct (decide (L ∈ Chart.labels (primary st))) as [Hin|Hnot].
  - by destruct (upsert_present isRegression L m st Hs Hin) as (n & _ & ->).
  - rewrite (upsert_absent isRegression L m st Hs Hnot). simpl.
    rewrite drop_app_le by (unfold Train.maxPoints in *; lia).
    apply elem_of_app. right. apply list_elem_of_singleton. reflexivity.
Qed.

(** The chart state after [onMetric] on a mounted page whose task type is
    known is the updater applied to the chart state before; stamping the
    event changes neither its label nor its values. *)
Lemma onMetric_metricData now (closure : Progress.t) m (pg : Train.Page) :
  Train.isMountedRef pg = true →
  Js.truthy (Train.taskType pg) = true →
  ∃ isRegression,
    Train.metricData (Train.onMetric now closure m pg).2
    = Train.upsert isRegression (Train.stepLabel closure m) m (Train.metricData pg).
Proof.
  intros Hm Ht. unfold Train.onMetric. rewrite Hm, Ht. simpl.
  eexists. by destruct (Js.truthy (Metric.timestamp m)).
Qed.

Lemma onMetric_keeps_page now (closure : Progress.t) m (pg : Train.Page) :
  Train.isMountedRef (Train.onMetric now closure m pg).2 = Train.isMountedRef pg
  ∧ Train.taskType (Train.onMetric now closure m pg).2 = Train.taskType pg.
Proof.
  unfold Train.onMetric. by destruct (_ || _).
Qed.

(** The same for a stream of events: the chart state of the page is the
    fold of the updater over the stream. *)
Lemma fold_onMetric_metricData now evs (pg : Train.Page) :
  Train.isMountedRef pg = true →
  Js.truthy (Train.taskType pg) = true →
  Train.metricData
    (fold_left (λ pg ev, (Train.onMetric now ev.1 ev.2 pg).2) evs pg)
  = fold_left (feed (page_isRegression pg)) evs (Train.metricData pg).
Proof.
  revert pg. induction evs as [|[closure m] evs IH]; intros pg Hm Ht; [reflexivity|].
  destruct (onMetric_keeps_page now closure m pg) as [Hm' Ht'].
  cbn [fold_left fst snd]. rewrite IH by congruence.
  unfold page_isRegression at 1. rewrite Ht'. fold (page_isRegression pg).
  f_equal. unfold Train.onMetric, feed, resolved. rewrite Hm, Ht. simpl.
  by destruct (Js.truthy (Metric.timestamp m)).
Qed.

(** C3.  From any chart state of the page, two metric events that resolve
    to the same step label: the second overwrites, at the index the label
    has after the first, the train and validation values of both charts,
    leaves every other slot and every label as they were, and the primary
    and secondary series are exactly as long as after the first. *)
Theorem chart_upsert_in_place isRegression (c1 c2 : Progress.t) m1 m2 st :
  reachable st →
  Train.stepLabel c1 m1 = Train.stepLabel c2 m2 →
  let st1 := Train.upsert isRegression (Train.stepLabel c1 m1) m1 st in
  let st2 := Train.upsert isRegression (Train.stepLabel c2 m2) m2 st1 in
  ∃ n : nat,
    Chart.labels (primary st1) !! n = Some (Train.stepLabel c1 m1)
    ∧ Chart.labels (secondary st1) !! n = Some (Train.stepLabel c1 m1)
    ∧ st2 = mkMetricData
              (Chart.mk (Chart.labels (primary st1))
                 (<[n:=trainP isRegression m2]> (Chart.data0 (primary st1)))
                 (<[n:=valP isRegression m2]> (Chart.data1 (primary st1))))
              (Chart.mk (Chart.labels (secondary st1))
                 (<[n:=trainS isRegression m2]> (Chart.data0 (secondary st1)))
                 (<[n:=valS isRegression m2]> (Chart.data1 (secondary st1))))
    ∧ (Chart.data0 (primary st2) !! n = Some (trainP isRegression m2)
       ∧ Chart.data1 (primary st2) !! n = Some (valP isRegression m2)
       ∧ Chart.data0 (secondary st2) !! n = Some (trainS isRegression m2)
       ∧ Chart.data1 (secondary st2) !! n = Some (valS isRegression m2))
    ∧ (length (Chart.labels (primary st2)) = length (Chart.labels (primary st1))
       ∧ length (Chart.data0 (primary st2)) = length (Chart.data0 (primary st1))
       ∧ length (Chart.data1 (primary st2)) = length (Chart.data1 (primary st1))
       ∧ length (Chart.labels (secondary st2)) = length (Chart.labels (secondary st1))
       ∧ length (Chart.data0 (secondary st2)) = length (Chart.data0 (secondary st1))
       ∧ length (Chart.data1 (secondary st2)) = length (Chart.data1 (secondary st1))).
Proof.
  intros Hreach Hsame st1 st2. subst st2. rewrite <- Hsame.
  set (L := Train.stepLabel c1 m1) in *.
  assert (synced st1) as Hs1 by (by apply synced_upsert, reachable_synced).
  assert (L ∈ Chart.labels (primary st1)) as Hin
    by (by apply upsert_charted, reachable_synced).
  destruct (upsert_present isRegression L m2 st1 Hs1 Hin) as (n & Hn & ->).
  destruct Hs1 as (Hlab & H0 & H1 & H2 & H3 & _).
  pose proof (lookup_lt_Some _ _ _ Hn) as Hlt.
  exists n. cbn [primary secondary Chart.labels Chart.data0 Chart.data1].
  rewrite !length_insert, Hlab.
  repeat split; try done; apply list_lookup_insert_eq; lia.
Qed.

Lemma chart_upsert_in_place_witness :
  let m1 := Metric.mk (Some 3%Z) None None (Some 10%Z) None None None
              (Some (1 # 2)) (Some (2 # 5)) (Some (9 # 10)) (Some (1 # 1)) None None None None
              None in
  let m2 := Metric.mk None (Some 3%Z) None (Some 10%Z) None None None
              (Some (3 # 4)) None (Some (1 # 2)) (Some (3 # 5)) None None None None
              None in
  let st1 := Train.upsert false 3 m1 Train.initialMetricData in
  let st2 := Train.upsert false 3 m2 st1 in
  ∃ n : nat,
    Chart.labels (primary st1) !! n = Some 3%Z
    ∧ Chart.data0 (primary st2) !! n = Some (Chart.Num (3 # 4))
    ∧ Chart.data1 (primary st2) !! n = Some Chart.Null
    ∧ length (Chart.labels (primary st2)) = length (Chart.labels (primary st1))
    ∧ length (Chart.data0 (secondary st2)) = length (Chart.data0 (secondary st1)).
Proof.
  intros m1 m2 st1 st2.
  destruct (chart_upsert_in_place false Progress.initial Progress.initial m1 m2
              Train.initialMetricData reachable_initial eq_refl)
    as (n & Hn & _ & _ & (Hp0 & Hp1 & _ & _) & (Hl & _ & _ & _ & Hd & _)).
  exists n. repeat split; assumption.
Defined.

Lemma window_snoc {A : Type} (l : list A) (x : A) (n : nat) :
  length l = n →
  drop (S (n - (n - Train.maxPoints)) - Train.maxPoints)
       (drop (n - Train.maxPoints) l ++ [x])
  = drop (S n - Train.maxPoints) (l ++ [x]).
Proof.
  intros Hlen. destruct (decide (n < Train.maxPoints)) as [Hlt|Hge].
  - replace (n - Train.maxPoints) with 0 by lia.
    replace (S (n - 0) - Train.maxPoints) with 0 by lia.
    by replace (S n - Train.maxPoints) with 0 by lia.
  - replace (S (n - (n - Train.maxPoints)) - Train.maxPoints) with 1
      by (unfold Train.maxPoints in *; lia).
    rewrite (drop_app_le (drop _ l))
      by (rewrite length_drop; unfold Train.maxPoints in *; lia).
    rewrite (drop_app_le l) by (unfold Train.maxPoints in *; lia).
    rewrite drop_drop. f_equal. f_equal. unfold Train.maxPoints in *. lia.
Qed.

Lemma elem_of_window {A : Type} (l : list A) (x : A) : x ∈ window l → x ∈ l.
Proof.
  unfold window. intros (i & Hi)%list_elem_of_lookup_1.
  rewrite lookup_drop in Hi. by eapply list_elem_of_lookup_2.
Qed.

Lemma fold_feed_reachable isRegression evs st :
  reachable st → reachable (fold_left (feed isRegression) evs st).
Proof.
  revert st. induction evs as [|ev evs IH]; intros st Hr; [exact Hr|].
  simpl. apply IH. by constructor.
Qed.

(** With pairwise distinct labels every event is appended, so the state is
    the window over the events fed so far. *)
Lemma fold_feed_windowed isRegression evs :
  NoDup (resolved <$> evs) →
  fold_left (feed isRegression) evs Train.initialMetricData = windowed isRegression evs.
Proof.
  induction evs as [|ev evs IH] using rev_ind; intros Hnd; [reflexivity|].
  rewrite fmap_app in Hnd. apply NoDup_app in Hnd as (Hnd & Hfresh & _).
  rewrite fold_left_app. simpl.
  pose proof (fold_feed_reachable isRegression evs _ reachable_initial) as Hreach.
  apply reachable_synced in Hreach.
  rewrite (IH Hnd) in *. unfold feed at 1.
  rewrite upsert_absent; [|exact Hreach|].
  - unfold windowed, dropChart, window.
    cbn [primary secondary Chart.labels Chart.data0 Chart.data1 fst snd].
    rewrite !fmap_app, !length_app, !length_drop, !length_fmap.
    cbn [fmap list_fmap length].
    replace (length evs + 1) with (S (length evs)) by lia.
    by rewrite !window_snoc by (by rewrite length_fmap).
  - simpl. intros Hin%elem_of_window.
    apply (Hfresh _ Hin). simpl. apply list_elem_of_singleton. reflexivity.
Qed.

(** C4.  From the empty chart state, 200 metric events whose resolved step
    labels are pairwise distinct leave 150 points in each series of both
    charts, and these are the points of the last 150 events, in order: the
    first 50 were evicted. *)
Theorem chart_eviction_bound isRegression (evs : list (Progress.t * Metric.t)) :
  length evs = 200 →
  NoDup (resolved <$> evs) →
  let st := fold_left (feed isRegression) evs Train.initialMetricData in
  (Chart.labels (primary st) = drop 50 (resolved <$> evs)
   ∧ Chart.data0 (primary st) = drop 50 ((λ ev, trainP isRegression ev.2) <$> evs)
   ∧ Chart.data1 (primary st) = drop 50 ((λ ev, valP isRegression ev.2) <$> evs)
   ∧ Chart.labels (secondary st) = drop 50 (resolved <$> evs)
   ∧ Chart.data0 (secondary st) = drop 50 ((λ ev, trainS isRegression ev.2) <$> evs)
   ∧ Chart.data1 (secondary st) = drop 50 ((λ ev, valS isRegression ev.2) <$> evs))
  ∧ (length (Chart.labels (primary st)) = 150
     ∧ length (Chart.data0 (primary st)) = 150
     ∧ length (Chart.data1 (primary st)) = 150
     ∧ length (Chart.labels (secondary st)) = 150
     ∧ length (Chart.data0 (secondary st)) = 150
     ∧ length (Chart.data1 (secondary st)) = 150).
Proof.
  intros Hlen Hnd st. subst st. rewrite (fold_feed_windowed _ _ Hnd).
  unfold windowed, window.
  cbn [primary secondary Chart.labels Chart.data0 Chart.data1].
  rewrite !length_drop, !length_fmap, Hlen.
  replace (200 - Train.maxPoints) with 50 by (unfold Train.maxPoints; lia).
  repeat split; lia.
Qed.

Lemma chart_eviction_bound_witness :
  let st := fold_left (feed false) epochs_0_199 Train.initialMetricData in
  let kept := seq 50 150 in
  (Chart.labels (primary st) = Z.of_nat <$> kept
   ∧ Chart.data0 (primary st) = (λ i : nat, Chart.Num (Z.of_nat i # 200)) <$> kept
   ∧ Chart.data1 (primary st) = replicate 150 Chart.Null
   ∧ Chart.labels (secondary st) = Z.of_nat <$> kept
   ∧ Chart.data0 (secondary st)
     = (λ i : nat, Chart.Num (1 # Pos.of_succ_nat i)) <$> kept
   ∧ Chart.data1 (secondary st) = replicate 150 Chart.Null)
  ∧ length (Chart.labels (primary st)) = 150
  ∧ length (Chart.data0 (secondary st)) = 150.
Proof.
  intros st kept.
  assert (length epochs_0_199 = 200) as Hlen by reflexivity.
  assert (NoDup (resolved <$> epochs_0_199)) as Hnd
    by (apply (bool_decide_unpack _); vm_compute; exact I).
  destruct (chart_eviction_bound false epochs_0_199 Hlen Hnd)
    as ((Hl & Hp0 & Hp1 & Hsl & Hs0 & Hs1) & (Hn & _ & _ & _ & Hd & _)).
  subst st kept.
  split; [|split; assumption].
  split; [rewrite Hl; reflexivity|].
  split; [rewrite Hp0; reflexivity|].
  split; [rewrite Hp1; reflexivity|].
  split; [rewrite Hsl; reflexivity|].
  split; [rewrite Hs0; reflexivity|rewrite Hs1; reflexivity].
Defined.

End ChartAccumulator.

(** ** Realtime channel wrappers *)

Section Channel.

Implicit Types (runId token : string).

Lemma join_v1_without_token runId (w : SocketV1.World) :
  noToken (SocketV1.localStorage w !! "access_token") = true →
  SocketV1.joinTrainingRoom runId w
  = (Rejected "No auth token found, cannot join room.", w).
Proof.
  intros Hno. unfold SocketV1.joinTrainingRoom.
  destruct (SocketV1.localStorage w !! "access_token"); [|reflexivity].
  by rewrite Hno.
Qed.

Lemma join_v1_with_token runId token (w : SocketV1.World) :
  SocketV1.localStorage w !! "access_token" = Some token → token ≠ "" →
  (SocketV1.joinTrainingRoom runId w).1 = Pending
  ∧ Socket.emitted (SocketV1.socket (SocketV1.joinTrainingRoom runId w).2)
    = Socket.emitted (SocketV1.socket w)
      ++ [join_request runId token false (Socket.connected (SocketV1.socket w))]
  ∧ SocketV1.localStorage (SocketV1.joinTrainingRoom runId w).2
    = SocketV1.localStorage w.
Proof.
  intros Htok Hne. unfold SocketV1.joinTrainingRoom. rewrite Htok.
  unfold noToken, Js.truthy.
  by destruct (String.eqb_spec token "").
Qed.

Lemma join_v2_without_token runId (w : SocketV2.World) :
  noToken (SocketV2.localStorage w !! "access_token") = true →
  SocketV2.joinTrainingRoom runId w
  = (Rejected "No auth token found, cannot join room.", (SocketV2.getSocket w).2).
Proof.
  intros Hno. unfold SocketV2.joinTrainingRoom.
  assert (SocketV2.localStorage (SocketV2.getSocket w).2 = SocketV2.localStorage w)
    as Hls by (unfold SocketV2.getSocket; by destruct (SocketV2.socket w)).
  destruct (SocketV2.getSocket w) as [s w'] eqn:Hget. simpl in *. rewrite Hls.
  destruct (SocketV2.localStorage w !! "access_token"); [|reflexivity].
  by rewrite Hno.
Qed.

Lemma join_v2_with_token runId token (w : SocketV2.World) :
  SocketV2.localStorage w !! "access_token" = Some token → token ≠ "" →
  (SocketV2.joinTrainingRoom runId w).1 = Pending
  ∧ SocketV2.socket (SocketV2.joinTrainingRoom runId w).2
    = Some (Socket.emit "join_room" [("token", token); ("model_run_id", runId)]
              true (SocketV2.getSocket w).1)
  ∧ SocketV2.localStorage (SocketV2.joinTrainingRoom runId w).2
    = SocketV2.localStorage w.
Proof.
  intros Htok Hne. unfold SocketV2.joinTrainingRoom.
  assert (SocketV2.localStorage (SocketV2.getSocket w).2 = SocketV2.localStorage w)
    as Hls by (unfold SocketV2.getSocket; by destruct (SocketV2.socket w)).
  destruct (SocketV2.getSocket w) as [s w'] eqn:Hget. simpl in *.
  rewrite Hls, Htok. unfold noToken, Js.truthy.
  by destruct (String.eqb_spec token "").
Qed.

Lemma getSocket_emitted (w : SocketV2.World) :
  SocketV2.socket (SocketV2.getSocket w).2 = Some (SocketV2.getSocket w).1
  ∧ Socket.emitted (SocketV2.getSocket w).1 = emitted_v2 w.
Proof.
  unfold SocketV2.getSocket, emitted_v2.
  destruct (SocketV2.socket w) eqn:Hsock; simpl; by rewrite ?Hsock.
Qed.

(** C5.  In both wrappers [joinTrainingRoom] takes the token from
    [localStorage] as it is when the call is made: without a token the
    promise is rejected and [socket.emit] is not called; with one, the
    single request emitted carries exactly the stored token, so a token
    replaced between two calls is the one the second call sends. *)
Theorem join_reads_token_at_call runId :
  (∀ w : SocketV1.World,
     noToken (SocketV1.localStorage w !! "access_token") = true →
     (SocketV1.joinTrainingRoom runId w).1
     = Rejected "No auth token found, cannot join room."
     ∧ emitted_v1 (SocketV1.joinTrainingRoom runId w).2 = emitted_v1 w)
  ∧ (∀ (w : SocketV1.World) token,
       SocketV1.localStorage w !! "access_token" = Some token → token ≠ "" →
       (SocketV1.joinTrainingRoom runId w).1 = Pending
       ∧ emitted_v1 (SocketV1.joinTrainingRoom runId w).2
         = emitted_v1 w
           ++ [join_request runId token false (Socket.connected (SocketV1.socket w))])
  ∧ (∀ (w : SocketV1.World) token',
       token' ≠ "" →
       let w1 := (SocketV1.joinTrainingRoom runId w).2 in
       emitted_v1 (SocketV1.joinTrainingRoom runId (refresh_v1 token' w1)).2
       = emitted_v1 w1
         ++ [join_request runId token' false (Socket.connected (SocketV1.socket w1))])
  ∧ (∀ w : SocketV2.World,
       noToken (SocketV2.localStorage w !! "access_token") = true →
       (SocketV2.joinTrainingRoom runId w).1
       = Rejected "No auth token found, cannot join room."
       ∧ emitted_v2 (SocketV2.joinTrainingRoom runId w).2 = emitted_v2 w)
  ∧ (∀ (w : SocketV2.World) token,
       SocketV2.localStorage w !! "access_token" = Some token → token ≠ "" →
       (SocketV2.joinTrainingRoom runId w).1 = Pending
       ∧ emitted_v2 (SocketV2.joinTrainingRoom runId w).2
         = emitted_v2 w
           ++ [join_request runId token true
                 (Socket.connected (SocketV2.getSocket w).1)])
  ∧ (∀ (w : SocketV2.World) token',
       token' ≠ "" →
       let w1 := (SocketV2.joinTrainingRoom runId w).2 in
       emitted_v2 (SocketV2.joinTrainingRoom runId (refresh_v2 token' w1)).2
       = emitted_v2 w1
         ++ [join_request runId token' true
               (Socket.connected (SocketV2.getSocket w1).1)]).
Proof.
  assert (∀ (w : SocketV2.World) token,
       SocketV2.localStorage w !! "access_token" = Some token → token ≠ "" →
       (SocketV2.joinTrainingRoom runId w).1 = Pending
       ∧ emitted_v2 (SocketV2.joinTrainingRoom runId w).2
         = emitted_v2 w
           ++ [join_request runId token true
                 (Socket.connected (SocketV2.getSocket w).1)]) as Hv2.
  { intros w token Htok Hne.
    destruct (join_v2_with_token runId token w Htok Hne) as (Hp & Hs & _).
    split; [exact Hp|]. unfold emitted_v2 at 1. rewrite Hs. simpl.
    by rewrite (proj2 (getSocket_emitted w)). }
  split; [|split; [|split; [|split; [|split]]]].
  - intros w Hno. by rewrite (join_v1_without_token runId w Hno).
  - intros w token Htok Hne.
    by destruct (join_v1_with_token runId token w Htok Hne) as (Hp & He & _).
  - intros w token' Hne w1.
    destruct (join_v1_with_token runId token' (refresh_v1 token' w1)
                (lookup_insert_eq _ _ _) Hne) as (_ & He & _).
    exact He.
  - intros w Hno. rewrite (join_v2_without_token runId w Hno). simpl.
    split; [reflexivity|].
    unfold emitted_v2 at 1.
    by rewrite (proj1 (getSocket_emitted w)), (proj2 (getSocket_emitted w)).
  - exact Hv2.
  - intros w token' Hne w1.
    destruct (Hv2 (refresh_v2 token' w1) token' (lookup_insert_eq _ _ _) Hne)
      as (_ & He).
    rewrite He. unfold emitted_v2, SocketV2.getSocket, refresh_v2. simpl.
    by destruct (SocketV2.socket w1).
Qed.

Lemma join_reads_token_at_call_witness :
  let anonymous := SocketV1.mkWorld ∅ (Socket.mk true [] []) [] in
  let signed_in := SocketV2.mkWorld {["access_token" := "jwt-1"]} None in
  ((SocketV1.joinTrainingRoom "run-7" anonymous).1
   = Rejected "No auth token found, cannot join room."
   ∧ emitted_v1 (SocketV1.joinTrainingRoom "run-7" anonymous).2 = [])
  ∧ ((SocketV2.joinTrainingRoom "run-7" signed_in).1 = Pending
     ∧ emitted_v2 (SocketV2.joinTrainingRoom "run-7" signed_in).2
       = [join_request "run-7" "jwt-1" true false])
  ∧ emitted_v2 (SocketV2.joinTrainingRoom "run-7"
                  (refresh_v2 "jwt-2"
                     (SocketV2.joinTrainingRoom "run-7" signed_in).2)).2
    = [join_request "run-7" "jwt-1" true false;
       join_request "run-7" "jwt-2" true false].
Proof.
  intros anonymous signed_in.
  destruct (join_reads_token_at_call "run-7") as (Ha & _ & _ & _ & Hb & Hc).
  split; [|split].
  - apply (Ha anonymous). reflexivity.
  - apply (Hb signed_in "jwt-1"); [reflexivity|discriminate].
  - apply (Hc signed_in "jwt-2"). discriminate.
Defined.

(** C6 at its failing input.  The first wrapper calls [socket.emit] for
    [leave_room] whatever the connection state: on a socket that is not
    connected the call is made all the same. *)
Theorem leave_v1_emits_when_disconnected :
  let w := SocketV1.mkWorld ∅ (Socket.mk false [] []) [] in
  emitted_v1 (SocketV1.leaveTrainingRoom "run-7" w)
  = [Socket.mkEmission "leave_room" [("model_run_id", "run-7")] false false].
Proof. reflexivity. Qed.

Lemma leave_v1_always_emits runId (w : SocketV1.World) :
  emitted_v1 (SocketV1.leaveTrainingRoom runId w)
  = emitted_v1 w
    ++ [Socket.mkEmission "leave_room" [("model_run_id", runId)] false
          (Socket.connected (SocketV1.socket w))].
Proof. reflexivity. Qed.

(** The second wrapper does test the connection: it emits [leave_room]
    only on a connected socket. *)
Lemma leave_v2_only_when_connected runId (w : SocketV2.World) :
  emitted_v2 (SocketV2.leaveTrainingRoom runId w)
  = emitted_v2 w
    ++ (if Socket.connected (SocketV2.getSocket w).1
        then [Socket.mkEmission "leave_room" [("model_run_id", runId)] false true]
        else []).
Proof.
  unfold SocketV2.leaveTrainingRoom.
  destruct (getSocket_emitted w) as [Hs He].
  destruct (SocketV2.getSocket w) as [s w'] eqn:Hget. simpl in *.
  destruct (Socket.connected s) eqn:Hc.
  - unfold emitted_v2 at 1. simpl. by rewrite He, Hc.
  - rewrite app_nil_r. unfold emitted_v2 at 1. by rewrite Hs.
Qed.

End Channel.

(** ** Event timestamps *)

Section Timestamps.

Lemma stamp_truthy now ts : now ≠ "" → Js.truthy (stamp now ts) = true.
Proof.
  intros Hne. unfold stamp. destruct (Js.truthy ts) eqn:Hts; [exact Hts|].
  unfold Js.truthy. by destruct (String.eqb_spec now "").
Qed.

(** C7, as stated, fails for status updates: none of the three status
    handlers writes a timestamp on the event, and the page state keeps only
    the status string. *)
Lemma status_update_not_stamped :
  let bare status := StatusUpdate.mk status None in
  StatusUpdate.timestamp
    (Train.onStatusUpdate (bare "TRAINING") (Train.loaded "classification" "STARTING")).1
  = None
  ∧ StatusUpdate.timestamp
      (Analyze.handleStatusUpdate (bare "ANALYZING") Analyze.initial).1 = None
  ∧ StatusUpdate.timestamp
      (Clean.onStatusUpdate (bare "CLEANING") (Clean.setStatus "READY" Clean.initial)).1
    = None.
Proof. repeat split. Qed.

(** C7, amended to the log, metric and progress handlers.  On a mounted
    page each of them leaves on the event its own timestamp when it has
    one and the receipt time otherwise, and it is that stamped event which
    is kept: as the last log entry, as the latest metric, or merged into
    the progress record.  A stamped event has a timestamp whenever the
    clock reading is not empty. *)
Theorem received_events_stamped now :
  (∀ log (pg : Analyze.Page), Analyze.isMountedRef pg = true →
     let r := Analyze.handleLog now log pg in
     Log.timestamp r.1 = stamp now (Log.timestamp log)
     ∧ last (Analyze.logs r.2) = Some r.1)
  ∧ (∀ log (pg : Clean.Page), Clean.isMountedRef pg = true →
       let r := Clean.onLog now log pg in
       Log.timestamp r.1 = stamp now (Log.timestamp log)
       ∧ last (Clean.logs r.2) = Some r.1)
  ∧ (∀ log (pg : Train.Page), Train.isMountedRef pg = true →
       let r := Train.onLog now log pg in
       Log.timestamp r.1 = stamp now (Log.timestamp log)
       ∧ last (Train.logs r.2) = Some r.1)
  ∧ (∀ closure m (pg : Train.Page),
       Train.isMountedRef pg = true → Js.truthy (Train.taskType pg) = true →
       let r := Train.onMetric now closure m pg in
       Metric.timestamp r.1 = stamp now (Metric.timestamp m)
       ∧ Train.metrics r.2 = Some r.1)
  ∧ (∀ prog (pg : Train.Page), Train.isMountedRef pg = true →
       let r := Train.onProgress now prog pg in
       Progress.timestamp r.1 = stamp now (Progress.timestamp prog)
       ∧ Progress.timestamp (Train.progress r.2) = Progress.timestamp r.1)
  ∧ (∀ ts, now ≠ "" → Js.truthy (stamp now ts) = true).
Proof.
  split; [|split; [|split; [|split; [|split]]]].
  - intros log pg Hm r. subst r. unfold Analyze.handleLog, stamp. rewrite Hm.
    destruct (Js.truthy (Log.timestamp log)); simpl;
      (split; [reflexivity|]);
      repeat (match goal with |- context [match ?x with _ => _ end] => destruct x end);
      simpl; apply last_snoc.
  - intros log pg Hm r. subst r. unfold Clean.onLog, stamp. rewrite Hm.
    destruct (Js.truthy (Log.timestamp log)); simpl;
      (split; [reflexivity|]);
      unfold Clean.storeReport;
      repeat (match goal with |- context [match ?x with _ => _ end] => destruct x end);
      simpl; apply last_snoc.
  - intros log pg Hm r. subst r. unfold Train.onLog, stamp. rewrite Hm.
    destruct (Js.truthy (Log.timestamp log)); simpl;
      (split; [reflexivity|apply last_snoc]).
  - intros closure m pg Hm Ht r. subst r. unfold Train.onMetric, stamp.
    rewrite Hm, Ht.
    by destruct (Js.truthy (Metric.timestamp m)).
  - intros prog pg Hm r. subst r. unfold Train.onProgress, stamp. rewrite Hm.
    destruct (Js.truthy (Progress.timestamp prog)) eqn:Hts; simpl;
      (split; [reflexivity|]); [|reflexivity].
    destruct (Progress.timestamp prog); [reflexivity|discriminate].
  - intros ts. apply stamp_truthy.
Qed.

Lemma received_events_stamped_witness :
  let now := "2024-05-01T10:00:00.000Z" in
  let log := Log.mk None (Some "[script] epoch 1") None None None None in
  let prog := Progress.mk None None None (Some 2%Z) (Some 8%Z) (Some 1%Z) (Some 5%Z)
                (Some "2024-05-01T09:59:59.000Z") in
  let pg := Train.loaded "classification" "TRAINING" in
  (Log.timestamp (Train.onLog now log pg).1 = Some now
   ∧ last (Train.logs (Train.onLog now log pg).2) = Some (Train.onLog now log pg).1)
  ∧ (Progress.timestamp (Train.onProgress now prog pg).1
     = Some "2024-05-01T09:59:59.000Z"
     ∧ Progress.timestamp (Train.progress (Train.onProgress now prog pg).2)
       = Progress.timestamp (Train.onProgress now prog pg).1)
  ∧ Js.truthy (stamp now None) = true.
Proof.
  intros now log prog pg.
  destruct (received_events_stamped now) as (_ & _ & Hlog & _ & Hprog & Htruthy).
  split; [|split].
  - apply (Hlog log pg). reflexivity.
  - apply (Hprog prog pg). reflexivity.
  - apply Htruthy. discriminate.
Defined.

End Timestamps.

(** ** Progress bar *)

Section ProgressBar.

Implicit Types p : Progress.t.

(** C8, as stated, fails: a negative total is truthy, so it is the divisor
    as it stands.  With 3 of -2 steps the bar is at -150 percent, not at
    the 300 percent a divisor of 1 would give. *)
Lemma negative_total_divides :
  let p := Progress.merge Progress.initial
             (Progress.mk None None None None None (Some 3%Z) (Some (-2)%Z) None) in
  Progress.total_steps p = Some (-2)%Z
  ∧ Train.barNumerator p = 3%Z
  ∧ Train.barDenominator p = (-2)%Z
  ∧ Train.barWidth p = Js.number (-150)
  ∧ percent 3 1 = Js.number 300
  ∧ PrimFloat.eqb (Train.barWidth p) (percent 3 1) = false.
Proof. repeat split. Qed.

Lemma orNum_left (a b : option Z) x :
  a = Some x → x ≠ 0%Z → Js.orNum a b = Some x.
Proof. intros -> Hx. unfold Js.orNum. by destruct (Z.eqb_spec x 0). Qed.

Lemma orNum_right (a b : option Z) : falsy a → Js.orNum a b = b.
Proof. by intros [-> | ->]. Qed.

Lemma barDenominator_nonzero p : Train.barDenominator p ≠ 0%Z.
Proof.
  unfold Train.barDenominator, Js.orNum.
  destruct (Progress.total_epochs p) as [e|];
    [destruct (Z.eqb_spec e 0)|];
    try (destruct (Progress.total_steps p) as [t|];
         [destruct (Z.eqb_spec t 0)|]);
    simpl; try done;
    match goal with |- context [Z.eqb ?x 0] => by destruct (Z.eqb_spec x 0) end.
Qed.

(** C8, amended.  The rendered percentage is the double
    [(numerator / divisor) * 100].  The numerator is [epoch] if it is
    present and not zero, else [current_step] if it is present and not
    zero, else 0.  The divisor is [total_epochs] if it is present and not
    zero, else [total_steps] if it is present and not zero, else 1: only
    an absent or zero total is replaced by 1, a negative one is kept.  The
    divisor is never zero. *)
Theorem progress_bar_divisor p :
  Train.barDenominator p ≠ 0%Z
  ∧ (∀ e, Progress.total_epochs p = Some e → e ≠ 0%Z → Train.barDenominator p = e)
  ∧ (∀ t, falsy (Progress.total_epochs p) → Progress.total_steps p = Some t →
          t ≠ 0%Z → Train.barDenominator p = t)
  ∧ (falsy (Progress.total_epochs p) → falsy (Progress.total_steps p) →
     Train.barDenominator p = 1%Z)
  ∧ (∀ e, Progress.epoch p = Some e → e ≠ 0%Z → Train.barNumerator p = e)
  ∧ (∀ c, falsy (Progress.epoch p) → Progress.current_step p = Some c →
          c ≠ 0%Z → Train.barNumerator p = c)
  ∧ (falsy (Progress.epoch p) → falsy (Progress.current_step p) →
     Train.barNumerator p = 0%Z)
  ∧ Train.barWidth p = percent (Train.barNumerator p) (Train.barDenominator p).
Proof.
  split; [apply barDenominator_nonzero|].
  unfold Train.barDenominator, Train.barNumerator.
  repeat apply conj.
  - intros e He Hne. by rewrite (orNum_left _ _ e He Hne), (orNum_left _ _ e eq_refl Hne).
  - intros t He Ht Hne.
    by rewrite (orNum_right _ _ He), (orNum_left _ _ t Ht Hne).
  - intros He Ht. by rewrite (orNum_right _ _ He), (orNum_right _ _ Ht).
  - intros e He Hne. by rewrite (orNum_left _ _ e He Hne), (orNum_left _ _ e eq_refl Hne).
  - intros c He Hc Hne.
    by rewrite (orNum_right _ _ He), (orNum_left _ _ c Hc Hne).
  - intros He Hc. by rewrite (orNum_right _ _ He), (orNum_right _ _ Hc).
  - reflexivity.
Qed.

Lemma progress_bar_divisor_witness :
  let started := Progress.mk (Some 0%Z) (Some 0%Z) (Some "Epoch") None None
                   (Some 4%Z) (Some 10%Z) None in
  let epochs := Progress.mk (Some 7%Z) (Some 20%Z) (Some "Epoch") None None
                  (Some 4%Z) (Some 10%Z) None in
  (Train.barNumerator started = 4%Z ∧ Train.barDenominator started = 10%Z
   ∧ Train.barWidth started = Js.number 40)
  ∧ (Train.barNumerator epochs = 7%Z ∧ Train.barDenominator epochs = 20%Z
     ∧ Train.barWidth epochs = Js.number 35)
  ∧ (Train.barNumerator Progress.initial = 0%Z
     ∧ Train.barDenominator Progress.initial = 1%Z
     ∧ Train.barWidth Progress.initial = PrimFloat.zero).
Proof.
  intros started epochs.
  destruct (progress_bar_divisor started)
    as (_ & _ & Hsteps & _ & _ & Hstep & _ & Hwidth).
  destruct (progress_bar_divisor epochs)
    as (_ & Hepochs & _ & _ & Hepoch & _ & _ & Hwidth').
  destruct (progress_bar_divisor Progress.initial)
    as (_ & _ & _ & Hone & _ & _ & Hzero & Hwidth0).
  assert (Train.barNumerator started = 4%Z) as Hn
    by (apply (Hstep 4%Z); [right; reflexivity|reflexivity|lia]).
  assert (Train.barDenominator started = 10%Z) as Hd
    by (apply (Hsteps 10%Z); [right; reflexivity|reflexivity|lia]).
  assert (Train.barNumerator epochs = 7%Z) as Hn'
    by (apply (Hepoch 7%Z); [reflexivity|lia]).
  assert (Train.barDenominator epochs = 20%Z) as Hd'
    by (apply (Hepochs 20%Z); [reflexivity|lia]).
  assert (Train.barNumerator Progress.initial = 0%Z) as Hn0
    by (apply Hzero; [right; reflexivity|left; reflexivity]).
  assert (Train.barDenominator Progress.initial = 1%Z) as Hd0
    by (apply Hone; [right; reflexivity|left; reflexivity]).
  split; [split; [exact Hn|split; [exact Hd|]]|].
  2: split; [split; [exact Hn'|split; [exact Hd'|]]|split; [exact Hn0|split; [exact Hd0|]]].
  - rewrite Hwidth, Hn, Hd. reflexivity.
  - rewrite Hwidth', Hn', Hd'. reflexivity.
  - rewrite Hwidth0, Hn0, Hd0. reflexivity.
Defined.

End ProgressBar.

(** ** Log list *)

Section LogList.

(** C9, as stated, fails: a cleaning retry discards the log.  After a
    failed run whose log holds a line from the script, starting again
    leaves only the two client notes of the new run. *)
Lemma cleaning_retry_discards_log :
  let line := Log.mk (Some "log") (Some "[script] reading dataset") None None None
                (Some "2024-05-01T10:00:00.000Z") in
  let pg := Clean.setStatus "CLEANING_FAILED"
              (Clean.setLogs (λ _, [line]) Clean.initial) in
  let pg' := Clean.run [Clean.OpStartCleaning "10:05" "10:06"] pg in
  Clean.logs pg = [line]
  ∧ Clean.logs pg' = [reset_note "10:05"; requested_note "10:06"]
  ∧ line ∉ Clean.logs pg'.
Proof.
  split; [reflexivity|split; [reflexivity|]].
  intros [Heq|[Heq|Hnil%elem_of_nil]%elem_of_cons]%elem_of_cons;
    [discriminate Heq|discriminate Heq|exact Hnil].
Qed.

Lemma clean_toastEffect_logs pg : Clean.logs (Clean.toastEffect pg) = Clean.logs pg.
Proof.
  unfold Clean.toastEffect.
  by repeat (match goal with |- context [if ?b then _ else _] => destruct b end).
Qed.

Lemma clean_onLog_appends now log (pg : Clean.Page) :
  Clean.isMountedRef pg = true →
  Clean.logs (Clean.onLog now log pg).2 = Clean.logs pg ++ [(Clean.onLog now log pg).1].
Proof.
  intros Hm. unfold Clean.onLog, Clean.storeReport. rewrite Hm. simpl.
  by repeat (match goal with
             | |- context [match ?x with _ => _ end] => destruct x; simpl
             end).
Qed.

Lemma clean_onStatusUpdate_logs u (pg : Clean.Page) :
  Clean.logs (Clean.onStatusUpdate u pg).2 = Clean.logs pg.
Proof.
  unfold Clean.onStatusUpdate.
  by repeat (match goal with
             | |- context [if ?b then _ else _] => destruct b; simpl
             end).
Qed.

Lemma clean_step_extends (pg : Clean.Page) op :
  keeps_log op → Clean.logs pg `prefix_of` Clean.logs (Clean.step pg op).
Proof.
  intros Hop. unfold Clean.step.
  match goal with |- context [if ?b then _ else _] => destruct b end;
    rewrite ?clean_toastEffect_logs;
    destruct op as [u|now log| | |msg]; try done.
  all: destruct (Clean.subscribed pg); try done.
  all: try (by rewrite clean_onStatusUpdate_logs).
  all: destruct (Clean.isMountedRef pg) eqn:Hm;
    [rewrite (clean_onLog_appends now log pg Hm); by apply prefix_app_r
    |unfold Clean.onLog; by rewrite Hm].
Qed.

(** C9, amended.  A log event received by a mounted page is appended as
    the last entry and the entries before it stay as they were, on all
    three pages; so are the client notes of the Analyze page.  On the Clean
    page every operation other than starting a cleaning run extends the
    list; starting a cleaning run, which the page accepts when its status
    is [READY] or [CLEANING_FAILED], replaces the whole list by two client
    notes. *)
Theorem log_list_growth now :
  (∀ log (pg : Analyze.Page), Analyze.isMountedRef pg = true →
     Analyze.logs (Analyze.handleLog now log pg).2
     = Analyze.logs pg ++ [(Analyze.handleLog now log pg).1])
  ∧ (∀ log (pg : Clean.Page), Clean.isMountedRef pg = true →
       Clean.logs (Clean.onLog now log pg).2
       = Clean.logs pg ++ [(Clean.onLog now log pg).1])
  ∧ (∀ log (pg : Train.Page), Train.isMountedRef pg = true →
       Train.logs (Train.onLog now log pg).2
       = Train.logs pg ++ [(Train.onLog now log pg).1])
  ∧ (∀ details (pg : Analyze.Page),
       Analyze.logs pg `prefix_of` Analyze.logs (Analyze.fetchThen now details pg))
  ∧ (∀ msg (pg : Analyze.Page), Analyze.isMountedRef pg = true →
       Analyze.logs (Analyze.triggerCatch now msg pg)
       = Analyze.logs pg ++ [Log.note "ERROR" ("API Error: " +:+ msg) now])
  ∧ (∀ ops (pg : Clean.Page), Forall keeps_log ops →
       Clean.logs pg `prefix_of` Clean.logs (Clean.run ops pg))
  ∧ (∀ now2 (pg : Clean.Page),
       Clean.status pg = "READY" ∨ Clean.status pg = "CLEANING_FAILED" →
       Clean.logs (Clean.handleStartCleaning now now2 pg)
       = [reset_note now; requested_note now2]).
Proof.
  split; [|split; [|split; [|split; [|split; [|split]]]]].
  - intros log pg Hm. unfold Analyze.handleLog. rewrite Hm. simpl.
    by repeat (match goal with
               | |- context [match ?x with _ => _ end] => destruct x; simpl
               end).
  - intros log pg Hm. by apply clean_onLog_appends.
  - intros log pg Hm. unfold Train.onLog. by rewrite Hm.
  - intros details pg. unfold Analyze.fetchThen.
    destruct (Analyze.isMountedRef pg); simpl; [|done].
    repeat (match goal with
            | |- context [match ?x with _ => _ end] => destruct x; simpl
            end); try done; by apply prefix_app_r.
  - intros msg pg Hm. unfold Analyze.triggerCatch. by rewrite Hm.
  - intros ops. induction ops as [|op ops IH]; intros pg Hops; [done|].
    apply Forall_cons in Hops as [Hop Hops]. simpl.
    etrans; [by apply clean_step_extends|]. by apply IH.
  - intros now2 pg Hst. unfold Clean.handleStartCleaning.
    by destruct Hst as [-> | ->].
Qed.

Lemma log_list_growth_witness :
  let line := Log.mk (Some "log") (Some "[script] reading dataset") None None None
                None in
  let failed := Clean.setStatus "CLEANING_FAILED" Clean.initial in
  let train := Train.loaded "classification" "TRAINING" in
  Train.logs (Train.onLog "10:01" line train).2
  = [Log.set_timestamp "10:01" line]
  ∧ Clean.logs failed
    `prefix_of` Clean.logs
      (Clean.run [Clean.OpLog "10:01" line;
                  Clean.OpStatusUpdate (StatusUpdate.mk "CLEANING" None)] failed)
  ∧ Clean.logs (Clean.handleStartCleaning "10:01" "10:02" failed)
    = [reset_note "10:01"; requested_note "10:02"].
Proof.
  intros line failed train.
  destruct (log_list_growth "10:01") as (_ & _ & Htrain & _ & _ & Hrun & Hretry).
  split; [|split].
  - apply (Htrain line train). reflexivity.
  - apply (Hrun _ failed). repeat constructor.
  - apply (Hretry "10:02" failed). right. reflexivity.
Defined.

End LogList.

(** ** REST client *)

Section RestClient.

(** C10.  A reply with status 401 reaches the rejection handler, which
    removes both [access_token] and [user] from local storage and then
    rejects; a reply with any other status, or no reply, leaves local
    storage as it was, whether the call resolves or rejects. *)
Theorem unauthorized_reply_clears_credentials msg (b : Api.Browser) :
  (∀ r, Api.status r = 401%Z →
     let out := Api.call (Some r) msg b in
     (∃ e, out.1 = Api.Failed e)
     ∧ Api.localStorage out.2 = signed_out (Api.localStorage b)
     ∧ Api.localStorage out.2 !! "access_token" = None
     ∧ Api.localStorage out.2 !! "user" = None)
  ∧ (∀ r, Api.status r ≠ 401%Z →
       Api.localStorage (Api.call (Some r) msg b).2 = Api.localStorage b)
  ∧ Api.localStorage (Api.call None msg b).2 = Api.localStorage b
  ∧ (∀ e, Api.hasStatus (λ s, s =? 401)%Z e = true →
       Api.localStorage (Api.onRejected e b).2 = signed_out (Api.localStorage b))
  ∧ (∀ e, Api.hasStatus (λ s, s =? 401)%Z e = false →
       Api.localStorage (Api.onRejected e b).2 = Api.localStorage b)
  ∧ (∀ r, (Api.onFulfilled r b).2 = b).
Proof.
  split; [|split; [|split; [|split; [|split]]]].
  - intros r Hr out. subst out. unfold Api.call, Api.settle. rewrite Hr. simpl.
    unfold Api.onRejected, Api.hasStatus. simpl. rewrite Hr. simpl.
    split; [by eexists|]. split; [reflexivity|]. unfold signed_out.
    split.
    + rewrite lookup_delete_ne by done. apply lookup_delete_eq.
    + apply lookup_delete_eq.
  - intros r Hr. unfold Api.call, Api.settle.
    destruct (_ && _); [reflexivity|].
    unfold Api.onRejected, Api.hasStatus. simpl.
    by destruct (Z.eqb_spec (Api.status r) 401).
  - reflexivity.
  - intros e He. unfold Api.onRejected. by rewrite He.
  - intros e He. unfold Api.onRejected. by rewrite He.
  - reflexivity.
Qed.

Lemma unauthorized_reply_clears_credentials_witness :
  let b := Api.mkBrowser {["access_token" := "jwt-1"; "user" := "{}"]} "/dashboard" in
  (Api.localStorage (Api.call (Some (Api.mkResponse 401)) "Unauthorized" b).2
   !! "access_token" = None
   ∧ Api.localStorage (Api.call (Some (Api.mkResponse 401)) "Unauthorized" b).2
     !! "user" = None)
  ∧ Api.localStorage (Api.call (Some (Api.mkResponse 404)) "Not Found" b).2
    = Api.localStorage b.
Proof.
  intros b.
  destruct (unauthorized_reply_clears_credentials "Unauthorized" b)
    as (H401 & _).
  destruct (unauthorized_reply_clears_credentials "Not Found" b)
    as (_ & Hother & _).
  split.
  - destruct (H401 (Api.mkResponse 401) eq_refl) as (_ & _ & Htok & Huser).
    by split.
  - apply (Hother (Api.mkResponse 404)). discriminate.
Defined.

End RestClient.

(** * Properties of the session, the connection lifecycle and the forms *)

(** ** [retryRequest] and the request interceptor *)

Section Retrying.

Context {A St : Type}.
Implicit Types (requestFn : nat → St → ApiRequest.Attempt A * St) (s : St).

Lemma backoff_S n : backoff (S n) = backoff n ++ [(2 ^ Z.of_nat n * 1000)%Z].
Proof. unfold backoff. by rewrite seq_S, fmap_app. Qed.

Lemma totalWait_backoff n : totalWait (backoff n) = ((2 ^ Z.of_nat n - 1) * 1000)%Z.
Proof.
  induction n as [|n IH]; [reflexivity|].
  rewrite backoff_S. unfold totalWait in *. rewrite foldr_app. simpl.
  assert (∀ (l : list Z) (z : Z), foldr Z.add z l = (foldr Z.add 0 l + z)%Z) as Hshift.
  { induction l as [|x l IHl]; intros z; simpl; [lia|]. rewrite IHl. lia. }
  rewrite Hshift, IH, Nat2Z.inj_succ, Z.pow_succ_r by lia. lia.
Qed.

Lemma retryLoop_stops requestFn s n k :
  k < n →
  (∀ j, j < k → stops (attemptAt requestFn s j) = false) →
  stops (attemptAt requestFn s k) = true →
  ∀ remaining i lastError,
    i + remaining = n → i ≤ k →
    ApiRequest.retryLoop requestFn n remaining i lastError (backoff i)
      (stateAt requestFn s i)
    = ApiRequest.mkRun (finalOf (attemptAt requestFn s k)) (S k) (backoff k)
        (stateAt requestFn s (S k)).
Proof.
  intros Hk Hbefore Hstop remaining.
  induction remaining as [|remaining IH]; intros i lastError Hn Hi; [lia|].
  cbn [ApiRequest.retryLoop].
  destruct (decide (i = k)) as [->|Hne].
  - unfold attemptAt in Hstop. cbn [stateAt].
    destruct (requestFn k (stateAt requestFn s k)) as [[a|e] s'] eqn:Hcall;
      unfold attemptAt; rewrite Hcall; simpl in *; [reflexivity|].
    by rewrite Hstop.
  - assert (i < k) as Hlt by lia.
    pose proof (Hbefore i Hlt) as Hgo. unfold attemptAt in Hgo.
    destruct (requestFn i (stateAt requestFn s i)) as [[a|e] s'] eqn:Hcall;
      simpl in Hgo; [discriminate|].
    rewrite Hgo.
    destruct (Nat.ltb_spec i (n - 1)) as [_|?]; [|lia].
    rewrite <- backoff_S.
    replace s' with (stateAt requestFn s (S i)) by (simpl; by rewrite Hcall).
    apply IH; lia.
Qed.

Lemma retryLoop_exhausts requestFn s n :
  (∀ j, j < n → stops (attemptAt requestFn s j) = false) →
  ∀ remaining i,
    i + remaining = n →
    ApiRequest.retryLoop requestFn n remaining i
      (match i with O => None | S j => errorOf (attemptAt requestFn s j) end)
      (backoff (i `min` (n - 1))) (stateAt requestFn s i)
    = ApiRequest.mkRun
        (ApiRequest.Thrown
           (match n with O => None | S j => errorOf (attemptAt requestFn s j) end))
        n (backoff (n - 1)) (stateAt requestFn s n).
Proof.
  intros Hall remaining.
  induction remaining as [|remaining IH]; intros i Hn.
  - assert (i = n) as -> by lia. cbn [ApiRequest.retryLoop].
    by replace (n `min` (n - 1)) with (n - 1) by lia.
  - cbn [ApiRequest.retryLoop].
    assert (i < n) as Hlt by lia.
    pose proof (Hall i Hlt) as Hgo. unfold attemptAt in Hgo.
    destruct (requestFn i (stateAt requestFn s i)) as [[a|e] s'] eqn:Hcall;
      simpl in Hgo; [discriminate|].
    rewrite Hgo.
    specialize (IH (S i) ltac:(lia)). cbv beta iota in IH.
    assert (attemptAt requestFn s i = ApiRequest.Threw e) as Hatt
      by (unfold attemptAt; by rewrite Hcall).
    assert (stateAt requestFn s (S i) = s') as Hst
      by (cbn [stateAt]; by rewrite Hcall).
    rewrite Hatt, Hst in IH. cbn [errorOf] in IH.
    destruct (Nat.ltb_spec i (n - 1)) as [Hin|Hin].
    + replace (i `min` (n - 1)) with i by lia.
      rewrite <- backoff_S.
      by replace (S i `min` (n - 1)) with (S i) in IH by lia.
    + replace (i `min` (n - 1)) with (n - 1) by lia.
      by replace (S i `min` (n - 1)) with (n - 1) in IH by lia.
Qed.

(** The loop from its first call, for the proofs below. *)
Lemma retryRequest_stops requestFn s (maxRetries : Z) (k : nat) :
  (Z.of_nat k < maxRetries)%Z →
  (∀ j, j < k → stops (attemptAt requestFn s j) = false) →
  stops (attemptAt requestFn s k) = true →
  let run := ApiRequest.retryRequest requestFn maxRetries s in
  ApiRequest.final run = finalOf (attemptAt requestFn s k)
  ∧ ApiRequest.calls run = S k
  ∧ ApiRequest.waits run = backoff k
  ∧ ApiRequest.state run = stateAt requestFn s (S k).
Proof.
  intros Hk Hbefore Hstop run. subst run. unfold ApiRequest.retryRequest.
  pose proof (retryLoop_stops requestFn s (Z.to_nat maxRetries) k
                ltac:(lia) Hbefore Hstop (Z.to_nat maxRetries) 0 None
                ltac:(lia) ltac:(lia)) as Hrun.
  change (backoff 0) with (@nil Z) in Hrun.
  change (stateAt requestFn s 0) with s in Hrun.
  by rewrite Hrun.
Qed.

(** X1.  [retryRequest] stops at the first attempt that returns or fails
    with a status below 500: it makes no further call, has slept 1 s, 2 s,
    4 s, ... after each of the failed attempts before, and returns that
    value or rethrows that error. *)
Theorem retry_stops_at_first_answer requestFn s (maxRetries : Z) (k : nat) :
  (Z.of_nat k < maxRetries)%Z →
  (∀ j, j < k → stops (attemptAt requestFn s j) = false) →
  stops (attemptAt requestFn s k) = true →
  let run := ApiRequest.retryRequest requestFn maxRetries s in
  ApiRequest.final run = finalOf (attemptAt requestFn s k)
  ∧ ApiRequest.calls run = S k
  ∧ ApiRequest.waits run = backoff k
  ∧ ApiRequest.state run = stateAt requestFn s (S k).
Proof.
  intros Hk Hbefore Hstop run. subst run. unfold ApiRequest.retryRequest.
  pose proof (retryLoop_stops requestFn s (Z.to_nat maxRetries) k
                ltac:(lia) Hbefore Hstop (Z.to_nat maxRetries) 0 None
                ltac:(lia) ltac:(lia)) as Hrun.
  change (backoff 0) with (@nil Z) in Hrun.
  change (stateAt requestFn s 0) with s in Hrun.
  by rewrite Hrun.
Qed.

(** X2.  When every attempt fails without a response or with a status of
    500 or more, [retryRequest] makes exactly [maxRetries] calls, sleeps
    1 s, 2 s, ... between them but not after the last (in all
    [(2^(maxRetries-1) - 1)] seconds) and throws the last error; with
    [maxRetries] at most 0 it makes no call and throws [undefined]. *)
Theorem retry_gives_up_after_maxRetries requestFn s (maxRetries : Z) :
  (∀ j, (Z.of_nat j < maxRetries)%Z → stops (attemptAt requestFn s j) = false) →
  let run := ApiRequest.retryRequest requestFn maxRetries s in
  let n := Z.to_nat maxRetries in
  ApiRequest.calls run = n
  ∧ ApiRequest.final run
    = ApiRequest.Thrown
        (match n with O => None | S j => errorOf (attemptAt requestFn s j) end)
  ∧ ApiRequest.waits run = backoff (n - 1)
  ∧ totalWait (ApiRequest.waits run) = ((2 ^ Z.of_nat (n - 1) - 1) * 1000)%Z
  ∧ ((maxRetries <= 0)%Z →
     ApiRequest.calls run = 0 ∧ ApiRequest.final run = ApiRequest.Thrown None).
Proof.
  intros Hall run n. subst run n. unfold ApiRequest.retryRequest.
  pose proof (retryLoop_exhausts requestFn s (Z.to_nat maxRetries)
                ltac:(intros j Hj; apply Hall; lia) (Z.to_nat maxRetries) 0
                ltac:(lia)) as Hrun.
  change (stateAt requestFn s 0) with s in Hrun.
  replace (0 `min` (Z.to_nat maxRetries - 1)) with 0 in Hrun by lia.
  change (backoff 0) with (@nil Z) in Hrun. rewrite Hrun.
  cbn [ApiRequest.calls ApiRequest.final ApiRequest.waits].
  rewrite totalWait_backoff.
  split; [done|]. split; [done|]. split; [done|]. split; [done|].
  intros Hle. by replace (Z.to_nat maxRetries) with 0 by lia.
Qed.

End Retrying.

Section RetryingWitnesses.

Lemma retry_stops_at_first_answer_witness :
  let run := ApiRequest.retryRequest flaky 3 tt in
  ApiRequest.final run = ApiRequest.Value 200%Z
  ∧ ApiRequest.calls run = 3
  ∧ ApiRequest.waits run = [1000; 2000]%Z.
Proof.
  intros run.
  destruct (retry_stops_at_first_answer flaky tt 3 2) as (Hf & Hc & Hw & _).
  - lia.
  - intros j Hj. by destruct j as [|[|j]]; [| |lia].
  - reflexivity.
  - repeat split; assumption.
Defined.

Lemma retry_gives_up_after_maxRetries_witness :
  let run := ApiRequest.retryRequest offline 3 tt in
  ApiRequest.calls run = 3
  ∧ ApiRequest.final run = ApiRequest.Thrown (Some (Api.mkError None "offline"))
  ∧ ApiRequest.waits run = [1000; 2000]%Z
  ∧ totalWait (ApiRequest.waits run) = 3000%Z.
Proof.
  intros run.
  destruct (retry_gives_up_after_maxRetries offline tt 3) as (Hc & Hf & Hw & Ht & _).
  - intros j _. reflexivity.
  - repeat split; assumption.
Defined.

End RetryingWitnesses.

Section ClientSession.

Implicit Types (b : Api.Browser) (replies : nat → option Api.Response).

Lemma call_retryable_keeps_browser b reply msg :
  retryable reply →
  ∃ e, Api.call reply msg b = (Api.Failed e, b) ∧ ApiRequest.clientError e = false.
Proof.
  destruct reply as [r|]; simpl; intros Hr.
  - unfold Api.call, Api.settle.
    destruct (Z.leb_spec 200 (Api.status r)); [|lia].
    destruct (Z.ltb_spec (Api.status r) 300); [lia|]. simpl.
    unfold Api.onRejected, Api.hasStatus. simpl.
    destruct (Z.eqb_spec (Api.status r) 401); [lia|].
    destruct (Z.geb_spec (Api.status r) 500); [|lia].
    eexists. split; [reflexivity|].
    unfold ApiRequest.clientError, Api.hasStatus. simpl.
    destruct (Z.eqb_spec (Api.status r) 401); [lia|].
    by destruct (Z.ltb_spec (Api.status r) 500); [lia|].
  - eexists. split; reflexivity.
Qed.

Lemma viaClient_retryable b replies msg k :
  (∀ j, j < k → retryable (replies j)) →
  (∀ j, j ≤ k → stateAt (ApiRequest.viaClient replies msg) b j = b)
  ∧ (∀ j, j < k → stops (attemptAt (ApiRequest.viaClient replies msg) b j) = false).
Proof.
  intros Hr.
  assert (∀ j, j ≤ k → stateAt (ApiRequest.viaClient replies msg) b j = b) as Hst.
  { induction j as [|j IH]; intros Hj; [reflexivity|].
    cbn [stateAt]. rewrite IH by lia. unfold ApiRequest.viaClient.
    destruct (call_retryable_keeps_browser b (replies j) msg) as (e & -> & _);
      [apply Hr; lia|reflexivity]. }
  split; [exact Hst|].
  intros j Hj. unfold attemptAt. rewrite Hst by lia. unfold ApiRequest.viaClient.
  destruct (call_retryable_keeps_browser b (replies j) msg) as (e & -> & He);
    [by apply Hr|exact He].
Qed.

(** X3.  A request retried through the client is not retried once the
    server answers 401: whatever retryable failures came before, the 401
    reply is the last call, the credentials are gone from local storage
    when [retryRequest] rethrows, and the page is sent to [/login]. *)
Theorem retry_ends_session_on_unauthorized b replies msg (maxRetries : Z) k r :
  (Z.of_nat k < maxRetries)%Z →
  (∀ j, j < k → retryable (replies j)) →
  replies k = Some r → Api.status r = 401%Z →
  let run := ApiRequest.retryRequest (ApiRequest.viaClient replies msg) maxRetries b in
  ApiRequest.calls run = S k
  ∧ ApiRequest.final run = ApiRequest.Thrown (Some (Api.mkError (Some r) msg))
  ∧ ApiRequest.waits run = backoff k
  ∧ Api.localStorage (ApiRequest.state run) = signed_out (Api.localStorage b)
  ∧ Api.location (ApiRequest.state run) = "/login".
Proof.
  intros Hk Hbefore Hrk H401 run. subst run.
  destruct (viaClient_retryable b replies msg k Hbefore) as [Hst Hgo].
  assert (ApiRequest.viaClient replies msg k b
          = (ApiRequest.Threw (Api.mkError (Some r) msg),
             Api.mkBrowser (signed_out (Api.localStorage b)) "/login")) as Hcall.
  { unfold ApiRequest.viaClient, Api.call, Api.settle. rewrite Hrk, H401. simpl.
    unfold Api.onRejected, Api.hasStatus. simpl. by rewrite H401. }
  destruct (retryRequest_stops (ApiRequest.viaClient replies msg) b
              maxRetries k Hk Hgo) as (Hf & Hc & Hw & Hs).
  { unfold attemptAt. rewrite Hst, Hcall by lia. simpl.
    unfold ApiRequest.clientError, Api.hasStatus. simpl. by rewrite H401. }
  rewrite Hf, Hc, Hw, Hs. unfold attemptAt. cbn [stateAt].
  rewrite Hst, Hcall by lia. done.
Qed.

Lemma retry_ends_session_on_unauthorized_witness :
  let b := Api.mkBrowser {["access_token" := "jwt-1"; "user" := "{}"]} "/dashboard" in
  let replies k := if k <? 1 then Some (Api.mkResponse 502)
                   else Some (Api.mkResponse 401) in
  let run := ApiRequest.retryRequest (ApiRequest.viaClient replies "failed") 3 b in
  ApiRequest.calls run = 2
  ∧ ApiRequest.waits run = [1000%Z]
  ∧ Api.localStorage (ApiRequest.state run) = signed_out (Api.localStorage b).
Proof.
  intros b replies run.
  destruct (retry_ends_session_on_unauthorized b replies "failed" 3 1
              (Api.mkResponse 401)) as (Hc & _ & Hw & Hls & _).
  - lia.
  - intros j Hj. assert (j = 0) as -> by lia. simpl. lia.
  - reflexivity.
  - reflexivity.
  - repeat split; assumption.
Defined.

(** X4.  The request interceptor signs a request with the token stored at
    that moment: a stored, non-empty token gives the header
    [Authorization: Bearer <token>] and leaves every other header alone;
    after a 401 reply has gone through the response interceptor, the next
    request carries no [Authorization] header. *)
Theorem request_signed_with_stored_token b :
  (∀ token headers,
     Api.localStorage b !! "access_token" = Some token → token ≠ "" →
     ApiRequest.onRequest b headers !! "Authorization" = Some ("Bearer " +:+ token)
     ∧ ∀ name, name ≠ "Authorization" →
         ApiRequest.onRequest b headers !! name = headers !! name)
  ∧ (∀ r msg,
       Api.status r = 401%Z →
       ApiRequest.onRequest (Api.call (Some r) msg b).2 ApiRequest.defaultHeaders
       = ApiRequest.defaultHeaders).
Proof.
  split.
  - intros token headers Htok Hne. unfold ApiRequest.onRequest. rewrite Htok.
    unfold Js.truthy. destruct (String.eqb_spec token ""); [done|]. simpl.
    split; [apply lookup_insert_eq|].
    intros name Hname. by rewrite lookup_insert_ne.
  - intros r msg H401. unfold Api.call, Api.settle. rewrite H401. simpl.
    unfold Api.onRejected, Api.hasStatus. simpl. rewrite H401. simpl.
    unfold ApiRequest.onRequest. simpl.
    rewrite lookup_delete_ne by done. by rewrite lookup_delete_eq.
Qed.

Lemma request_signed_with_stored_token_witness :
  let b := Api.mkBrowser {["access_token" := "jwt-1"]} "/dashboard" in
  ApiRequest.onRequest b ApiRequest.defaultHeaders !! "Authorization"
  = Some "Bearer jwt-1"
  ∧ ApiRequest.onRequest (Api.call (Some (Api.mkResponse 401)) "no" b).2
      ApiRequest.defaultHeaders = ApiRequest.defaultHeaders.
Proof.
  intros b. destruct (request_signed_with_stored_token b) as [Hsign Hout].
  split.
  - apply (Hsign "jwt-1" ApiRequest.defaultHeaders); [reflexivity|discriminate].
  - apply (Hout (Api.mkResponse 401) "no"). reflexivity.
Defined.

End ClientSession.

(** ** The authentication store and the route guards *)

Section AuthStore.

Variable parse : string → Auth.Parsed.
Variable stringify : Auth.User → string.
Variable jwtDecode : string → bool.

Lemma call_ok reply msg b r :
  reply = Some r → ok r → Api.call reply msg b = (Api.Fulfilled r, b).
Proof.
  intros -> [Hlo Hhi]. unfold Api.call, Api.settle.
  destruct (Z.leb_spec 200 (Api.status r)); [|lia].
  destruct (Z.ltb_spec (Api.status r) 300); [|lia]. reflexivity.
Qed.

Lemma call_failing reply msg b :
  failing reply → ∃ e b', Api.call reply msg b = (Api.Failed e, b').
Proof.
  intros Hf. unfold Api.call, Api.settle. destruct reply as [r|]; simpl in *.
  - destruct (Z.leb_spec 200 (Api.status r)), (Z.ltb_spec (Api.status r) 300);
      simpl; try (unfold Api.onRejected; eauto).
    exfalso. apply Hf. unfold ok. lia.
  - unfold Api.onRejected. eauto.
Qed.

Lemma logout_browser w :
  Auth.browser (Auth.logout w)
  = Api.mkBrowser (signed_out (Api.localStorage (Auth.browser w))) "/login".
Proof. reflexivity. Qed.

Lemma signed_out_token ls : signed_out ls !! "access_token" = None.
Proof. unfold signed_out. rewrite lookup_delete_ne by done. apply lookup_delete_eq. Qed.

Lemma signed_out_user ls : signed_out ls !! "user" = None.
Proof. unfold signed_out. apply lookup_delete_eq. Qed.

Lemma signed_out_other ls k :
  k ≠ "access_token" → k ≠ "user" → signed_out ls !! k = ls !! k.
Proof. intros. unfold signed_out. by rewrite !lookup_delete_ne. Qed.

Lemma startup_without_user b :
  Api.localStorage b !! "user" = None →
  startup parse b = Some (Auth.mkWorld signedOut b).
Proof.
  intros Hu. unfold startup, Auth.create, Auth.initializeAuth, Auth.storedUser.
  simpl. by rewrite !Hu.
Qed.

(** X5.  A session survives a page load.  After [login] with a token that
    decodes and a successful reply of [/auth/me], the store is signed in
    with that profile and token and the protected routes render; and if
    [JSON.parse] undoes [JSON.stringify] on the profile, loading the page
    again on the storage left behind gives the same signed-in store. *)
Theorem session_survives_page_load w token reply msg r u :
  jwtDecode token = true → token ≠ "" →
  reply = Some r → ok r →
  parse (stringify u) = Auth.Json (Some u) →
  let w' := Auth.loadUserSettle stringify reply msg (Some u)
              (Auth.login jwtDecode token w) in
  Auth.store w' = signedIn u token
  ∧ Auth.ProtectedRoute (Auth.store w') = Auth.Children
  ∧ startup parse (Auth.browser w') = Some (Auth.mkWorld (signedIn u token) (Auth.browser w')).
Proof.
  intros Hdec Hne Hreply Hok Hparse w'. subst w'.
  unfold Auth.login. rewrite Hdec. unfold Auth.loadUserSettle.
  rewrite (call_ok reply msg _ r Hreply Hok). cbn [Auth.store Auth.browser Auth.accessToken].
  split; [reflexivity|]. split; [reflexivity|].
  unfold startup, Auth.create, Auth.initializeAuth, Auth.storedUser, Auth.storedToken,
    Auth.setItem, Auth.stringifyBody. cbn [Api.localStorage Auth.browser Auth.store].
  rewrite lookup_insert_eq, Hparse.
  rewrite lookup_insert_ne by done. rewrite lookup_insert_eq.
  unfold Js.orStr, Js.truthy. destruct (String.eqb_spec token ""); [done|]. reflexivity.
Qed.

(** X6.  A token whose profile cannot be fetched is not kept: when the
    reply of [/auth/me] is anything but a 2xx response, the store is signed
    out, token and profile are gone from local storage, the page is sent to
    [/login], and a page load on what is left stays signed out. *)
Theorem unfetched_profile_ends_session w token reply msg (data : option Auth.User) :
  jwtDecode token = true → failing reply →
  let w' := Auth.loadUserSettle stringify reply msg data
              (Auth.login jwtDecode token w) in
  Auth.store w' = signedOut
  ∧ Api.localStorage (Auth.browser w') !! "access_token" = None
  ∧ Api.localStorage (Auth.browser w') !! "user" = None
  ∧ Api.location (Auth.browser w') = "/login"
  ∧ Auth.ProtectedRoute (Auth.store w') = Auth.Navigate "/login"
  ∧ startup parse (Auth.browser w') = Some (Auth.mkWorld signedOut (Auth.browser w')).
Proof.
  intros Hdec Hf w'. subst w'. unfold Auth.login. rewrite Hdec.
  unfold Auth.loadUserSettle. cbn [Auth.browser].
  destruct (call_failing reply msg
              (Auth.setItem "access_token" token (Auth.browser w)) Hf)
    as (e & b' & ->).
  rewrite logout_browser. cbn [Auth.store Auth.logout Api.localStorage Api.location].
  split; [reflexivity|]. split; [apply signed_out_token|].
  split; [apply signed_out_user|]. split; [reflexivity|]. split; [reflexivity|].
  apply startup_without_user. apply signed_out_user.
Qed.

(** X7.  [logout] ends the session from any state: the store is signed
    out, token and profile are removed and nothing else in local storage
    is, the page is sent to [/login], requests are no longer signed, a page
    load stays signed out, and logging out again changes nothing; [login]
    with a token that does not decode does the same. *)
Theorem logout_ends_session w :
  let w' := Auth.logout w in
  Auth.store w' = signedOut
  ∧ Api.localStorage (Auth.browser w') !! "access_token" = None
  ∧ Api.localStorage (Auth.browser w') !! "user" = None
  ∧ (∀ k, k ≠ "access_token" → k ≠ "user" →
       Api.localStorage (Auth.browser w') !! k = Api.localStorage (Auth.browser w) !! k)
  ∧ Api.location (Auth.browser w') = "/login"
  ∧ (∀ headers, ApiRequest.onRequest (Auth.browser w') headers = headers)
  ∧ startup parse (Auth.browser w') = Some (Auth.mkWorld signedOut (Auth.browser w'))
  ∧ Auth.logout w' = w'
  ∧ (∀ token, jwtDecode token = false → Auth.login jwtDecode token w = w').
Proof.
  intros w'. subst w'. rewrite logout_browser.
  cbn [Auth.store Auth.logout Api.localStorage Api.location].
  split; [reflexivity|]. split; [apply signed_out_token|].
  split; [apply signed_out_user|]. split; [apply signed_out_other|].
  split; [reflexivity|].
  split.
  { intros headers. unfold ApiRequest.onRequest. cbn [Api.localStorage].
    by rewrite signed_out_token. }
  split; [apply startup_without_user, signed_out_user|].
  split.
  - unfold Auth.logout, Auth.removeItem. cbn [Auth.browser Api.localStorage Api.location].
    f_equal. f_equal.
    rewrite (delete_id (delete "user" _) "access_token")
      by (rewrite lookup_delete_ne by done; apply lookup_delete_eq).
    apply delete_id, lookup_delete_eq.
  - intros token Hdec. unfold Auth.login. by rewrite Hdec.
Qed.

Lemma authStep_keeps_user w c :
  profiled c →
  (Auth.isAuthenticated (Auth.store w) = true → is_Some (Auth.user (Auth.store w))) →
  let w' := authStep parse stringify jwtDecode w c in
  Auth.isAuthenticated (Auth.store w') = true → is_Some (Auth.user (Auth.store w')).
Proof.
  intros Hc Hinv w'. subst w'. destruct c as [token|reply msg data| | |b]; simpl.
  - unfold Auth.login. destruct (jwtDecode token); simpl; [exact Hinv|done].
  - unfold Auth.loadUserSettle. destruct Hc as [Hf|Hdata].
    + destruct (call_failing reply msg (Auth.browser w) Hf) as (e & b' & ->). done.
    + destruct (Api.call reply msg (Auth.browser w)) as [[r|e] b']; simpl; [eauto|done].
  - done.
  - unfold Auth.initializeAuth.
    destruct (Auth.storedUser parse (Auth.browser w)) as [|[u|]]; simpl;
      [exact Hinv| |done].
    destruct (Js.truthy _); simpl; [eauto|done].
  - exact Hinv.
Qed.

(** X8.  A store that says [isAuthenticated] holds a profile as long as
    every 2xx reply of [/auth/me] carried one: whatever calls are made on
    the store after the module is loaded, in any order and with any writes
    to the browser state in between, the pages behind [ProtectedRoute] are
    then rendered only with a user in the store.  [loadUser] does not test
    the body it stores: a 2xx reply whose body is [null] leaves the store
    authenticated without a user, with the text [null] stored as the
    profile, and the protected pages are rendered. *)
Theorem authenticated_store_has_user b st calls :
  Auth.create parse b = Some st →
  let w := authRun parse stringify jwtDecode calls (Auth.mkWorld st b) in
  (Forall profiled calls →
   (Auth.isAuthenticated (Auth.store w) = true → is_Some (Auth.user (Auth.store w)))
   ∧ (Auth.ProtectedRoute (Auth.store w) = Auth.Children →
      is_Some (Auth.user (Auth.store w))))
  ∧ (∀ reply msg r, reply = Some r → ok r →
       let w' := Auth.loadUserSettle stringify reply msg None w in
       Auth.isAuthenticated (Auth.store w') = true
       ∧ Auth.user (Auth.store w') = None
       ∧ Api.localStorage (Auth.browser w') !! "user" = Some "null"
       ∧ Auth.ProtectedRoute (Auth.store w') = Auth.Children).
Proof.
  intros Hcreate w. split.
  - intros Hcalls.
    assert (Auth.isAuthenticated (Auth.store w) = true →
            is_Some (Auth.user (Auth.store w))) as Hinv.
    { subst w. unfold authRun.
      assert (Auth.isAuthenticated (Auth.store (Auth.mkWorld st b)) = true →
              is_Some (Auth.user (Auth.store (Auth.mkWorld st b)))) as Hstart.
      { unfold Auth.create in Hcreate.
        destruct (Auth.storedUser parse b); [discriminate|].
        injection Hcreate as <-. simpl. discriminate. }
      revert Hstart. generalize (Auth.mkWorld st b) as w0.
      induction Hcalls as [|c calls Hc _ IH]; intros w0 Hstart; simpl; [exact Hstart|].
      apply IH. by apply authStep_keeps_user. }
    split; [exact Hinv|].
    intros Hshown. apply Hinv. unfold Auth.ProtectedRoute in Hshown.
    destruct (Auth.isLoading (Auth.store w)); [discriminate|].
    by destruct (Auth.isAuthenticated (Auth.store w)).
  - intros reply msg r Hreply Hok w'. subst w'. unfold Auth.loadUserSettle.
    rewrite (call_ok reply msg _ r Hreply Hok).
    cbn [Auth.store Auth.browser Auth.isAuthenticated Auth.user].
    split; [reflexivity|]. split; [reflexivity|].
    split; [|reflexivity].
    unfold Auth.setItem. cbn [Api.localStorage]. apply lookup_insert_eq.
Qed.

(** X9.  What a page load makes of local storage.  It throws exactly when
    a stored profile does not parse, with or without a token; otherwise it
    never writes to the browser state and never leaves the store loading,
    and it signs the visitor in exactly when a non-empty token and a
    profile that parses to a user are both stored, with that token and
    that user. *)
Theorem page_load_reads_credentials b :
  (startup parse b = None ↔ corrupt parse b)
  ∧ (∀ w, startup parse b = Some w →
       Auth.browser w = b
       ∧ Auth.isLoading (Auth.store w) = false
       ∧ (∀ token u, credentials parse b token u → Auth.store w = signedIn u token)
       ∧ ((¬ ∃ token u, credentials parse b token u) → Auth.store w = signedOut)).
Proof.
  unfold startup, Auth.create, Auth.initializeAuth, Auth.storedUser, corrupt,
    credentials.
  cbn [Auth.browser].
  destruct (Api.localStorage b !! "user") as [text|] eqn:Huser.
  - destruct (parse text) as [|[u|]] eqn:Hparse.
    + split; [split; [eauto|done]|]. intros w [=].
    + split.
      { split; [|intros (text' & [= <-] & Hbad); congruence].
        destruct (Js.truthy _); discriminate. }
      intros w Hw. unfold Js.truthy in Hw.
      destruct (Api.localStorage b !! "access_token") as [token|] eqn:Htok.
      * destruct (String.eqb_spec token "") as [->|Hne]; simpl in Hw;
          injection Hw as <-; simpl.
        -- split; [done|]. split; [done|]. split.
           ++ intros token' u' ([= <-] & Hne' & _). done.
           ++ done.
        -- split; [done|]. split; [done|]. split.
           ++ intros token' u' ([= <-] & _ & text' & [= <-] & Hp).
              rewrite Hparse in Hp. by injection Hp as ->.
           ++ intros Hnone. exfalso. apply Hnone. exists token, u. eauto.
      * injection Hw as <-. simpl. split; [done|]. split; [done|]. split.
        -- intros token' u' (Hsome & _). discriminate.
        -- done.
    + split; [split; [discriminate|intros (text' & [= <-] & Hbad); congruence]|].
      intros w [= <-]. simpl. split; [done|]. split; [done|]. split.
      * intros token' u' (_ & _ & text' & [= <-] & Hp). congruence.
      * done.
  - split; [split; [discriminate|intros (text' & [=] & _)]|].
    intros w [= <-]. simpl. split; [done|]. split; [done|]. split.
    + intros token' u' (_ & _ & text' & [=] & _).
    + done.
Qed.

End AuthStore.

Section AuthStoreWitnesses.

Lemma session_survives_page_load_witness :
  let w := Auth.mkWorld signedOut (Api.mkBrowser ∅ "/login") in
  let w' := Auth.loadUserSettle stringifyAda (Some (Api.mkResponse 200)) "" (Some ada)
              (Auth.login decodesAll "jwt-1" w) in
  Auth.store w' = signedIn ada "jwt-1"
  ∧ Auth.ProtectedRoute (Auth.store w') = Auth.Children
  ∧ startup parseAda (Auth.browser w')
    = Some (Auth.mkWorld (signedIn ada "jwt-1") (Auth.browser w')).
Proof.
  intros w.
  apply (session_survives_page_load parseAda stringifyAda decodesAll w "jwt-1" (Some (Api.mkResponse 200)) ""
           (Api.mkResponse 200) ada).
  - reflexivity.
  - discriminate.
  - reflexivity.
  - unfold ok. simpl. lia.
  - reflexivity.
Defined.

Lemma unfetched_profile_ends_session_witness :
  let w := Auth.mkWorld signedOut (Api.mkBrowser {["theme" := "dark"]} "/login") in
  let w' := Auth.loadUserSettle stringifyAda (Some (Api.mkResponse 403)) "" (Some ada)
              (Auth.login decodesAll "jwt-1" w) in
  Auth.store w' = signedOut
  ∧ Api.localStorage (Auth.browser w') !! "access_token" = None.
Proof.
  intros w.
  destruct (unfetched_profile_ends_session parseAda stringifyAda decodesAll w
              "jwt-1" (Some (Api.mkResponse 403)) "" (Some ada)) as (Hst & Htok & _).
  - reflexivity.
  - unfold failing, ok. simpl. lia.
  - split; assumption.
Defined.

Lemma authenticated_store_has_user_witness :
  let b := Api.mkBrowser ∅ "/login" in
  let calls := [Login "jwt-1"; LoadUserSettle (Some (Api.mkResponse 200)) "" (Some ada);
                Elsewhere (Api.mkBrowser ∅ "/dashboard");
                LoadUserSettle (Some (Api.mkResponse 503)) "busy" None;
                Login "jwt-2";
                LoadUserSettle (Some (Api.mkResponse 200)) "" (Some ada)] in
  let w := authRun parseAda stringifyAda decodesAll calls (Auth.mkWorld signedOut b) in
  let w' := Auth.loadUserSettle stringifyAda (Some (Api.mkResponse 204)) "" None w in
  (Auth.store w = signedIn ada "jwt-2" ∧ is_Some (Auth.user (Auth.store w)))
  ∧ (Auth.isAuthenticated (Auth.store w') = true
     ∧ Auth.user (Auth.store w') = None
     ∧ Api.localStorage (Auth.browser w') !! "user" = Some "null"
     ∧ Auth.ProtectedRoute (Auth.store w') = Auth.Children).
Proof.
  intros b calls.
  destruct (authenticated_store_has_user parseAda stringifyAda decodesAll b signedOut
              calls eq_refl) as [Hinv Hnull].
  intros w w'. split.
  - split; [reflexivity|]. apply Hinv; [|reflexivity].
    subst calls.
    constructor; [exact I|].
    constructor; [right; by eexists|].
    constructor; [exact I|].
    constructor; [left; unfold failing, ok; simpl; lia|].
    constructor; [exact I|].
    constructor; [right; by eexists|].
    constructor.
  - apply (Hnull (Some (Api.mkResponse 204)) "" (Api.mkResponse 204) eq_refl).
    unfold ok. simpl. lia.
Defined.

Lemma page_load_reads_credentials_witness :
  let b := Api.mkBrowser {["access_token" := "jwt-1"; "user" := "ada.json"]} "/" in
  ∃ w, startup parseAda b = Some w ∧ Auth.store w = signedIn ada "jwt-1".
Proof.
  intros b.
  destruct (page_load_reads_credentials parseAda b) as [_ Hload].
  eexists. split; [reflexivity|].
  destruct (Hload _ eq_refl) as (_ & _ & Hin & _).
  apply Hin. split; [reflexivity|]. split; [discriminate|].
  exists "ada.json". split; reflexivity.
Defined.

End AuthStoreWitnesses.

(** ** The socket wrapper's [connect_error] listener *)

Section SocketSession.

Variable parse : string → Auth.Parsed.

(** X10.  An authentication error on the socket ends the stored session
    without a redirect: the listener removes token and profile, after which
    [joinTrainingRoom] is rejected without a call to [socket.emit], REST
    requests are sent unsigned and a page load is signed out; the socket
    and the location are left as they are.  Any other connection error
    changes nothing. *)
Theorem socket_auth_error_ends_session (w : SocketV1.World) message location runId :
  let w' := SocketV1Listeners.onConnectError message w in
  (Train.contains "Authentication error" message = true →
     SocketV1.localStorage w' = signed_out (SocketV1.localStorage w)
     ∧ SocketV1.socket w' = SocketV1.socket w
     ∧ SocketV1.joinTrainingRoom runId w'
       = (Rejected "No auth token found, cannot join room.", w')
     ∧ (∀ headers, ApiRequest.onRequest (browserOf w' location) headers = headers)
     ∧ startup parse (browserOf w' location)
       = Some (Auth.mkWorld signedOut (browserOf w' location)))
  ∧ (Train.contains "Authentication error" message = false → w' = w).
Proof.
  intros w'. subst w'. unfold SocketV1Listeners.onConnectError.
  split; intros ->; [|reflexivity].
  cbn [SocketV1.localStorage SocketV1.socket]. fold (signed_out (SocketV1.localStorage w)).
  split; [reflexivity|]. split; [reflexivity|].
  split.
  { unfold SocketV1.joinTrainingRoom. cbn [SocketV1.localStorage].
    by rewrite signed_out_token. }
  split.
  { intros headers. unfold ApiRequest.onRequest, browserOf.
    cbn [Api.localStorage SocketV1.localStorage]. by rewrite signed_out_token. }
  apply startup_without_user. unfold browserOf.
  cbn [Api.localStorage SocketV1.localStorage]. apply signed_out_user.
Qed.

End SocketSession.

Section SocketSessionWitnesses.

Lemma socket_auth_error_ends_session_witness :
  let w := SocketV1.mkWorld {["access_token" := "jwt-1"; "user" := "ada.json"]}
             (Socket.mk false [] []) [] in
  let w' := SocketV1Listeners.onConnectError "Authentication error: token expired" w in
  SocketV1.joinTrainingRoom "run-7" w'
  = (Rejected "No auth token found, cannot join room.", w').
Proof.
  intros w.
  destruct (socket_auth_error_ends_session parseAda w
              "Authentication error: token expired"
              "/training/run-7" "run-7") as [Hauth _].
  destruct (Hauth eq_refl) as (_ & _ & Hjoin & _). exact Hjoin.
Defined.

End SocketSessionWitnesses.

(** ** The pages' connection handlers *)

Section Connection.



Lemma clean_subscribed_status pg s :
  Clean.subscribed pg = true →
  Js.includes ["READY"; "CLEANING"; "CLEANING_FAILED"; "CONNECTING"] s = true →
  Clean.subscribed (Clean.setStatus s pg) = true.
Proof.
  unfold Clean.subscribed. simpl. intros Hsub ->.
  destruct (Clean.isLoadingDetails pg); [done|].
  by destruct (bool_decide (is_Some (Clean.runDetails pg))).
Qed.

(** X12.  A connection lost and regained while the Clean page is
    [CLEANING] puts the page back to what the snapshot said when it was
    loaded, not to [CLEANING]: with a snapshot status of [SUCCESS] the page
    is [READY] again, the Apply button is enabled while the run is still
    being cleaned, and pressing it posts a second cleaning request and
    discards the log; with a snapshot status of [CLEANING] the page is
    [CLEANING] again. *)
Theorem reconnect_restores_snapshot_status {W : Type}
    (join : string → W → Settled * W) runId (w : W) pg details s :
  Clean.isMountedRef pg = true → Clean.subscribed pg = true →
  Clean.status pg = "CLEANING" →
  Clean.runDetails pg = Some details → RunDetails.status details = Some s →
  let pg1 := CleanChannel.deliverDisconnect pg in
  let restored := if String.eqb s "SUCCESS" then "READY" else s in
  Clean.status pg1 = "CONNECTING"
  ∧ CleanChannel.deliverConnect join runId w pg1
    = Some ((join runId w).2, Clean.setStatus restored pg)
  ∧ (s = "SUCCESS" →
     ∀ now1 now2,
       let pg2 := Clean.setStatus restored pg in
       CleanChannel.applyDisabled pg2 = false
       ∧ Clean.posted (Clean.handleStartCleaning now1 now2 pg2)
         = Clean.posted pg ++ ["/clean"]
       ∧ Clean.logs (Clean.handleStartCleaning now1 now2 pg2)
         = [reset_note now1; requested_note now2])
  ∧ (s = "CLEANING" → Clean.setStatus restored pg = pg).
Proof.
  intros Hm Hsub Hst Hrd Hs pg1 restored. subst pg1 restored.
  unfold CleanChannel.deliverDisconnect, CleanChannel.handleDisconnect.
  rewrite Hsub, Hm, Hst. simpl.
  split; [reflexivity|]. split.
  - unfold CleanChannel.deliverConnect.
    rewrite (clean_subscribed_status pg "CONNECTING" Hsub eq_refl).
    unfold CleanChannel.onConnect, CleanChannel.snapshotStatus. simpl.
    rewrite Hm, Hrd, Hs. simpl. reflexivity.
  - split.
    + intros -> now1 now2. simpl. split; [|split; reflexivity].
      unfold CleanChannel.applyDisabled, CleanChannel.canInteractWithForm. simpl.
      rewrite Hrd. reflexivity.
    + intros ->. simpl. rewrite <- Hst. by destruct pg.
Qed.

Lemma reconnect_restores_snapshot_status_witness :
  let details := forest_run "SUCCESS" in
  let pg := Clean.handleStartCleaning "t1" "t2" (cleanLoaded details) in
  let pg1 := CleanChannel.deliverDisconnect pg in
  Clean.status pg1 = "CONNECTING"
  ∧ CleanChannel.deliverConnect SocketV1.joinTrainingRoom "run-7"
      (SocketV1.mkWorld ∅ (Socket.mk true [] []) []) pg1
    = Some (SocketV1.mkWorld ∅ (Socket.mk true [] []) [], Clean.setStatus "READY" pg).
Proof.
  intros details pg.
  destruct (reconnect_restores_snapshot_status SocketV1.joinTrainingRoom "run-7"
              (SocketV1.mkWorld ∅ (Socket.mk true [] []) []) pg details "SUCCESS")
    as (H1 & H2 & _); try reflexivity.
  split; [exact H1|exact H2].
Defined.

Lemma train_subscribed_status pg s :
  Train.isFetchingDetails pg = false → Js.truthy (Train.fetchError pg) = false →
  Js.truthy (Train.taskType pg) = true →
  Train.subscribed (Train.setRunStatus s pg) = negb (Js.includes train_final s).
Proof. unfold Train.subscribed. simpl. by intros -> -> ->. Qed.

(** X13.  What the [connect] handler of the Train page does with a
    rejected join.  When no token is stored, the handler called on a
    mounted page gets the rejection from either wrapper without anything
    being emitted, and sets the status to [CONNECTING]; with a token the
    page is left as it is.  The rejection branch looks neither at the
    mount flag nor at the status: it replaces a final status too, and on a
    loaded page the socket effect of the next render then no longer
    returns early: it calls [connectSocket()] again and throws at its
    first registration. *)
Theorem rejected_join_shows_connecting runId pg :
  (∀ w : SocketV1.World,
     Train.isMountedRef pg = true →
     noToken (SocketV1.localStorage w !! "access_token") = true →
     TrainChannel.onConnect SocketV1.joinTrainingRoom runId w pg
     = (w, Train.setRunStatus "CONNECTING" pg))
  ∧ (∀ w : SocketV2.World,
       Train.isMountedRef pg = true →
       noToken (SocketV2.localStorage w !! "access_token") = true →
       let r := TrainChannel.onConnect SocketV2.joinTrainingRoom runId w pg in
       r.2 = Train.setRunStatus "CONNECTING" pg ∧ emitted_v2 r.1 = emitted_v2 w)
  ∧ (∀ (w : SocketV1.World) token,
       SocketV1.localStorage w !! "access_token" = Some token → token ≠ "" →
       (TrainChannel.onConnect SocketV1.joinTrainingRoom runId w pg).2 = pg)
  ∧ (∀ (w : SocketV2.World) token,
       SocketV2.localStorage w !! "access_token" = Some token → token ≠ "" →
       (TrainChannel.onConnect SocketV2.joinTrainingRoom runId w pg).2 = pg)
  ∧ (let pg' := TrainChannel.onJoinRejected pg in
     Train.runStatus pg' = "CONNECTING"
     ∧ Js.includes train_final (Train.runStatus pg') = false
     ∧ Train.toasts pg' = Train.toasts pg
     ∧ (Train.isFetchingDetails pg = false → Js.truthy (Train.fetchError pg) = false →
        Js.truthy (Train.taskType pg) = true →
        Train.connectSocketCalled (Train.socketEffect pg') = true
        ∧ Train.listening (Train.socketEffect pg') = []
        ∧ is_Some (Train.thrown (Train.socketEffect pg')))).
Proof.
  split; [|split; [|split; [|split]]].
  - intros w Hm Hno. unfold TrainChannel.onConnect.
    rewrite Hm. simpl. unfold SocketV1.joinTrainingRoom.
    destruct (SocketV1.localStorage w !! "access_token") as [tok|]; [|reflexivity].
    by rewrite Hno.
  - intros w Hm Hno r. subst r. unfold TrainChannel.onConnect.
    rewrite Hm. simpl. unfold SocketV2.joinTrainingRoom.
    assert (SocketV2.localStorage (SocketV2.getSocket w).2 = SocketV2.localStorage w) as Hls.
    { unfold SocketV2.getSocket. by destruct (SocketV2.socket w). }
    assert (emitted_v2 (SocketV2.getSocket w).2 = emitted_v2 w) as Hem.
    { unfold SocketV2.getSocket, emitted_v2.
      destruct (SocketV2.socket w) eqn:Hs; simpl; by rewrite ?Hs. }
    destruct (SocketV2.getSocket w) as [s0 w0]. simpl in Hls, Hem. rewrite Hls.
    destruct (SocketV2.localStorage w !! "access_token") as [tok|]; [|done].
    by rewrite Hno.
  - intros w token Htok Hne. unfold TrainChannel.onConnect.
    destruct (Train.isMountedRef pg); [|done]. simpl.
    unfold SocketV1.joinTrainingRoom. rewrite Htok.
    unfold noToken, Js.truthy. by destruct (String.eqb_spec token "").
  - intros w token Htok Hne. unfold TrainChannel.onConnect.
    destruct (Train.isMountedRef pg); [|done]. simpl.
    unfold SocketV2.joinTrainingRoom.
    assert (SocketV2.localStorage (SocketV2.getSocket w).2 = SocketV2.localStorage w) as Hls.
    { unfold SocketV2.getSocket. by destruct (SocketV2.socket w). }
    destruct (SocketV2.getSocket w) as [s0 w0]. simpl in Hls. rewrite Hls, Htok.
    unfold noToken, Js.truthy. by destruct (String.eqb_spec token "").
  - intros pg'. subst pg'. unfold TrainChannel.onJoinRejected.
    split; [reflexivity|]. split; [reflexivity|]. split; [reflexivity|].
    intros Hf He Ht. unfold Train.socketEffect.
    rewrite (train_subscribed_status pg "CONNECTING" Hf He Ht). simpl.
    split; [reflexivity|]. split; [reflexivity|]. by eexists.
Qed.

Lemma clean_start_twice now1 now2 now3 now4 pg :
  Clean.handleStartCleaning now3 now4 (Clean.handleStartCleaning now1 now2 pg)
  = Clean.handleStartCleaning now1 now2 pg.
Proof.
  destruct (negb (String.eqb (Clean.status pg) "READY")
            && negb (String.eqb (Clean.status pg) "CLEANING_FAILED")) eqn:Hgo;
    unfold Clean.handleStartCleaning; rewrite !Hgo; reflexivity.
Qed.

(** X14.  The buttons of the Clean page and the handler behind them.
    Whenever the Apply button is enabled, the handler accepts the click:
    the status becomes [CLEANING], one cleaning request is posted, and the
    button and the options form are disabled from then on; a second click
    before any other event does nothing, so a double click posts once.
    Apply and Proceed are never enabled together, and Skip is enabled
    whenever Proceed is. *)
Theorem apply_button_posts_once pg now1 now2 :
  let pg' := Clean.handleStartCleaning now1 now2 pg in
  (CleanChannel.applyDisabled pg = false →
     Clean.status pg' = "CLEANING"
     ∧ Clean.posted pg' = Clean.posted pg ++ ["/clean"]
     ∧ CleanChannel.applyDisabled pg' = true
     ∧ CleanChannel.formDisabled pg' = true
     ∧ CleanChannel.proceedDisabled pg = true)
  ∧ (∀ now3 now4, Clean.handleStartCleaning now3 now4 pg' = pg')
  ∧ (CleanChannel.applyDisabled pg = true → Clean.runDetails pg ≠ None → pg' = pg)
  ∧ (CleanChannel.proceedDisabled pg = false → CleanChannel.skipDisabled pg = false).
Proof.
  intros pg'. subst pg'. split; [|split; [|split]].
  - intros Hen.
    assert (Clean.status pg = "READY" ∨ Clean.status pg = "CLEANING_FAILED") as Hst.
    { revert Hen.
      unfold CleanChannel.applyDisabled, CleanChannel.canInteractWithForm, Js.includes.
      simpl.
      destruct (String.eqb_spec (Clean.status pg) "READY"); [by left|].
      destruct (String.eqb_spec (Clean.status pg) "CLEANING_FAILED"); [by right|].
      simpl. by rewrite andb_false_r. }
    unfold Clean.handleStartCleaning, CleanChannel.applyDisabled,
      CleanChannel.formDisabled, CleanChannel.proceedDisabled.
    destruct Hst as [-> | ->]; simpl; by rewrite orb_true_r.
  - intros now3 now4. apply clean_start_twice.
  - unfold CleanChannel.applyDisabled, CleanChannel.canInteractWithForm, Js.includes.
    simpl. intros Hdis Hrd. unfold Clean.handleStartCleaning.
    destruct (Clean.runDetails pg) as [d|]; [|done].
    rewrite bool_decide_eq_true_2 in Hdis by eauto. simpl in Hdis.
    destruct (String.eqb_spec (Clean.status pg) "READY") as [Hr|Hr];
      [rewrite Hr in Hdis; simpl in Hdis; done|].
    destruct (String.eqb_spec (Clean.status pg) "CLEANING_FAILED") as [Hc|Hc];
      [rewrite Hc in Hdis; simpl in Hdis; done|].
    reflexivity.
  - unfold CleanChannel.proceedDisabled, CleanChannel.skipDisabled.
    destruct (String.eqb (Clean.status pg) "CLEANING_SUCCESS"); [|done].
    intros _. by rewrite orb_true_r.
Qed.

End Connection.

(** ** The cleaning options *)

Section CleaningOptions.

Lemma includes_elem_of (arr : list string) (s : string) :
  Js.includes arr s = true → s ∈ arr.
Proof.
  unfold Js.includes. induction arr as [|a arr IH]; simpl; [done|].
  destruct (String.eqb_spec s a) as [->|_]; simpl.
  - intros _. apply elem_of_cons. by left.
  - intros H. apply elem_of_cons. right. by apply IH.
Qed.

Lemma holdsSwitch_insert o k name v :
  holdsSwitch o k → (name = k → ∃ b, v = CleanOptions.VBool b) →
  holdsSwitch (<[name := v]> o) k.
Proof.
  intros [b Hb] Hv. unfold holdsSwitch. destruct (decide (name = k)) as [->|Hne].
  - destruct (Hv eq_refl) as [b' ->]. exists b'. apply lookup_insert_eq.
  - exists b. by rewrite lookup_insert_ne.
Qed.

Lemma holdsChoice_insert o k choices name v :
  holdsChoice o k choices →
  (name = k → ∃ s, v = CleanOptions.VStr s ∧ s ∈ choices) →
  holdsChoice (<[name := v]> o) k choices.
Proof.
  intros (s & Hs & Hin) Hv. unfold holdsChoice.
  destruct (decide (name = k)) as [->|Hne].
  - destruct (Hv eq_refl) as (s' & -> & Hin'). exists s'.
    split; [apply lookup_insert_eq|done].
  - exists s. by rewrite lookup_insert_ne.
Qed.

Lemma wellFormed_initial : wellFormed CleanOptions.initialOptions.
Proof.
  unfold wellFormed, holdsSwitch, holdsChoice.
  repeat split; try (by eexists; vm_compute); try (eexists; split; [by vm_compute|]).
  - apply elem_of_cons. by left.
  - apply elem_of_cons. by left.
  - apply elem_of_cons. by left.
  - intros k [v Hk]. unfold CleanOptions.initialOptions in Hk.
    repeat (apply lookup_insert_Some in Hk as [[<- _]|[_ Hk]];
            [apply (bool_decide_unpack _); vm_compute; exact I|]).
    by rewrite lookup_empty in Hk.
Qed.

Lemma fromForm_cases e :
  fromForm e = true →
  (CleanOptions.type e = "checkbox" ∧ CleanOptions.name e ∈ switches)
  ∨ (CleanOptions.type e ≠ "checkbox" ∧ CleanOptions.name e = "missing_method"
     ∧ CleanOptions.value e ∈ missingMethods)
  ∨ (CleanOptions.type e ≠ "checkbox" ∧ CleanOptions.name e = "scaling_method"
     ∧ CleanOptions.value e ∈ scalingMethods).
Proof.
  unfold fromForm.
  destruct (String.eqb_spec (CleanOptions.type e) "checkbox") as [Hty|Hty].
  - rewrite Hty. simpl. rewrite !orb_false_r. intros Hin. left.
    split; [done|]. by apply includes_elem_of.
  - simpl. intros Hform. right.
    apply orb_prop in Hform as [Hform|Hform];
      apply andb_prop in Hform as [Hform Hv];
      apply andb_prop in Hform as [_ Hn];
      apply String.eqb_eq in Hn; apply includes_elem_of in Hv; [left|right]; done.
Qed.

Lemma wellFormed_edit o e :
  fromForm e = true → wellFormed o →
  wellFormed (CleanOptions.handleOptionChange e o).
Proof.
  intros Hform (H1 & H2 & H3 & H4 & H5 & H6 & H7 & H8 & Hdom).
  unfold CleanOptions.handleOptionChange.
  assert (CleanOptions.name e
            ∈ switches ++ ["missing_method"; "outlier_method"; "scaling_method"])
    as Hname.
  { destruct (fromForm_cases e Hform) as [(_ & Hn)|[(_ & -> & _)|(_ & -> & _)]].
    - apply elem_of_app. by left.
    - apply (bool_decide_unpack _). vm_compute. exact I.
    - apply (bool_decide_unpack _). vm_compute. exact I. }
  assert (∀ k, is_Some ((<[CleanOptions.name e :=
                             if String.eqb (CleanOptions.type e) "checkbox"
                             then CleanOptions.VBool (CleanOptions.checked e)
                             else CleanOptions.VStr (CleanOptions.value e)]> o) !! k) →
            k ∈ switches ++ ["missing_method"; "outlier_method"; "scaling_method"])
    as Hdom'.
  { intros k Hk. destruct (decide (CleanOptions.name e = k)) as [<-|Hne]; [done|].
    rewrite lookup_insert_ne in Hk by done. by apply Hdom. }
  destruct (fromForm_cases e Hform) as [(Hty & Hn)|[(Hty & Hn & Hv)|(Hty & Hn & Hv)]].
  - rewrite Hty in *. simpl in *.
    refine (conj _ (conj _ (conj _ (conj _ (conj _ (conj _ (conj _ (conj _ Hdom'))))))));
      try (apply holdsSwitch_insert; [done|]; eauto; fail);
      (apply holdsChoice_insert; [done|]);
      intros Hn'; exfalso; rewrite Hn' in Hn; revert Hn;
      apply (bool_decide_unpack _); vm_compute; exact I.
  - apply String.eqb_neq in Hty. rewrite Hty, Hn in *.
    refine (conj _ (conj _ (conj _ (conj _ (conj _ (conj _ (conj _ (conj _ Hdom'))))))));
      try (apply holdsSwitch_insert; [done|]; intros [=]; fail);
      (apply holdsChoice_insert; [done|]); try (intros [=]; fail).
    intros _. eauto.
  - apply String.eqb_neq in Hty. rewrite Hty, Hn in *.
    refine (conj _ (conj _ (conj _ (conj _ (conj _ (conj _ (conj _ (conj _ Hdom'))))))));
      try (apply holdsSwitch_insert; [done|]; intros [=]; fail);
      (apply holdsChoice_insert; [done|]); try (intros [=]; fail).
    intros _. eauto.
Qed.

Lemma wellFormed_edited edits :
  Forall (λ e, fromForm e = true) edits → wellFormed (edited edits).
Proof.
  unfold edited. generalize wellFormed_initial.
  generalize CleanOptions.initialOptions as o.
  induction edits as [|e edits IH]; intros o Ho Hall; simpl; [done|].
  inversion Hall as [|? ? He Hrest]; subst.
  apply IH; [|done]. by apply wellFormed_edit.
Qed.

Lemma sentWhenOn_missing o :
  holdsSwitch o "handle_missing" →
  sentWhenOn o (CleanOptions.optionsToSend o) "handle_missing" "missing_method".
Proof.
  intros [b Hb]. unfold sentWhenOn, CleanOptions.optionsToSend. rewrite Hb. simpl.
  destruct b; simpl; [left|right]; (split; [done|]);
    repeat match goal with
           | |- context [if ?c then _ else _] => destruct c
           end;
    rewrite ?lookup_delete_ne by done; try done; apply lookup_delete_eq.
Qed.

Lemma sentWhenOn_outliers o :
  holdsSwitch o "handle_outliers" →
  sentWhenOn o (CleanOptions.optionsToSend o) "handle_outliers" "outlier_method".
Proof.
  intros [b Hb]. unfold sentWhenOn, CleanOptions.optionsToSend. rewrite Hb. simpl.
  destruct b; simpl; [left|right]; (split; [done|]);
    repeat match goal with
           | |- context [if ?c then _ else _] => destruct c
           end;
    rewrite ?lookup_delete_ne by done; try done; apply lookup_delete_eq.
Qed.

Lemma sentWhenOn_scaling o :
  holdsSwitch o "feature_scaling" →
  sentWhenOn o (CleanOptions.optionsToSend o) "feature_scaling" "scaling_method".
Proof.
  intros [b Hb]. unfold sentWhenOn, CleanOptions.optionsToSend. rewrite Hb. simpl.
  destruct b; simpl; [left|right]; (split; [done|]);
    repeat match goal with
           | |- context [if ?c then _ else _] => destruct c
           end;
    rewrite ?lookup_delete_ne by done; try done; apply lookup_delete_eq.
Qed.

Lemma optionsToSend_other o k :
  k ≠ "missing_method" → k ≠ "outlier_method" → k ≠ "scaling_method" →
  CleanOptions.optionsToSend o !! k = o !! k.
Proof.
  intros. unfold CleanOptions.optionsToSend.
  repeat match goal with
         | |- context [if ?c then _ else _] => destruct c
         end;
    by rewrite ?lookup_delete_ne by done.
Qed.

(** X15.  The body of the cleaning request, however the options form was
    used before.  The five switches are always sent, as booleans; each
    method is sent exactly when its switch is on, and is then the choice
    the form last made for it (one of the listed values), also when the
    choice was made before the switch was turned off and on again; nothing
    else is sent. *)
Theorem cleaning_request_body edits :
  Forall (λ e, fromForm e = true) edits →
  let options := edited edits in
  let body := CleanOptions.optionsToSend options in
  (∀ k, k ∈ switches → holdsSwitch body k ∧ body !! k = options !! k)
  ∧ sentWhenOn options body "handle_missing" "missing_method"
  ∧ sentWhenOn options body "handle_outliers" "outlier_method"
  ∧ sentWhenOn options body "feature_scaling" "scaling_method"
  ∧ holdsChoice options "missing_method" missingMethods
  ∧ holdsChoice options "outlier_method" ["iqr"]
  ∧ holdsChoice options "scaling_method" scalingMethods
  ∧ (∀ k, is_Some (body !! k) →
       k ∈ switches ++ ["missing_method"; "outlier_method"; "scaling_method"]).
Proof.
  intros Hall options body. subst body.
  pose proof (wellFormed_edited edits Hall) as Hwf. fold options in Hwf.
  destruct Hwf as (H1 & H2 & H3 & H4 & H5 & H6 & H7 & H8 & Hdom).
  split.
  { intros k Hk.
    assert (CleanOptions.optionsToSend options !! k = options !! k) as Heq.
    { apply optionsToSend_other; intros ->; revert Hk;
        apply (bool_decide_unpack _); vm_compute; exact I. }
    split; [|exact Heq]. unfold holdsSwitch. rewrite Heq.
    unfold switches in Hk.
    repeat (apply elem_of_cons in Hk as [->|Hk]; [done|]).
    by apply elem_of_nil in Hk. }
  split; [by apply sentWhenOn_missing|].
  split; [by apply sentWhenOn_outliers|].
  split; [by apply sentWhenOn_scaling|].
  split; [done|]. split; [done|]. split; [done|].
  intros k [v Hk]. apply Hdom. exists v. revert Hk.
  unfold CleanOptions.optionsToSend.
  repeat match goal with
         | |- context [if ?c then _ else _] => destruct c
         end;
    intros Hk;
    repeat match type of Hk with
           | delete _ _ !! _ = Some _ => apply lookup_delete_Some in Hk as [_ Hk]
           end; done.
Qed.

End CleaningOptions.

Section CleaningOptionsWitnesses.

Lemma cleaning_request_body_witness :
  let edits := [CleanOptions.mkTarget "handle_missing" "on" "checkbox" true;
                CleanOptions.mkTarget "missing_method" "median" "select-one" false;
                CleanOptions.mkTarget "handle_missing" "on" "checkbox" false;
                CleanOptions.mkTarget "handle_missing" "on" "checkbox" true] in
  sentWhenOn (edited edits) (CleanOptions.optionsToSend (edited edits))
    "handle_missing" "missing_method"
  ∧ sentWhenOn (edited edits) (CleanOptions.optionsToSend (edited edits))
      "feature_scaling" "scaling_method".
Proof.
  intros edits.
  destruct (cleaning_request_body edits) as (_ & Hm & _ & Hs & _).
  - repeat constructor.
  - split; assumption.
Defined.

End CleaningOptionsWitnesses.

(** ** The step indicator *)

Section Steps.

Lemma statuses_upcoming n c steps i :
  (c < i)%Z →
  statuses (StepIndicator.mapFrom (StepIndicator.item n c) i steps)
  = replicate (length steps) StepIndicator.upcomingStep.
Proof.
  revert i. induction steps as [|s steps IH]; intros i Hlt; [reflexivity|].
  cbn [StepIndicator.mapFrom statuses fmap list_fmap length replicate].
  unfold statuses in IH. rewrite (IH (i + 1)%Z) by lia.
  unfold StepIndicator.item. cbn [StepIndicator.statusClass].
  destruct (Z.ltb_spec i c); [lia|]. destruct (Z.eqb_spec i c); [lia|]. reflexivity.
Qed.

Lemma statuses_progress n c steps i k :
  c = (i + Z.of_nat k)%Z → k < length steps →
  statuses (StepIndicator.mapFrom (StepIndicator.item n c) i steps)
  = progressTo k (length steps).
Proof.
  revert i k. induction steps as [|s steps IH]; intros i k Hc Hk; simpl in Hk; [lia|].
  cbn [StepIndicator.mapFrom statuses fmap list_fmap length].
  destruct k as [|k].
  - pose proof (statuses_upcoming n c steps (i + 1)%Z ltac:(lia)) as Hup.
    unfold statuses in Hup. rewrite Hup. unfold progressTo. simpl.
    rewrite Nat.sub_0_r. unfold StepIndicator.item. cbn [StepIndicator.statusClass].
    destruct (Z.eqb_spec i c); [|lia]. by destruct (i <? c)%Z.
  - pose proof (IH (i + 1)%Z k ltac:(lia) ltac:(lia)) as Hrest.
    unfold statuses in Hrest. rewrite Hrest. unfold progressTo. simpl.
    unfold StepIndicator.item. cbn [StepIndicator.statusClass].
    destruct (Z.ltb_spec i c); [|lia]. destruct (Z.eqb_spec i c); [lia|]. reflexivity.
Qed.

Lemma indexOf_from_missing i x steps :
  x ∉ steps → StepIndicator.indexOf_from i x steps = (-1)%Z.
Proof.
  revert i. induction steps as [|s steps IH]; intros i Hx; [reflexivity|]. simpl.
  destruct (String.eqb_spec s x) as [->|Hne].
  - exfalso. apply Hx. apply elem_of_cons. by left.
  - apply IH. intros Hin. apply Hx. apply elem_of_cons. by right.
Qed.

Lemma indexOf_from_first i x steps k :
  steps !! k = Some x → (∀ j, j < k → steps !! j ≠ Some x) →
  StepIndicator.indexOf_from i x steps = (i + Z.of_nat k)%Z.
Proof.
  revert i k. induction steps as [|s steps IH]; intros i k Hk Hfirst; [done|]. simpl.
  destruct k as [|k].
  - simpl in Hk. injection Hk as ->. rewrite String.eqb_refl. lia.
  - destruct (String.eqb_spec s x) as [->|Hne].
    + exfalso. by apply (Hfirst 0 ltac:(lia)).
    + rewrite (IH (i + 1)%Z k); [lia|exact Hk|].
      intros j Hj. apply (Hfirst (S j)). lia.
Qed.

Lemma labels_mapFrom n c steps i :
  StepIndicator.label <$> StepIndicator.mapFrom (StepIndicator.item n c) i steps = steps.
Proof.
  revert i. induction steps as [|s steps IH]; intros i; [reflexivity|].
  simpl. by rewrite IH.
Qed.

(** X16.  The shape of the step indicator.  Whatever the list of steps, the
    indicator shows the steps in order; when the current step is one of
    them, the steps before its first occurrence are completed, that step
    alone is active and every later step is upcoming; when it is none of
    them, every step is upcoming and none is active.  With the combined
    step list, every step name the pages and the step map use has a step;
    with the seven separate steps, the name [Analyze & Clean] that the
    Analyze and Clean pages pass has none and no step is shown active. *)
Theorem step_indicator_shape steps visualStep :
  let items := StepIndicator.render steps visualStep in
  StepIndicator.label <$> items = steps
  ∧ (visualStep ∉ steps →
     statuses items = replicate (length steps) StepIndicator.upcomingStep)
  ∧ (∀ k, steps !! k = Some visualStep →
          (∀ j, j < k → steps !! j ≠ Some visualStep) →
          statuses items = progressTo k (length steps))
  ∧ (∀ currentStep, currentStep ∈ stepNames →
       StepIndicator.activeStep
         ∈ statuses (StepIndicator.Combined.StepIndicator currentStep))
  ∧ statuses (StepIndicator.Separate.StepIndicator "Analyze & Clean")
    = replicate 7 StepIndicator.upcomingStep.
Proof.
  intros items. subst items. unfold StepIndicator.render.
  split; [apply labels_mapFrom|]. split; [|split; [|split]].
  - intros Hx. unfold StepIndicator.indexOf. rewrite indexOf_from_missing by done.
    apply statuses_upcoming. lia.
  - intros k Hk Hfirst. unfold StepIndicator.indexOf.
    rewrite (indexOf_from_first 0 visualStep steps k Hk Hfirst).
    apply statuses_progress; [done|]. by apply lookup_lt_Some in Hk.
  - intros currentStep Hin. unfold stepNames in Hin.
    repeat (apply elem_of_cons in Hin as [->|Hin];
            [vm_compute; repeat constructor|]).
    by apply elem_of_nil in Hin.
  - reflexivity.
Qed.

End Steps.

(** ** The snapshot fetch of the three pages *)

Section Snapshot.



End Snapshot.

(** ** Data events and the status *)

Section DataEvents.

(** X18.  Log, metric and progress events are kept apart from the status.
    On the Train page none of the three handlers changes the status, the
    notifications or whether the page is subscribed; a log event leaves
    chart, latest metric and progress alone, metric and progress events
    leave the log alone, a progress event leaves the chart alone, and a log
    event may arrive before or after a metric or progress event with the
    same result.  On the Analyze and Clean pages a log event changes
    neither the status nor the subscription.  A socket error shows at most
    one notification and changes neither status, log nor subscription. *)
Theorem data_events_keep_status :
  (∀ (pg : Train.Page) now1 now2 log closure metric prog,
     let pl := (Train.onLog now1 log pg).2 in
     let pm := (Train.onMetric now2 closure metric pg).2 in
     let pp := (Train.onProgress now2 prog pg).2 in
     (Train.runStatus pl = Train.runStatus pg ∧ Train.toasts pl = Train.toasts pg
      ∧ Train.subscribed pl = Train.subscribed pg)
     ∧ (Train.runStatus pm = Train.runStatus pg ∧ Train.toasts pm = Train.toasts pg
        ∧ Train.subscribed pm = Train.subscribed pg)
     ∧ (Train.runStatus pp = Train.runStatus pg ∧ Train.toasts pp = Train.toasts pg
        ∧ Train.subscribed pp = Train.subscribed pg)
     ∧ (Train.metricData pl = Train.metricData pg ∧ Train.metrics pl = Train.metrics pg
        ∧ Train.progress pl = Train.progress pg)
     ∧ Train.logs pm = Train.logs pg
     ∧ (Train.logs pp = Train.logs pg ∧ Train.metricData pp = Train.metricData pg)
     ∧ (Train.onMetric now2 closure metric pl).2 = (Train.onLog now1 log pm).2
     ∧ (Train.onProgress now2 prog pl).2 = (Train.onLog now1 log pp).2)
  ∧ (∀ (pg : Analyze.Page) now log,
       let pl := (Analyze.handleLog now log pg).2 in
       Analyze.runStatus pl = Analyze.runStatus pg
       ∧ Analyze.shouldConnect pl = Analyze.shouldConnect pg)
  ∧ (∀ (pg : Clean.Page) now log,
       let pl := (Clean.onLog now log pg).2 in
       Clean.status pl = Clean.status pg
       ∧ Clean.subscribed pl = Clean.subscribed pg)
  ∧ (∀ (pg : Train.Page) msg,
       let pe := TrainChannel.onError msg pg in
       Train.runStatus pe = Train.runStatus pg ∧ Train.logs pe = Train.logs pg
       ∧ Train.subscribed pe = Train.subscribed pg
       ∧ length (Train.toasts pe) ≤ S (length (Train.toasts pg)))
  ∧ (∀ (pg : Analyze.Page) msg,
       let pe := AnalyzeChannel.handleError msg pg in
       Analyze.runStatus pe = Analyze.runStatus pg ∧ Analyze.logs pe = Analyze.logs pg
       ∧ Analyze.shouldConnect pe = Analyze.shouldConnect pg
       ∧ length (Analyze.toasts pe) ≤ S (length (Analyze.toasts pg))).
Proof.
  split; [|split; [|split; [|split]]].
  - intros pg now1 now2 log closure metric prog pl pm pp. subst pl pm pp.
    unfold Train.onLog, Train.onMetric, Train.onProgress, Train.subscribed.
    destruct (Train.isMountedRef pg) eqn:Hm; simpl; rewrite ?Hm; simpl;
      [|by repeat split].
    destruct (Js.truthy (Train.taskType pg)) eqn:Ht; simpl; rewrite ?Hm, ?Ht; simpl;
      by repeat split.
  - intros pg now log pl. subst pl. unfold Analyze.handleLog, Analyze.shouldConnect.
    destruct (Analyze.isMountedRef pg); simpl; [|done].
    destruct (Log.data _); [|done].
    by destruct (Log.type_is "analysis_result" _).
  - intros pg now log pl. subst pl. unfold Clean.onLog, Clean.subscribed.
    destruct (Clean.isMountedRef pg); simpl; [|done].
    destruct (Log.data _) as [d|]; [|done].
    destruct (Log.type_is "cleaning_report" _).
    + unfold Clean.storeReport. by destruct (preview_cleaned_data d).
    + by destruct (Log.type_is "analysis_result" _ && Log.key_is "preview_cleaned_data" _).
  - intros pg msg pe. subst pe. unfold TrainChannel.onError, Train.subscribed.
    destruct (Train.isMountedRef pg); simpl; [|repeat split; lia].
    repeat split. rewrite length_app. simpl. lia.
  - intros pg msg pe. subst pe. unfold AnalyzeChannel.handleError, Analyze.shouldConnect.
    destruct (Analyze.isMountedRef pg); simpl; [|repeat split; lia].
    repeat split. rewrite length_app. simpl. lia.
Qed.

End DataEvents.

(** ** The route guards *)

Section Routes.

Variable jwtDecode : string → bool.

(** X19.  The two route guards follow the session.  For every store they
    show the loading screen together, and otherwise exactly one of them
    renders its children while the other redirects: the protected pages
    with [/login] as the way out, the public pages with [/dashboard].
    While the reply of [/auth/me] is awaited after [login], both show the
    loading screen; after [logout] the public pages are rendered and the
    protected ones redirect to [/login]. *)
Theorem guards_follow_session :
  (∀ st,
     (Auth.ProtectedRoute st = Auth.LoadingScreen
      ∧ Auth.PublicRoute st = Auth.LoadingScreen
      ∧ Auth.isLoading st = true)
     ∨ (Auth.ProtectedRoute st = Auth.Children
        ∧ Auth.PublicRoute st = Auth.Navigate "/dashboard"
        ∧ Auth.isAuthenticated st = true)
     ∨ (Auth.ProtectedRoute st = Auth.Navigate "/login"
        ∧ Auth.PublicRoute st = Auth.Children
        ∧ Auth.isAuthenticated st = false))
  ∧ (∀ w token,
       jwtDecode token = true →
       Auth.ProtectedRoute (Auth.store (Auth.login jwtDecode token w)) = Auth.LoadingScreen
       ∧ Auth.PublicRoute (Auth.store (Auth.login jwtDecode token w)) = Auth.LoadingScreen)
  ∧ (∀ w,
       Auth.ProtectedRoute (Auth.store (Auth.logout w)) = Auth.Navigate "/login"
       ∧ Auth.PublicRoute (Auth.store (Auth.logout w)) = Auth.Children).
Proof.
  split; [|split].
  - intros st. unfold Auth.ProtectedRoute, Auth.PublicRoute.
    destruct (Auth.isLoading st); [by left|].
    destruct (Auth.isAuthenticated st); right; [by left|by right].
  - intros w token Hdec. unfold Auth.login. by rewrite Hdec.
  - done.
Qed.

End Routes.

(** ** The socket effect, its cleanup and the unmount *)

Section Effects.

Lemma getSocket2_socket (w : SocketV2.World) :
  (SocketV2.getSocket (SocketV2.getSocket w).2).1 = (SocketV2.getSocket w).1.
Proof.
  unfold SocketV2.getSocket.
  destruct (SocketV2.socket w) eqn:Hs; simpl; by rewrite ?Hs.
Qed.

Lemma sent1_leave runId (c : Lifecycle.Wire SocketV1.World) :
  sent Lifecycle.wrapper1 (Lifecycle.leaveTrainingRoom Lifecycle.wrapper1 runId c)
  = sent Lifecycle.wrapper1 c ++ [leave_request runId (online Lifecycle.wrapper1 c)].
Proof. reflexivity. Qed.

Lemma sent2_leave runId (c : Lifecycle.Wire SocketV2.World) :
  sent Lifecycle.wrapper2 (Lifecycle.leaveTrainingRoom Lifecycle.wrapper2 runId c)
  = sent Lifecycle.wrapper2 c
    ++ (if online Lifecycle.wrapper2 c then [leave_request runId true] else [])
  ∧ online Lifecycle.wrapper2 (Lifecycle.leaveTrainingRoom Lifecycle.wrapper2 runId c)
    = online Lifecycle.wrapper2 c
  ∧ listening Lifecycle.wrapper2 (Lifecycle.leaveTrainingRoom Lifecycle.wrapper2 runId c)
    = listening Lifecycle.wrapper2 c.
Proof.
  unfold sent, online, listening. simpl. unfold SocketV2.leaveTrainingRoom.
  pose proof (getSocket2_socket (Lifecycle.world c)) as Hget.
  destruct (SocketV2.getSocket (Lifecycle.world c)) as [s w] eqn:Hg. simpl in *.
  destruct (Socket.connected s) eqn:Hc.
  - simpl. rewrite Hc. by rewrite app_nil_r || done.
  - rewrite Hget, Hc. by rewrite app_nil_r.
Qed.

(** X20.  A change of status makes a page leave its room and nothing makes
    it join again.  When React runs the socket effect again on a connected
    socket, the cleanup of the previous run emits [leave_room] and the new
    run emits nothing and calls [connect] no more, with either wrapper; the
    room is joined only from the [connect] handler.  So for a subscribed
    Analyze page that has joined its room, the first StatusUpdate that
    changes the status leaves [join_room], [leave_room] as the requests
    sent. *)
Theorem status_change_leaves_room runId :
  (∀ before after (c : Lifecycle.Wire SocketV1.World),
     let c' := Lifecycle.rerun Lifecycle.wrapper1 runId before after c in
     sent Lifecycle.wrapper1 c'
     = sent Lifecycle.wrapper1 c
       ++ (if before && online Lifecycle.wrapper1 c
           then [leave_request runId true] else [])
     ∧ online Lifecycle.wrapper1 c' = online Lifecycle.wrapper1 c
     ∧ Lifecycle.connectCalls c'
       = Lifecycle.connectCalls c
         + (if after && negb (online Lifecycle.wrapper1 c) then 1 else 0))
  ∧ (∀ before after (c : Lifecycle.Wire SocketV2.World),
       let c' := Lifecycle.rerun Lifecycle.wrapper2 runId before after c in
       sent Lifecycle.wrapper2 c'
       = sent Lifecycle.wrapper2 c
         ++ (if before && online Lifecycle.wrapper2 c
             then [leave_request runId true] else [])
       ∧ online Lifecycle.wrapper2 c' = online Lifecycle.wrapper2 c
       ∧ Lifecycle.connectCalls c'
         = Lifecycle.connectCalls c
           + (if after && negb (online Lifecycle.wrapper2 c) then 1 else 0))
  ∧ (∀ (pg : Analyze.Page) u token,
       Analyze.shouldConnect pg = true → Analyze.isMountedRef pg = true →
       Js.includes analyze_final (Analyze.runStatus pg) = false →
       StatusUpdate.status u ≠ Analyze.runStatus pg → token ≠ "" →
       let joined1 := (AnalyzeChannel.handleConnect
                         (Lifecycle.joinTrainingRoom Lifecycle.wrapper1) runId
                         (connected1 token) pg).1 in
       let joined2 := (AnalyzeChannel.handleConnect
                         (Lifecycle.joinTrainingRoom Lifecycle.wrapper2) runId
                         (connected2 token) pg).1 in
       sent Lifecycle.wrapper1
         (analyzeStatusUpdate Lifecycle.wrapper1 runId u (pg, joined1)).2
       = [join_request runId token false true; leave_request runId true]
       ∧ sent Lifecycle.wrapper2
           (analyzeStatusUpdate Lifecycle.wrapper2 runId u (pg, joined2)).2
         = [join_request runId token true true; leave_request runId true]).
Proof.
  split; [|split].
  - intros before after c c'. subst c'. unfold Lifecycle.rerun, Lifecycle.effectCleanup,
      Lifecycle.effectBody, sent, online. simpl.
    destruct before, after, (Socket.connected (SocketV1.socket (Lifecycle.world c))) eqn:Hc;
      simpl; unfold Lifecycle.connectSocket1, leave_request; simpl; rewrite ?Hc; simpl;
      rewrite ?Hc, ?app_nil_r; repeat split; try done; lia.
  - intros before after c c'. subst c'.
    assert (∀ c0 : Lifecycle.Wire SocketV2.World,
              sent Lifecycle.wrapper2 (Lifecycle.connectSocket2 c0)
              = sent Lifecycle.wrapper2 c0
              ∧ online Lifecycle.wrapper2 (Lifecycle.connectSocket2 c0)
                = online Lifecycle.wrapper2 c0
              ∧ Lifecycle.connectCalls (Lifecycle.connectSocket2 c0)
                = Lifecycle.connectCalls c0
                  + (if negb (online Lifecycle.wrapper2 c0) then 1 else 0)) as Hconn.
    { intros c0. unfold sent, online, Lifecycle.connectSocket2. simpl.
      pose proof (getSocket2_socket (Lifecycle.world c0)) as Hget.
      destruct (SocketV2.getSocket (Lifecycle.world c0)) as [s w]. simpl in *.
      destruct (Socket.connected s) eqn:Hc; simpl; rewrite Hget, ?Hc; simpl;
        repeat split; try done; lia. }
    unfold Lifecycle.rerun, Lifecycle.effectCleanup, Lifecycle.effectBody.
    fold (online Lifecycle.wrapper2 c).
    cbn [Lifecycle.connectSocket Lifecycle.wrapper2].
    destruct (sent2_leave runId c) as (Hs & Ho & _).
    assert (Lifecycle.connectCalls
              (Lifecycle.leaveTrainingRoom Lifecycle.wrapper2 runId c)
            = Lifecycle.connectCalls c) as Hn by reflexivity.
    set (c1 := if before
               then if online Lifecycle.wrapper2 c
                    then Lifecycle.leaveTrainingRoom Lifecycle.wrapper2 runId c
                    else c
               else c).
    assert (sent Lifecycle.wrapper2 c1
            = sent Lifecycle.wrapper2 c
              ++ (if before && online Lifecycle.wrapper2 c
                  then [leave_request runId true] else [])
            ∧ online Lifecycle.wrapper2 c1 = online Lifecycle.wrapper2 c
            ∧ Lifecycle.connectCalls c1 = Lifecycle.connectCalls c) as (H1 & H2 & H3).
    { subst c1. destruct before; cbn [andb]; [|by rewrite app_nil_r].
      destruct (online Lifecycle.wrapper2 c) eqn:Hc; [|by rewrite app_nil_r].
      by rewrite Hs, ?Ho, ?Hn, ?Hc. }
    clearbody c1. destruct after; cbn [andb].
    + destruct (Hconn c1) as (-> & -> & ->). by rewrite H1, H2, H3.
    + rewrite H1, H2, H3. repeat split; lia.
  - intros pg u token Hsub Hm Hnf Hne Htok joined1 joined2. subst joined1 joined2.
    unfold AnalyzeChannel.handleConnect. rewrite Hm. simpl.
    assert (Analyze.runStatus (Analyze.deliverStatusUpdate pg u) = StatusUpdate.status u)
      as Hst.
    { unfold Analyze.deliverStatusUpdate, Analyze.handleStatusUpdate.
      rewrite Hsub, Hm. simpl. unfold analyze_final in Hnf. by rewrite Hnf. }
    unfold analyzeStatusUpdate. cbn [fst snd]. rewrite Hst.
    destruct (String.eqb_spec (StatusUpdate.status u) (Analyze.runStatus pg)); [done|].
    rewrite Hsub.
    assert (Js.truthy (Some token) = true) as Htruthy.
    { unfold Js.truthy. by destruct (String.eqb_spec token ""). }
    split.
    + unfold Lifecycle.rerun, Lifecycle.effectCleanup, Lifecycle.effectBody, sent.
      simpl. unfold SocketV1.joinTrainingRoom. simpl.
      rewrite lookup_singleton_eq. unfold noToken. rewrite Htruthy. simpl.
      unfold Lifecycle.connectSocket1.
      destruct (Analyze.shouldConnect (Analyze.deliverStatusUpdate pg u)); reflexivity.
    + unfold Lifecycle.rerun, Lifecycle.effectCleanup, Lifecycle.effectBody, sent.
      simpl. unfold SocketV2.joinTrainingRoom. simpl.
      rewrite lookup_singleton_eq. unfold noToken. rewrite Htruthy. simpl.
      unfold Lifecycle.connectSocket2.
      destruct (Analyze.shouldConnect (Analyze.deliverStatusUpdate pg u)); reflexivity.
Qed.

(** X21.  Unmounting a page.  The cleanups of the fetch effect and of the
    socket effect together emit [leave_room] once and leave the socket
    disconnected, whether or not the page was subscribed: with the second
    wrapper only if the socket was connected, with the first wrapper also
    on a socket that was not.  Neither calls [connect]. *)
Theorem unmount_leaves_once runId subscribed :
  (∀ c : Lifecycle.Wire SocketV1.World,
     let c' := Lifecycle.unmount Lifecycle.wrapper1 runId subscribed c in
     sent Lifecycle.wrapper1 c'
     = sent Lifecycle.wrapper1 c ++ [leave_request runId (online Lifecycle.wrapper1 c)]
     ∧ online Lifecycle.wrapper1 c' = false
     ∧ Lifecycle.connectCalls c' = Lifecycle.connectCalls c)
  ∧ (∀ c : Lifecycle.Wire SocketV2.World,
       let c' := Lifecycle.unmount Lifecycle.wrapper2 runId subscribed c in
       sent Lifecycle.wrapper2 c'
       = sent Lifecycle.wrapper2 c
         ++ (if online Lifecycle.wrapper2 c then [leave_request runId true] else [])
       ∧ online Lifecycle.wrapper2 c' = false
       ∧ Lifecycle.connectCalls c' = Lifecycle.connectCalls c).
Proof.
  split.
  - intros c c'. subst c'.
    unfold Lifecycle.unmount, Lifecycle.unmountCleanup, Lifecycle.effectCleanup,
      sent, online. simpl. unfold Lifecycle.disconnectSocket1. simpl.
    destruct (Socket.connected (SocketV1.socket (Lifecycle.world c))) eqn:Hc; simpl;
      destruct subscribed; cbn; rewrite ?Hc; cbn; unfold leave_request; rewrite ?Hc; done.
  - intros c c'. subst c'.
    assert (∀ c0 : Lifecycle.Wire SocketV2.World,
              sent Lifecycle.wrapper2 (Lifecycle.disconnectSocket2 c0)
              = sent Lifecycle.wrapper2 c0
              ∧ online Lifecycle.wrapper2 (Lifecycle.disconnectSocket2 c0) = false
              ∧ Lifecycle.connectCalls (Lifecycle.disconnectSocket2 c0)
                = Lifecycle.connectCalls c0) as Hdis.
    { intros c0. unfold sent, online, Lifecycle.disconnectSocket2. simpl.
      pose proof (getSocket2_socket (Lifecycle.world c0)) as Hget.
      destruct (SocketV2.getSocket (Lifecycle.world c0)) as [s w]. simpl in *.
      destruct (Socket.connected s) eqn:Hc; simpl; [done|]. by rewrite Hget. }
    unfold Lifecycle.unmount, Lifecycle.unmountCleanup, Lifecycle.effectCleanup.
    cbn [Lifecycle.disconnectSocket Lifecycle.wrapper2].
    destruct (Hdis (Lifecycle.leaveTrainingRoom Lifecycle.wrapper2 runId c))
      as (Hs & Ho & Hn).
    destruct (sent2_leave runId c) as (Hs' & _ & _).
    fold (online Lifecycle.wrapper2
            (Lifecycle.disconnectSocket2
               (Lifecycle.leaveTrainingRoom Lifecycle.wrapper2 runId c))).
    rewrite Ho. destruct subscribed; rewrite Hs, Hs', Ho, Hn; done.
Qed.

Lemma listening2_onSocket f (c : Lifecycle.Wire SocketV2.World) :
  Lifecycle.socket Lifecycle.wrapper2 (Lifecycle.onSocket Lifecycle.wrapper2 f c)
  = f (Lifecycle.socket Lifecycle.wrapper2 c).
Proof.
  cbn [Lifecycle.socket Lifecycle.onSocket Lifecycle.wrapper2 Lifecycle.world].
  unfold Lifecycle.onSocket2, SocketV2.getSocket.
  by destruct (SocketV2.socket (Lifecycle.world c)).
Qed.

Lemma elem_of_offAll ev s l :
  l ∈ Socket.listeners (Lifecycle.offAll ev s) ↔ l ∈ Socket.listeners s ∧ l.1 ≠ ev.
Proof.
  unfold Lifecycle.offAll. cbn [Socket.listeners].
  rewrite list_elem_of_filter. tauto.
Qed.

(** X22.  The cleanup of the Clean page's socket effect removes every
    listener of [error] and of [disconnect] from the shared socket, not
    only the page's own: with either wrapper the listeners left are those
    registered for other events, so the [disconnect] listener the second
    wrapper installs with the socket is gone after the first cleanup.  The
    cleanup of the Analyze and Train pages leaves the wrapper's listeners
    as they are. *)
Theorem clean_cleanup_drops_shared_listeners runId :
  (∀ (c : Lifecycle.Wire SocketV1.World) l,
     l ∈ listening Lifecycle.wrapper1
           (Lifecycle.effectCleanupClean Lifecycle.wrapper1 runId c)
     ↔ l ∈ listening Lifecycle.wrapper1 c ∧ l.1 ≠ "error" ∧ l.1 ≠ "disconnect")
  ∧ (∀ (c : Lifecycle.Wire SocketV2.World) l,
       l ∈ listening Lifecycle.wrapper2
             (Lifecycle.effectCleanupClean Lifecycle.wrapper2 runId c)
       ↔ l ∈ listening Lifecycle.wrapper2 c ∧ l.1 ≠ "error" ∧ l.1 ≠ "disconnect")
  ∧ (∀ connectCalls connecting ls,
       let c := Lifecycle.mkWire (SocketV2.mkWorld ls None) connectCalls connecting in
       ("disconnect", Socket.logDisconnect) ∈ listening Lifecycle.wrapper2 c
       ∧ ("disconnect", Socket.logDisconnect)
           ∉ listening Lifecycle.wrapper2
               (Lifecycle.effectCleanupClean Lifecycle.wrapper2 runId c))
  ∧ (∀ c : Lifecycle.Wire SocketV1.World,
       listening Lifecycle.wrapper1 (Lifecycle.effectCleanup Lifecycle.wrapper1 runId c)
       = listening Lifecycle.wrapper1 c)
  ∧ (∀ c : Lifecycle.Wire SocketV2.World,
       listening Lifecycle.wrapper2 (Lifecycle.effectCleanup Lifecycle.wrapper2 runId c)
       = listening Lifecycle.wrapper2 c).
Proof.
  assert (∀ c : Lifecycle.Wire SocketV1.World,
            listening Lifecycle.wrapper1
              (Lifecycle.effectCleanup Lifecycle.wrapper1 runId c)
            = listening Lifecycle.wrapper1 c) as Hkeep1.
  { intros c. unfold listening, Lifecycle.effectCleanup.
    by destruct (Socket.connected (Lifecycle.socket Lifecycle.wrapper1 c)). }
  assert (∀ c : Lifecycle.Wire SocketV2.World,
            listening Lifecycle.wrapper2
              (Lifecycle.effectCleanup Lifecycle.wrapper2 runId c)
            = listening Lifecycle.wrapper2 c) as Hkeep2.
  { intros c. unfold Lifecycle.effectCleanup.
    destruct (Socket.connected (Lifecycle.socket Lifecycle.wrapper2 c)); [|done].
    by destruct (sent2_leave runId c) as (_ & _ & ->). }
  assert (∀ (c : Lifecycle.Wire SocketV2.World) l,
            l ∈ listening Lifecycle.wrapper2
                  (Lifecycle.effectCleanupClean Lifecycle.wrapper2 runId c)
            ↔ l ∈ listening Lifecycle.wrapper2 c ∧ l.1 ≠ "error" ∧ l.1 ≠ "disconnect")
    as Hdrop2.
  { intros c l. unfold Lifecycle.effectCleanupClean, listening.
    rewrite !listening2_onSocket, !elem_of_offAll.
    fold (listening Lifecycle.wrapper2
            (Lifecycle.effectCleanup Lifecycle.wrapper2 runId c)).
    rewrite Hkeep2. unfold listening. tauto. }
  split; [|split; [exact Hdrop2|split; [|split; [exact Hkeep1|exact Hkeep2]]]].
  - intros c l. unfold Lifecycle.effectCleanupClean, listening.
    cbn [Lifecycle.socket Lifecycle.onSocket Lifecycle.wrapper1 Lifecycle.world
         SocketV1.withSocket SocketV1.socket].
    rewrite !elem_of_offAll.
    pose proof (Hkeep1 c) as Hk. unfold listening in Hk.
    cbn [Lifecycle.socket Lifecycle.wrapper1] in Hk. rewrite Hk. tauto.
  - intros connectCalls connecting ls c. split.
    + subst c. vm_compute. repeat constructor.
    + rewrite Hdrop2. intros (_ & _ & Hne). by apply Hne.
Qed.

End Effects.

Section EffectsWitnesses.

Lemma status_change_leaves_room_witness :
  let pg := analyzeLoaded "t0" (RunDetails.mk (Some "PENDING_ANALYSIS") None None None None None) in
  let joined := (AnalyzeChannel.handleConnect
                   (Lifecycle.joinTrainingRoom Lifecycle.wrapper2) "run-7"
                   (connected2 "jwt-1") pg).1 in
  sent Lifecycle.wrapper2
    (analyzeStatusUpdate Lifecycle.wrapper2 "run-7"
       (StatusUpdate.mk "ANALYZING" None) (pg, joined)).2
  = [join_request "run-7" "jwt-1" true true; leave_request "run-7" true].
Proof.
  intros pg.
  destruct (status_change_leaves_room "run-7") as (_ & _ & Hpage).
  refine (proj2 (Hpage pg (StatusUpdate.mk "ANALYZING" None) "jwt-1" _ _ _ _ _));
    first [reflexivity|discriminate].
Defined.

End EffectsWitnesses.

(** ** What the Train page shows *)

Section TrainPage.

Lemma train_handler_keeps_view u pg :
  TrainView.view (Train.onStatusUpdate u pg).2 = TrainView.view pg.
Proof.
  unfold Train.onStatusUpdate. destruct (Train.isMountedRef pg); [|reflexivity].
  repeat match goal with |- context [if ?c then _ else _] => destruct c end;
    reflexivity.
Qed.

(** X23.  The outcome buttons of the Train page match the notifications of
    its status handler.  For every StatusUpdate the handler is called with
    on a mounted page that shows its main view, the results button is
    rendered afterwards exactly when the handler announced success, the
    back button exactly when it announced a failure or a stop, and neither
    when it announced nothing; the handler leaves the view as it is.  No
    two of the results, back and stop buttons are rendered together, and
    none of them is rendered in the loading view or in the error view.
    The back button is also rendered for [ANALYSIS_FAILED] and
    [CLEANING_FAILED]. *)
Theorem outcome_buttons_match_notifications :
  (∀ (pg : Train.Page) u,
     Train.isMountedRef pg = true → TrainView.view pg = TrainView.MainView →
     let pg' := (Train.onStatusUpdate u pg).2 in
     TrainView.view pg' = TrainView.MainView
     ∧ (TrainView.resultsButton pg' = true
        ↔ notified pg pg' = [toast_success "Training Completed Successfully!"])
     ∧ (TrainView.backButton pg' = true
        ↔ notified pg pg' = [toast_error "Process Failed. Please check the logs."]
          ∨ notified pg pg' = [toast_success "Training stopped."])
     ∧ (TrainView.resultsButton pg' = false ∧ TrainView.backButton pg' = false
        ↔ notified pg pg' = []))
  ∧ (∀ pg : Train.Page,
       (TrainView.resultsButton pg && TrainView.backButton pg = false)
       ∧ (TrainView.resultsButton pg && TrainView.stopButton pg = false)
       ∧ (TrainView.backButton pg && TrainView.stopButton pg = false))
  ∧ (∀ pg : Train.Page,
       TrainView.view pg ≠ TrainView.MainView →
       TrainView.resultsButton pg = false ∧ TrainView.backButton pg = false
       ∧ TrainView.stopButton pg = false)
  ∧ (∀ (pg : Train.Page) s,
       TrainView.view pg = TrainView.MainView →
       s = "ANALYSIS_FAILED" ∨ s = "CLEANING_FAILED" →
       TrainView.backButton (Train.setRunStatus s pg) = true).
Proof.
  split; [|split; [|split]].
  - intros pg u Hm Hv pg'. subst pg'.
    pose proof (train_handler_keeps_view u pg) as Hv'. rewrite Hv in Hv'.
    split; [exact Hv'|].
    unfold TrainView.resultsButton, TrainView.backButton, TrainView.inMainView.
    rewrite Hv'. clear Hv Hv'.
    unfold Train.onStatusUpdate, notified.
    rewrite Hm. simpl.
    generalize (StatusUpdate.status u) as s. intros s.
    repeat match goal with
           | |- context [String.eqb s ?c] =>
               destruct (String.eqb_spec s c) as [->|?]; simpl
           end;
      rewrite ?drop_app_length, ?drop_all; simpl;
      (split; [|split]); split; try done; try (intros [?|?]; done);
      try (intros [? ?]; done); try (by left); try (by right).
  - intros pg. unfold TrainView.resultsButton, TrainView.backButton, TrainView.stopButton.
    destruct (TrainView.inMainView pg); [|done]. simpl.
    generalize (Train.runStatus pg) as s. intros s.
    repeat match goal with
           | |- context [String.eqb s ?c] =>
               destruct (String.eqb_spec s c) as [->|?]; simpl
           end; done.
  - intros pg Hv.
    unfold TrainView.resultsButton, TrainView.backButton, TrainView.stopButton,
      TrainView.inMainView.
    by destruct (TrainView.view pg).
  - intros pg s Hv Hs.
    unfold TrainView.backButton, TrainView.inMainView.
    change (TrainView.view (Train.setRunStatus s pg)) with (TrainView.view pg).
    rewrite Hv. by destruct Hs as [-> | ->].
Qed.


(** X24.  The charts of the Train page plot what their titles say.  After
    the snapshot fetch of a mounted page the titles are [R² Score] and
    [RMSE] exactly when the task type is [regression], and [Accuracy] and
    [Loss] otherwise; a metric event received afterwards is entered under
    its step label with [train_r2], [val_r2], [train_rmse], [val_rmse] in
    the first case and with the accuracy and loss values in the second. *)
Theorem chart_titles_match_series details pg now closure metric :
  Train.isMountedRef pg = true →
  let pg1 := Train.fetchThen details pg in
  let pg2 := (Train.onMetric now closure metric pg1).2 in
  let m := stamped now metric in
  (Train.chartLabels pg1 = ("R² Score", "RMSE")
   ∧ page_isRegression pg1 = true
   ∧ Train.metricData pg2
     = Train.upsert true (Train.stepLabel closure m) m (Train.metricData pg))
  ∨ (Train.chartLabels pg1 = ("Accuracy", "Loss")
     ∧ page_isRegression pg1 = false
     ∧ Train.metricData pg2
       = Train.upsert false (Train.stepLabel closure m) m (Train.metricData pg)).
Proof.
  intros Hm pg1 pg2 m. subst pg1 pg2 m. unfold Train.fetchThen. rewrite Hm. simpl.
  set (ty := if Js.truthy (RunDetails.config_task_type details)
             then default "classification" (RunDetails.config_task_type details)
             else
               if Js.truthy (RunDetails.summary_task_type details)
               then default "classification" (RunDetails.summary_task_type details)
               else
                 match RunDetails.model_id_str details with
                 | Some id =>
                     if Train.contains "regressor" id || Train.contains "regression" id
                     then "regression" else "classification"
                 | None => "classification"
                 end).
  assert (Js.truthy (Some ty) = true) as Hty.
  { subst ty. destruct (Js.truthy (RunDetails.config_task_type details)) eqn:Hc.
    - by destruct (RunDetails.config_task_type details).
    - destruct (Js.truthy (RunDetails.summary_task_type details)) eqn:Hs.
      + by destruct (RunDetails.summary_task_type details).
      + destruct (RunDetails.model_id_str details) as [id|]; [|done].
        by destruct (Train.contains "regressor" id || Train.contains "regression" id). }
  unfold Train.onMetric, page_isRegression, stamped. simpl. rewrite Hm, Hty. simpl.
  destruct (String.eqb ty "regression"); [left|right]; done.
Qed.

End TrainPage.

Section TrainPageWitnesses.

Lemma chart_titles_match_series_witness :
  let details := RunDetails.mk (Some "TRAINING") None None (Some "xgboost_regressor")
                   None None in
  let pg1 := Train.fetchThen details Train.initial in
  Train.chartLabels pg1 = ("R² Score", "RMSE") ∧ page_isRegression pg1 = true.
Proof.
  intros details.
  destruct (chart_titles_match_series details Train.initial "t1" Progress.initial
              (Metric.mk (Some 1%Z) None None None None None None None None None None
                 (Some (9 # 10)) None (Some (1 # 2)) None None) eq_refl)
    as [(H1 & H2 & _)|(H1 & _)].
  - split; [exact H1|exact H2].
  - discriminate H1.
Defined.

Lemma outcome_buttons_match_notifications_witness :
  let pg := trainLoaded (forest_run "TRAINING") in
  let pg' := (Train.onStatusUpdate (StatusUpdate.mk "SUCCESS" None) pg).2 in
  TrainView.view pg = TrainView.MainView
  ∧ TrainView.resultsButton pg' = true
  ∧ notified pg pg' = [toast_success "Training Completed Successfully!"].
Proof.
  intros pg pg'.
  destruct outcome_buttons_match_notifications as (Hhandled & _).
  destruct (Hhandled pg (StatusUpdate.mk "SUCCESS" None) eq_refl eq_refl)
    as (_ & Hresults & _).
  split; [reflexivity|]. split; [|reflexivity].
  apply Hresults. reflexivity.
Defined.

End TrainPageWitnesses.

(** ** The parameters of the training request *)

Section TrainingRequest.

Implicit Types (parameters : list ConfigureTrain.Param)
               (params : gmap string ConfigureTrain.Value).

Lemma finalParams_lookup parameters params k v :
  ConfigureTrain.finalParams parameters params !! k = Some v
  ↔ params !! k = Some v ∧ ConfigureTrain.kept parameters k v = true.
Proof. unfold ConfigureTrain.finalParams. by rewrite map_lookup_filter_Some. Qed.

Lemma defaultParams_snoc parameters q :
  ConfigureTrain.defaultParams (parameters ++ [q])
  = <[ConfigureTrain.name q := ConfigureTrain.initialValue q]>
      (ConfigureTrain.defaultParams parameters).
Proof. unfold ConfigureTrain.defaultParams. by rewrite fold_left_app. Qed.

Lemma defaultParams_lookup parameters p :
  NoDup (ConfigureTrain.name <$> parameters) → p ∈ parameters →
  ConfigureTrain.defaultParams parameters !! ConfigureTrain.name p
  = Some (ConfigureTrain.initialValue p).
Proof.
  induction parameters as [|q parameters IH] using rev_ind; intros Hnd Hin.
  - by apply elem_of_nil in Hin.
  - rewrite defaultParams_snoc. rewrite fmap_app in Hnd. simpl in Hnd.
    apply NoDup_app in Hnd as (Hnd & Hfresh & _).
    apply elem_of_app in Hin as [Hin|Hin].
    + rewrite lookup_insert_ne; [by apply IH|].
      intros Heq. apply (Hfresh (ConfigureTrain.name p)).
      * apply list_elem_of_fmap. by exists p.
      * rewrite <- Heq. apply list_elem_of_singleton. done.
    + apply list_elem_of_singleton in Hin as ->. apply lookup_insert_eq.
Qed.

Lemma findByName_lookup parameters p :
  NoDup (ConfigureTrain.name <$> parameters) → p ∈ parameters →
  ConfigureTrain.findByName parameters (ConfigureTrain.name p) = Some p.
Proof.
  unfold ConfigureTrain.findByName.
  induction parameters as [|q parameters IH]; intros Hnd Hin.
  - by apply elem_of_nil in Hin.
  - simpl in *. apply NoDup_cons in Hnd as [Hfresh Hnd].
    apply elem_of_cons in Hin as [->|Hin].
    + by rewrite String.eqb_refl.
    + destruct (String.eqb_spec (ConfigureTrain.name q) (ConfigureTrain.name p))
        as [Heq|_]; [|by apply IH].
      exfalso. apply Hfresh. rewrite Heq. apply list_elem_of_fmap. by exists p.
Qed.

Lemma findTarget_type parameters t :
  ConfigureTrain.findTarget parameters = Some t →
  ConfigureTrain.type t = "target_column".
Proof.
  unfold ConfigureTrain.findTarget. intros Hfind.
  apply find_some in Hfind as [_ Heq]. by apply String.eqb_eq.
Qed.

(** X25.  What the training request carries.  Every parameter of the form
    is sent as it is, [false] and [0] included, except that an empty
    string is never sent and [null] is sent only for a parameter whose
    configured default is [null] and which is not the target column.  When
    the model has a target column, the request is posted only with a value
    for it; without one the handler stops with the notification that asks
    for it.  A number parameter whose default is [null] is left out of the
    request while the form is untouched, and is sent as [null] once a
    number was entered and cleared. *)
Theorem training_request_parameters parameters params :
  let body := ConfigureTrain.finalParams parameters params in
  (∀ k v, body !! k = Some v → params !! k = Some v)
  ∧ (∀ k, body !! k ≠ Some (ConfigureTrain.VStr ""))
  ∧ (∀ k, body !! k = Some ConfigureTrain.VNull →
       ∃ p, ConfigureTrain.findByName parameters k = Some p
            ∧ ConfigureTrain.default p = ConfigureTrain.VNull
            ∧ ConfigureTrain.type p ≠ "target_column")
  ∧ (∀ k v, params !! k = Some v →
       v ≠ ConfigureTrain.VNull → v ≠ ConfigureTrain.VStr "" → body !! k = Some v)
  ∧ (∀ t, ConfigureTrain.findTarget parameters = Some t →
       ConfigureTrain.handleStartTraining parameters params
       = (if ConfigureTrain.falsy (valueOf params (ConfigureTrain.name t))
          then ConfigureTrain.Stopped (select_target t)
          else ConfigureTrain.Posted body))
  ∧ (ConfigureTrain.findTarget parameters = None →
     ConfigureTrain.handleStartTraining parameters params = ConfigureTrain.Posted body)
  ∧ (∀ p text number checked,
       NoDup (ConfigureTrain.name <$> parameters) → p ∈ parameters →
       ConfigureTrain.type p = "number" →
       ConfigureTrain.default p = ConfigureTrain.VNull →
       ConfigureTrain.finalParams parameters (ConfigureTrain.defaultParams parameters)
         !! ConfigureTrain.name p = None
       ∧ ConfigureTrain.finalParams parameters
           (ConfigureTrain.handleChange p "" number checked
              (ConfigureTrain.handleChange p text number checked
                 (ConfigureTrain.defaultParams parameters)))
           !! ConfigureTrain.name p = Some ConfigureTrain.VNull).
Proof.
  intros body. subst body.
  split; [|split; [|split; [|split; [|split; [|split]]]]].
  - intros k v Hk. by apply finalParams_lookup in Hk as [? _].
  - intros k Hk. apply finalParams_lookup in Hk as [_ Hkept]. done.
  - intros k Hk. apply finalParams_lookup in Hk as [_ Hkept].
    unfold ConfigureTrain.kept in Hkept.
    destruct (ConfigureTrain.findByName parameters k) as [p|]; [|done].
    exists p. split; [done|].
    apply andb_prop in Hkept as [Hnull Hty]. split.
    + by destruct (ConfigureTrain.default p).
    + intros Heq. rewrite Heq in Hty. done.
  - intros k v Hk Hnn Hne. apply finalParams_lookup. split; [done|].
    unfold ConfigureTrain.kept. destruct v as [| |[|]|q|s]; try done.
    destruct (String.eqb_spec s "") as [->|]; done.
  - intros t Ht. unfold ConfigureTrain.handleStartTraining, valueOf, select_target.
    rewrite Ht.
    assert (ConfigureTrain.falsy
              (from_option id ConfigureTrain.VUndefined
                 (ConfigureTrain.finalParams parameters params !! ConfigureTrain.name t))
            = ConfigureTrain.falsy
                (from_option id ConfigureTrain.VUndefined
                   (params !! ConfigureTrain.name t))) as ->; [|done].
    destruct (params !! ConfigureTrain.name t) as [v|] eqn:Hv.
    + destruct (ConfigureTrain.kept parameters (ConfigureTrain.name t) v) eqn:Hkept.
      * by rewrite (proj2 (finalParams_lookup parameters params _ v) (conj Hv Hkept)).
      * assert (ConfigureTrain.finalParams parameters params !! ConfigureTrain.name t
                = None) as ->.
        { apply eq_None_not_Some. intros [v' Hv'].
          apply finalParams_lookup in Hv' as [Hv' Hk']. congruence. }
        simpl. unfold ConfigureTrain.kept in Hkept.
        destruct v as [| |[|]|q|s]; try done.
        simpl. by destruct (String.eqb s "").
    + assert (ConfigureTrain.finalParams parameters params !! ConfigureTrain.name t
              = None) as ->; [|done].
      apply eq_None_not_Some. intros [v' Hv'].
      apply finalParams_lookup in Hv' as [Hv' _]. congruence.
  - intros Hnone. unfold ConfigureTrain.handleStartTraining. by rewrite Hnone.
  - intros p text number checked Hnd Hin Hty Hdef.
    pose proof (defaultParams_lookup parameters p Hnd Hin) as Hinit.
    pose proof (findByName_lookup parameters p Hnd Hin) as Hfind.
    assert (ConfigureTrain.initialValue p = ConfigureTrain.VStr "") as Hiv.
    { unfold ConfigureTrain.initialValue. by rewrite Hty, Hdef. }
    split.
    + apply eq_None_not_Some. intros [v Hv].
      apply finalParams_lookup in Hv as [Hv Hkept].
      rewrite Hinit, Hiv in Hv. injection Hv as <-. done.
    + apply finalParams_lookup. unfold ConfigureTrain.handleChange,
        ConfigureTrain.handleParamChange. rewrite Hty. simpl.
      split; [apply lookup_insert_eq|].
      unfold ConfigureTrain.kept. rewrite Hfind, Hdef, Hty. done.
Qed.

End TrainingRequest.

Section TrainingRequestWitnesses.

Lemma training_request_parameters_witness :
  ConfigureTrain.handleStartTraining forest (ConfigureTrain.defaultParams forest)
  = ConfigureTrain.Stopped
      (toast_error "Please select the 'Target Column' before starting.").
Proof.
  destruct (training_request_parameters forest (ConfigureTrain.defaultParams forest))
    as (_ & _ & _ & _ & Htarget & _).
  exact (Htarget (ConfigureTrain.mkParam "target_column" "Target Column" "target_column"
                    ConfigureTrain.VNull None) eq_refl).
Defined.

End TrainingRequestWitnesses.
